(** * Challenge Session Engine of Quizzo (src/app.py)

    A shallow embedding of the challenge routes of the Flask application:
    [start_challenge], [take_challenge], [submit_challenge_answer],
    [challenge_results] and the scoring function
    [calculate_challenge_points], over an explicit model of the four
    challenge tables.

    Conventions of the model.
    - Integers of the program are [Z].  Python floats are the kernel's
      binary64 floats, so that [a / b], [x * 100], [round] and the
      comparisons against [0.5], [0.7], [0.85] are the program's own.
    - A [datetime] is its number of microseconds since the epoch (UTC).
    - Text is a [string] of code points below 256.
    - A nullable column is an [option].
    - The routes are modelled from the point where the logged-in student
      is known: [user_id] stands for [session['user_id']].
    - Requests are served one after the other. *)

From Stdlib Require Import ZArith List String Ascii Bool Lia.
From Stdlib Require Floats Uint63.
Import ListNotations.

Local Open Scope string_scope.
Local Open Scope Z_scope.

(* ================================================================== *)
(** ** Python numbers *)

Module Py.

(** [float(z)] for an integer of magnitude below [2^63]. *)
Definition float_of_int (z : Z) : PrimFloat.float :=
  if z <? 0 then PrimFloat.opp (PrimFloat.of_uint63 (Uint63.of_Z (- z)))
  else PrimFloat.of_uint63 (Uint63.of_Z z).

(** [a / b] on two integers (true division); exact operands below [2^53]. *)
Definition true_div (a b : Z) : PrimFloat.float :=
  PrimFloat.div (float_of_int a) (float_of_int b).

(** [x / n] and [x * n] for a float [x] and an integer [n]. *)
Definition div_int (x : PrimFloat.float) (n : Z) : PrimFloat.float := PrimFloat.div x (float_of_int n).
Definition mul_int (x : PrimFloat.float) (n : Z) : PrimFloat.float := PrimFloat.mul x (float_of_int n).

(** The integer nearest to [m * 2^e], ties to the even one. *)
Definition round_half_even (m : Z) (e : Z) : Z :=
  if 0 <=? e then m * 2 ^ e
  else
    let d := 2 ^ (- e) in
    let q := m / d in
    let r := m mod d in
    if 2 * r <? d then q
    else if d <? 2 * r then q + 1
    else if Z.even q then q else q + 1.

(** [round(x)] with one argument: an integer, ties to even, computed on
    the exact value of the float. *)
Definition round (x : PrimFloat.float) : Z :=
  match FloatOps.Prim2SF x with
  | SpecFloat.S754_finite s m e =>
      let v := round_half_even (Z.pos m) e in if s then - v else v
  | _ => 0
  end.

(** The float literals [0.5], [0.7] and [0.85] of the scoring function,
    each the binary64 value nearest to the decimal. *)
Module Lit.
Import PrimFloat.
Definition lit_0_5 : float := 0x1p-1%float.
Definition lit_0_7 : float := 0x1.6666666666666p-1%float.
Definition lit_0_85 : float := 0x1.b333333333333p-1%float.
End Lit.


(** Truthiness of an optional integer: [None] and [0] are false. *)
Definition truthy_int (o : option Z) : bool :=
  match o with Some n => negb (n =? 0) | None => false end.

(** Truthiness of an optional text: [None] and [''] are false. *)
Definition truthy_str (o : option string) : bool :=
  match o with Some EmptyString => false | Some _ => true | None => false end.

(** [str.isspace] on one code point below 256. *)
Definition isspace (c : ascii) : bool :=
  let n := N_of_ascii c in
  (((9 <=? n) && (n <=? 13)) || ((28 <=? n) && (n <=? 32))
   || (n =? 133) || (n =? 160))%N.

(** [str.lower] on one code point below 256. *)
Definition lower_char (c : ascii) : ascii :=
  let n := N_of_ascii c in
  if (((65 <=? n) && (n <=? 90))
      || ((192 <=? n) && (n <=? 222) && negb (n =? 215)))%N
  then ascii_of_N (n + 32) else c.

Fixpoint lower (s : string) : string :=
  match s with
  | EmptyString => EmptyString
  | String c s' => String (lower_char c) (lower s')
  end.

Fixpoint lstrip (s : string) : string :=
  match s with
  | EmptyString => EmptyString
  | String c s' => if isspace c then lstrip s' else s
  end.

Fixpoint rstrip (s : string) : string :=
  match s with
  | EmptyString => EmptyString
  | String c s' =>
      match rstrip s' with
      | EmptyString => if isspace c then EmptyString else String c EmptyString
      | r => String c r
      end
  end.

Definition strip (s : string) : string := rstrip (lstrip s).

End Py.

(* ================================================================== *)
(** ** The tables (class Challenge, ChallengeQuestion, ChallengeSession,
       ChallengeAnswer) *)

Record Challenge := mkChallenge {
  c_id : Z;
  time_limit_minutes : option Z;
  max_attempts : Z;
  passing_score : Z;
  is_active : bool
}.

Record ChallengeQuestion := mkQuestion {
  q_id : Z;
  q_challenge_id : Z;
  question_type : string;
  option_a : option string;
  option_b : option string;
  option_c : option string;
  option_d : option string;
  correct_option : option string;
  answer : option string;
  order_index : Z
}.

(** The values of [ChallengeSession.status] named by the column. *)
Inductive Status := in_progress | completed | abandoned.

Definition status_eqb (a b : Status) : bool :=
  match a, b with
  | in_progress, in_progress | completed, completed | abandoned, abandoned => true
  | _, _ => false
  end.

(** The dictionary built by [calculate_challenge_points]. *)
Record PointsBreakdown := mkPoints {
  base_points : Z;
  correctness_bonus : Z;
  speed_bonus : Z;
  completion_bonus : Z;
  first_completion_bonus : Z;
  total : Z
}.

Record ChallengeSession := mkSession {
  s_id : Z;
  student_id : Z;
  s_challenge_id : Z;
  start_time : Z;
  end_time : option Z;
  status : Status;
  score : Z;
  percentage : Z;
  points : Z;
  points_breakdown : option PointsBreakdown
}.

Record ChallengeAnswer := mkAnswer {
  a_id : Z;
  a_session_id : Z;
  a_question_id : Z;
  a_answer : string;
  is_correct : bool;
  answered_at : Z
}.

Record DB := mkDB {
  challenges : list Challenge;
  questions : list ChallengeQuestion;
  sessions : list ChallengeSession;
  answers : list ChallengeAnswer
}.

(* ================================================================== *)
(** ** calculate_challenge_points *)

(** The query of the first-completion bonus: a session of the challenge
    with status completed and an [end_time] strictly before [t].  The
    route and the script set the end time of the session before they
    score it.  For a session without one the comparison with [None] is
    refused while the query is built and the function raises: the
    [None] that [first_completion] gives there is outside what the model
    covers, and the properties below take a session with an end time. *)
Definition completed_before (cid t : Z) (s : ChallengeSession) : bool :=
  (s_challenge_id s =? cid) && status_eqb (status s) completed
  && match end_time s with Some e => e <? t | None => false end.

Definition first_completion (tbl : list ChallengeSession) (cid : Z)
    (session_end : option Z) : option ChallengeSession :=
  match session_end with
  | Some t => find (completed_before cid t) tbl
  | None => None
  end.

(** The speed bonus.  Times are in microseconds.  The seconds taken and
    the ratio are binary64 numbers, as in the function; the integers
    are converted as Python converts them while the time taken is below
    [2 ^ 53] microseconds (285 years) and the seconds allowed are below
    [2 ^ 53] in absolute value, which is what the model covers. *)
Definition speed_bonus_of (session_obj : ChallengeSession) (challenge : Challenge) : Z :=
  match time_limit_minutes challenge, end_time session_obj with
  | Some limit, Some e =>
      if Py.truthy_int (Some limit) then
        let time_taken_seconds := Py.true_div (e - start_time session_obj) 1000000 in
        let total_time_allowed := limit * 60 in
        let time_ratio := Py.div_int time_taken_seconds total_time_allowed in
        if PrimFloat.leb time_ratio Py.Lit.lit_0_5 then 100
        else if PrimFloat.leb time_ratio Py.Lit.lit_0_7 then 50
        else if PrimFloat.leb time_ratio Py.Lit.lit_0_85 then 25
        else 0
      else 0
  | _, _ => 0
  end.

Definition completion_bonus_of (pct : Z) : Z :=
  if 90 <=? pct then 50
  else if 80 <=? pct then 30
  else if 70 <=? pct then 20
  else if 60 <=? pct then 10
  else 0.

(** [tbl] is the ChallengeSession table the function queries; the
    argument [total_questions] is received and never read. *)
Definition calculate_challenge_points (tbl : list ChallengeSession)
    (session_obj : ChallengeSession) (challenge : Challenge)
    (total_questions : Z) : PointsBreakdown :=
  let base := 50 in
  let correct_answers := score session_obj in
  let correctness := correct_answers * 10 in
  let speed := speed_bonus_of session_obj challenge in
  let completion := completion_bonus_of (percentage session_obj) in
  let first :=
    match first_completion tbl (c_id challenge) (end_time session_obj) with
    | None => 100
    | Some _ => 0
    end in
  mkPoints base correctness speed completion first
           (base + correctness + speed + completion + first).

(* ================================================================== *)
(** ** Queries *)

(** [Model.query.get(id)]: the row with that primary key. *)
Definition get_challenge (db : DB) (id : Z) : option Challenge :=
  find (fun c => c_id c =? id) (challenges db).

Definition get_session (db : DB) (id : Z) : option ChallengeSession :=
  find (fun s => s_id s =? id) (sessions db).

Definition get_question (db : DB) (id : Z) : option ChallengeQuestion :=
  find (fun q => q_id q =? id) (questions db).

(** [ChallengeQuestion.query.filter_by(challenge_id=cid)]. *)
Definition questions_of (db : DB) (cid : Z) : list ChallengeQuestion :=
  filter (fun q => q_challenge_id q =? cid) (questions db).

(** [.order_by(ChallengeQuestion.order_index)]: rows of equal index keep
    the order of the table. *)
Fixpoint insert_by_order (q : ChallengeQuestion) (l : list ChallengeQuestion)
    : list ChallengeQuestion :=
  match l with
  | [] => [q]
  | x :: l' =>
      if order_index q <=? order_index x then q :: l
      else x :: insert_by_order q l'
  end.

Definition order_by_index (l : list ChallengeQuestion) : list ChallengeQuestion :=
  fold_right insert_by_order [] l.

(** [ChallengeAnswer.query.filter_by(session_id=sid)]. *)
Definition answers_of (db : DB) (sid : Z) : list ChallengeAnswer :=
  filter (fun a => a_session_id a =? sid) (answers db).

(** [ChallengeAnswer.query.filter_by(session_id=sid, question_id=qid)]. *)
Definition answer_matches (sid qid : Z) (a : ChallengeAnswer) : bool :=
  (a_session_id a =? sid) && (a_question_id a =? qid).

Definition existing_answer (db : DB) (sid qid : Z) : option ChallengeAnswer :=
  find (answer_matches sid qid) (answers db).

(** [ChallengeSession.query.filter_by(challenge_id=cid, student_id=uid)]:
    the sessions of every status. *)
Definition attempts_of (db : DB) (cid uid : Z) : list ChallengeSession :=
  filter (fun s => (s_challenge_id s =? cid) && (student_id s =? uid)) (sessions db).

(** [...filter_by(challenge_id=cid, student_id=uid, status='in_progress').first()]. *)
Definition ongoing_session (db : DB) (cid uid : Z) : option ChallengeSession :=
  find (fun s => (s_challenge_id s =? cid) && (student_id s =? uid)
                 && status_eqb (status s) in_progress) (sessions db).

(** [sum(1 for ans in answered_questions if ans.is_correct)]. *)
Definition count_correct (l : list ChallengeAnswer) : Z :=
  Z.of_nat (List.length (filter is_correct l)).

(** [round((correct / total) * 100)]. *)
Definition percent (correct total : Z) : Z :=
  Py.round (Py.mul_int (Py.true_div correct total) 100).

(** The primary key given to a new row, as SQLite gives it: one more
    than the largest key in use, 1 in an empty table.  This holds while
    the keys in use are positive and below [2 ^ 63 - 1], the largest key
    of all; with that key in use SQLite looks for an unused key at
    random. *)
Definition next_id (ids : list Z) : Z := 1 + fold_right Z.max 0 ids.

(** Writing back the object that [get_session] returned: the first row
    with its primary key. *)
Fixpoint update_session (tbl : list ChallengeSession) (s' : ChallengeSession)
    : list ChallengeSession :=
  match tbl with
  | [] => []
  | s :: t => if s_id s =? s_id s' then s' :: t else s :: update_session t s'
  end.

Definition with_sessions (db : DB) (tbl : list ChallengeSession) : DB :=
  mkDB (challenges db) (questions db) tbl (answers db).

Definition with_answers (db : DB) (tbl : list ChallengeAnswer) : DB :=
  mkDB (challenges db) (questions db) (sessions db) tbl.

(* ================================================================== *)
(** ** The answer check of submit_challenge_answer *)

Inductive Outcome (A : Type) :=
| Returned (a : A)
| AttributeError.   (* 'NoneType' object has no attribute 'strip' *)
Arguments Returned {A} a.
Arguments AttributeError {A}.

(** [o == s] for a nullable text [o]. *)
Definition opt_eqb (o : option string) (s : string) : bool :=
  match o with Some t => String.eqb t s | None => false end.

(** The block "Check if answer is correct": [form_answer] is
    [request.form.get('answer')]. *)
Definition answer_is_correct (question : ChallengeQuestion)
    (form_answer : option string) : Outcome bool :=
  match form_answer with
  | Some (String _ _ as text) =>
      if String.eqb (question_type question) "multiple_choice" then
        let correct_option_letter := correct_option question in
        let correct_answer :=
          if opt_eqb correct_option_letter "A" then option_a question
          else if opt_eqb correct_option_letter "B" then option_b question
          else if opt_eqb correct_option_letter "C" then option_c question
          else if opt_eqb correct_option_letter "D" then option_d question
          else None in
        Returned (opt_eqb correct_answer text)
      else
        match answer question with
        | Some correct_answer =>
            Returned (String.eqb (Py.lower (Py.strip text))
                                 (Py.lower (Py.strip correct_answer)))
        | None => AttributeError
        end
  | _ => Returned false
  end.

(* ================================================================== *)
(** ** Responses *)

(** The messages passed to [flash]. *)
Inductive Flash :=
| Not_currently_available      (* 'This challenge is not currently available.' *)
| No_questions_yet             (* 'This challenge has no questions yet.' *)
| Max_attempts_reached (n : Z) (* 'You have reached the maximum number of attempts (n) ...' *)
| Error_starting               (* 'An error occurred while starting the challenge. ...' *)
| Access_denied                (* 'Access denied to this challenge session.' *)
| No_questions                 (* 'This challenge has no questions.' *)
| Error_loading                (* 'An error occurred while loading the challenge. ...' *)
| Please_select_answer         (* 'Please select an answer.' *)
| Already_answered             (* 'This question has already been answered.' *)
| Time_expired_submitted       (* 'Time expired! Your answer was submitted.' *)
| Time_expired_no_answer       (* 'Time expired! No answer was submitted.' *)
| Answer_submitted             (* 'Answer submitted successfully!' *)
| Error_submitting             (* 'An error occurred while submitting your answer. ...' *)
| Error_results.               (* 'An error occurred while loading results. ...' *)

(** The routes named by [url_for]. *)
Inductive Target :=
| To_student_challenges
| To_take_challenge (session_id : Z)
| To_challenge_results (session_id : Z).

Record Progress := mkProgress {
  p_current : Z;
  p_total : Z;
  p_percentage : Z
}.

(** The context of 'challenge_results.html'. *)
Record Results := mkResults {
  r_challenge : Challenge;
  r_session : ChallengeSession;
  total_questions : Z;
  correct_answers : Z;
  r_percentage : Z;
  passed : bool;
  r_passing_score : Z;
  time_taken : option Z;   (* whole seconds: str(time_diff).split('.')[0] *)
  questions_with_answers : list (ChallengeQuestion * ChallengeAnswer);
  r_points_breakdown : option PointsBreakdown
}.

Inductive Response :=
| Redirect (target : Target) (flashed : option Flash)
| Render_take_challenge (s : ChallengeSession) (c : Challenge)
    (question : ChallengeQuestion) (progress : Progress)
    (per_question_time : option Z)
| Render_challenge_results (r : Results).

(* ================================================================== *)
(** ** The routes

    Each route takes the tables and returns the tables after its commit
    together with its response.  [now] is [datetime.now(timezone.utc)].
    A [get_or_404] that finds no row raises inside the route's [try]; the
    [except Exception] branch answers with the route's error message. *)

Definition start_challenge (db : DB) (now user_id challenge_id : Z) : DB * Response :=
  match get_challenge db challenge_id with
  | None => (db, Redirect To_student_challenges (Some Error_starting))
  | Some challenge =>
      if negb (is_active challenge) then
        (db, Redirect To_student_challenges (Some Not_currently_available))
      else
        let question_count := Z.of_nat (List.length (questions_of db challenge_id)) in
        if question_count =? 0 then
          (db, Redirect To_student_challenges (Some No_questions_yet))
        else
          (* the query for a completed session, [existing_session], is
             made here and its result is not used *)
          let attempt_count :=
            Z.of_nat (List.length (attempts_of db challenge_id user_id)) in
          if negb (max_attempts challenge =? 0)
             && (max_attempts challenge <=? attempt_count) then
            (db, Redirect To_student_challenges
                   (Some (Max_attempts_reached (max_attempts challenge))))
          else
            match ongoing_session db challenge_id user_id with
            | Some s => (db, Redirect (To_take_challenge (s_id s)) None)
            | None =>
                let new_session :=
                  mkSession (next_id (map s_id (sessions db))) user_id challenge_id
                            now None in_progress 0 0 0 None in
                (with_sessions db (sessions db ++ [new_session]),
                 Redirect (To_take_challenge (s_id new_session)) None)
            end
  end.

(** The loop "Find the first unanswered question": the question and its
    1-based number, [i] being the number of questions already passed. *)
Fixpoint first_unanswered (answered_question_ids : list Z)
    (qs : list ChallengeQuestion) (i : Z) : option (ChallengeQuestion * Z) :=
  match qs with
  | [] => None
  | question :: qs' =>
      if negb (existsb (Z.eqb (q_id question)) answered_question_ids)
      then Some (question, i + 1)
      else first_unanswered answered_question_ids qs' (i + 1)
  end.

(** The four assignments made when every question is answered. *)
Definition finished (cs : ChallengeSession) (correct n now : Z) : ChallengeSession :=
  mkSession (s_id cs) (student_id cs) (s_challenge_id cs) (start_time cs)
            (Some now) completed correct (percent correct n)
            (points cs) (points_breakdown cs).

(** [challenge_session.points = ...; challenge_session.points_breakdown = ...]. *)
Definition with_points (cs : ChallengeSession) (pb : PointsBreakdown) : ChallengeSession :=
  mkSession (s_id cs) (student_id cs) (s_challenge_id cs) (start_time cs)
            (end_time cs) (status cs) (score cs) (percentage cs)
            (total pb) (Some pb).

Definition take_challenge (db : DB) (now user_id session_id : Z) : DB * Response :=
  match get_session db session_id with
  | None => (db, Redirect To_student_challenges (Some Error_loading))
  | Some challenge_session =>
      if negb (student_id challenge_session =? user_id) then
        (db, Redirect To_student_challenges (Some Access_denied))
      else if status_eqb (status challenge_session) completed then
        (db, Redirect (To_challenge_results session_id) None)
      else
        match get_challenge db (s_challenge_id challenge_session) with
        | None => (db, Redirect To_student_challenges (Some Error_loading))
        | Some challenge =>
            let qs := order_by_index (questions_of db (c_id challenge)) in
            let n := Z.of_nat (List.length qs) in
            match qs with
            | [] => (db, Redirect To_student_challenges (Some No_questions))
            | _ :: _ =>
                let answered_questions := answers_of db session_id in
                let answered_question_ids := map a_question_id answered_questions in
                match first_unanswered answered_question_ids qs 0 with
                | None =>
                    let cs1 := finished challenge_session
                                        (count_correct answered_questions) n now in
                    (* the query inside the scoring function sees the
                       pending assignments *)
                    let pb := calculate_challenge_points
                                (update_session (sessions db) cs1) cs1 challenge n in
                    let cs2 := with_points cs1 pb in
                    (with_sessions db (update_session (sessions db) cs2),
                     Redirect (To_challenge_results session_id) None)
                | Some (current_question, current_question_num) =>
                    let progress :=
                      mkProgress current_question_num n
                                 (percent (current_question_num - 1) n) in
                    let per_question_time :=
                      match time_limit_minutes challenge with
                      | Some limit =>
                          if Py.truthy_int (Some limit) then Some ((limit * 60) / n)
                          else None
                      | None => None
                      end in
                    (db, Render_take_challenge challenge_session challenge
                           current_question progress per_question_time)
                end
            end
        end
  end.

(** [form_answer] is [request.form.get('answer')], [is_auto_submit] is
    [request.form.get('auto_submit', 'false') == 'true'], [question_id] is
    the integer read from the form. *)
Definition submit_challenge_answer (db : DB) (now user_id session_id : Z)
    (question_id : Z) (form_answer : option string) (is_auto_submit : bool)
    : DB * Response :=
  match get_session db session_id with
  | None => (db, Redirect (To_take_challenge session_id) (Some Error_submitting))
  | Some challenge_session =>
      if negb (student_id challenge_session =? user_id) then
        (db, Redirect To_student_challenges (Some Access_denied))
      else if status_eqb (status challenge_session) completed then
        (db, Redirect (To_challenge_results session_id) None)
      else if negb (Py.truthy_str form_answer) && negb is_auto_submit then
        (db, Redirect (To_take_challenge session_id) (Some Please_select_answer))
      else
        match get_question db question_id with
        | None => (db, Redirect (To_take_challenge session_id) (Some Error_submitting))
        | Some question =>
            match answer_is_correct question form_answer with
            | AttributeError =>
                (db, Redirect (To_take_challenge session_id) (Some Error_submitting))
            | Returned correct =>
                match existing_answer db session_id question_id with
                | Some _ =>
                    (db, Redirect (To_take_challenge session_id) (Some Already_answered))
                | None =>
                    let challenge_answer :=
                      mkAnswer (next_id (map a_id (answers db))) session_id question_id
                               (match form_answer with Some t => t | None => "" end)
                               correct now in
                    (with_answers db (answers db ++ [challenge_answer]),
                     Redirect (To_take_challenge session_id)
                       (Some (if is_auto_submit then
                                if Py.truthy_str form_answer
                                then Time_expired_submitted
                                else Time_expired_no_answer
                              else Answer_submitted)))
                end
            end
        end
  end.

(** [challenge_session.score = ...; challenge_session.percentage = ...]. *)
Definition with_score (cs : ChallengeSession) (correct pct : Z) : ChallengeSession :=
  mkSession (s_id cs) (student_id cs) (s_challenge_id cs) (start_time cs)
            (end_time cs) (status cs) correct pct
            (points cs) (points_breakdown cs).

Definition challenge_results (db : DB) (user_id session_id : Z) : DB * Response :=
  match get_session db session_id with
  | None => (db, Redirect To_student_challenges (Some Error_results))
  | Some challenge_session =>
      if negb (student_id challenge_session =? user_id) then
        (db, Redirect To_student_challenges (Some Access_denied))
      else if negb (status_eqb (status challenge_session) completed) then
        (db, Redirect (To_take_challenge session_id) None)
      else
        match get_challenge db (s_challenge_id challenge_session) with
        | None => (db, Redirect To_student_challenges (Some Error_results))
        | Some challenge =>
            let total_questions :=
              Z.of_nat (List.length (questions_of db (c_id challenge))) in
            let answered_questions := answers_of db session_id in
            let correct_answers := count_correct answered_questions in
            let pct :=
              if 0 <? total_questions then percent correct_answers total_questions
              else 0 in
            let differs :=
              negb (score challenge_session =? correct_answers)
              || negb (percentage challenge_session =? pct) in
            let cs' :=
              if differs then with_score challenge_session correct_answers pct
              else challenge_session in
            let db' :=
              if differs then with_sessions db (update_session (sessions db) cs')
              else db in
            let passing := if passing_score challenge =? 0 then 70
                           else passing_score challenge in
            let time_taken :=
              match end_time cs' with
              | Some e => Some ((e - start_time cs') / 1000000)
              | None => None
              end in
            let questions_with_answers :=
              flat_map (fun a => match get_question db (a_question_id a) with
                                 | Some q => [(q, a)]
                                 | None => []
                                 end) answered_questions in
            (db', Render_challenge_results
                    (mkResults challenge cs' total_questions correct_answers pct
                               (passing <=? pct) passing time_taken
                               questions_with_answers (points_breakdown cs')))
        end
  end.

(** The browser following a redirect to the results page. *)
Definition follow (user_id : Z) (r : DB * Response) : DB * Response :=
  match snd r with
  | Redirect (To_challenge_results sid) _ => challenge_results (fst r) user_id sid
  | _ => r
  end.

(** Completion as the student sees it: the challenge page, and the
    results page it redirects to once no question is left. *)
Definition try_complete (db : DB) (now user_id session_id : Z) : DB * Response :=
  follow user_id (take_challenge db now user_id session_id).

(** One request of a student, with the time it is served at. *)
Inductive Request :=
| Start (user_id challenge_id : Z)
| Take (user_id session_id : Z)
| Submit (user_id session_id question_id : Z) (form_answer : option string)
         (is_auto_submit : bool)
| Show_results (user_id session_id : Z).

Definition handle (db : DB) (now : Z) (r : Request) : DB * Response :=
  match r with
  | Start u c => start_challenge db now u c
  | Take u s => take_challenge db now u s
  | Submit u s q a auto => submit_challenge_answer db now u s q a auto
  | Show_results u s => challenge_results db u s
  end.

(** The tables after a sequence of requests. *)
Fixpoint run (db : DB) (reqs : list (Z * Request)) : DB :=
  match reqs with
  | [] => db
  | (now, r) :: rest => run (fst (handle db now r)) rest
  end.

(* ================================================================== *)
(** * Properties *)

(** ** Scoring *)

(** [percent] is the program's rounding, not the rounding of the exact
    quotient: 23 of 40 is 57 (the float product is just below 57.5), and
    a tie goes to the even integer, so 1 of 8 is 12. *)
Example percent_examples :
  percent 4 5 = 80 /\ percent 1 2 = 50 /\ percent 2 3 = 67 /\
  percent 23 40 = 57 /\ percent 1 8 = 12 /\ percent 3 8 = 38.
Proof. vm_compute. repeat split. Qed.

Section Scoring.

Variable tbl : list ChallengeSession.
Variables (s : ChallengeSession) (c : Challenge).

(** No session of the challenge is completed with an earlier end. *)
Definition no_earlier_completion (t : Z) : Prop :=
  forall s', In s' tbl -> s_challenge_id s' = c_id c -> status s' = completed ->
             forall e, end_time s' = Some e -> t <= e.

Lemma status_eqb_eq (a b : Status) : status_eqb a b = true <-> a = b.
Proof. destruct a, b; simpl; split; congruence. Qed.

Lemma first_completion_None (t : Z) :
  no_earlier_completion t -> first_completion tbl (c_id c) (Some t) = None.
Proof.
  intros H. unfold first_completion.
  destruct (find _ tbl) as [s'|] eqn:F; [|reflexivity].
  apply find_some in F. destruct F as [Hin Hb].
  unfold completed_before in Hb.
  apply andb_true_iff in Hb. destruct Hb as [Hb He].
  apply andb_true_iff in Hb. destruct Hb as [Hc Hs].
  apply Z.eqb_eq in Hc. apply status_eqb_eq in Hs.
  destruct (end_time s') as [e|] eqn:E; [|discriminate].
  apply Z.ltb_lt in He. specialize (H s' Hin Hc Hs e E). lia.
Qed.

(** The total is the sum of the five components. *)
Lemma total_is_sum (n : Z) :
  let pb := calculate_challenge_points tbl s c n in
  total pb = base_points pb + correctness_bonus pb + speed_bonus pb
             + completion_bonus pb + first_completion_bonus pb.
Proof. reflexivity. Qed.

End Scoring.

(** C3.  A session with 4 correct answers and percentage 80, finished 4
    minutes (240 000 000 microseconds) after its start in a challenge
    limited to 10 minutes, with no completed session of the challenge
    ending earlier, is scored base 50, correctness 40, speed 100,
    completion 30, first completion 100, total 320, whatever the tables
    hold besides and whatever number of questions is passed. *)
Theorem scoring_example :
  forall (tbl : list ChallengeSession) (s : ChallengeSession) (c : Challenge)
         (total_questions : Z),
    score s = 4 ->
    percentage s = 80 ->
    time_limit_minutes c = Some 10 ->
    end_time s = Some (start_time s + 240000000) ->
    no_earlier_completion tbl c (start_time s + 240000000) ->
    calculate_challenge_points tbl s c total_questions
    = mkPoints 50 40 100 30 100 320.
Proof.
  intros tbl s c n Hscore Hpct Hlimit Hend Hfirst.
  unfold calculate_challenge_points, speed_bonus_of.
  rewrite Hscore, Hpct, Hlimit, Hend.
  rewrite (first_completion_None tbl c _ Hfirst).
  replace (start_time s + 240000000 - start_time s) with 240000000 by lia.
  vm_compute. reflexivity.
Qed.

Definition example_session : ChallengeSession :=
  mkSession 1 7 3 1000000 (Some 241000000) completed 4 80 0 None.

Definition example_challenge : Challenge := mkChallenge 3 (Some 10) 3 70 true.

(** A session of another student that completed the same challenge one
    second after [example_session] started. *)
Definition earlier_session : ChallengeSession :=
  mkSession 2 8 3 0 (Some 2000000) completed 5 100 0 None.

Lemma scoring_example_witness :
  calculate_challenge_points [example_session] example_session example_challenge 5
  = mkPoints 50 40 100 30 100 320.
Proof.
  apply (scoring_example [example_session] example_session example_challenge 5);
    try reflexivity.
  intros s' [<-|[]] _ _ e E. simpl in E. injection E as <-. simpl. lia.
Defined.

(** C9, as stated, fails: with the same session, challenge and number of
    questions the breakdown differs between two states of the
    ChallengeSession table. *)
Lemma scoring_depends_on_table :
  ~ (forall (tbl1 tbl2 : list ChallengeSession) (s : ChallengeSession)
            (c : Challenge) (total_questions : Z),
        calculate_challenge_points tbl1 s c total_questions
        = calculate_challenge_points tbl2 s c total_questions).
Proof.
  intros H.
  specialize (H [example_session] [earlier_session; example_session]
                example_session example_challenge 5).
  vm_compute in H. discriminate H.
Qed.

(** Whether the first-completion query finds a row. *)
Definition has_earlier_completion (tbl : list ChallengeSession) (c : Challenge)
    (s : ChallengeSession) : bool :=
  match first_completion tbl (c_id c) (end_time s) with
  | Some _ => true
  | None => false
  end.

(** C9, amended.  The breakdown is a function of the session, the
    challenge and the ChallengeSession table, and of the table only
    through the answer of the first-completion query; the number of
    questions passed is not read. *)
Theorem scoring_deterministic :
  forall (tbl1 tbl2 : list ChallengeSession) (s : ChallengeSession)
         (c : Challenge) (n1 n2 : Z),
    has_earlier_completion tbl1 c s = has_earlier_completion tbl2 c s ->
    calculate_challenge_points tbl1 s c n1 = calculate_challenge_points tbl2 s c n2.
Proof.
  intros tbl1 tbl2 s c n1 n2 H.
  unfold has_earlier_completion in H. unfold calculate_challenge_points.
  destruct (first_completion tbl1 (c_id c) (end_time s)),
           (first_completion tbl2 (c_id c) (end_time s));
    try discriminate; reflexivity.
Qed.

Lemma scoring_deterministic_witness :
  calculate_challenge_points [example_session] example_session example_challenge 5
  = calculate_challenge_points [] example_session example_challenge 9.
Proof.
  apply (scoring_deterministic [example_session] [] example_session
                               example_challenge 5 9).
  reflexivity.
Defined.

(* ================================================================== *)
(** ** Starting a challenge *)

(** C10.  A challenge whose [is_active] flag is false is refused with
    'This challenge is not currently available.' and a return to the
    challenge list, the tables untouched, whatever its questions and
    whatever the student's earlier sessions: the test comes before the
    question count and the attempt limit. *)
Theorem start_inactive_refused :
  forall (db : DB) (now user_id challenge_id : Z) (c : Challenge),
    get_challenge db challenge_id = Some c ->
    is_active c = false ->
    start_challenge db now user_id challenge_id
    = (db, Redirect To_student_challenges (Some Not_currently_available)).
Proof.
  intros db now u cid c Hget Hact.
  unfold start_challenge. rewrite Hget, Hact. reflexivity.
Qed.

Definition mcq (id cid idx : Z) (a b c d letter : string) : ChallengeQuestion :=
  mkQuestion id cid "multiple_choice" (Some a) (Some b) (Some c) (Some d)
             (Some letter) None idx.

(** An inactive challenge with two questions, three attempts allowed and
    no session yet. *)
Definition inactive_db : DB :=
  mkDB [mkChallenge 3 None 3 70 false]
       [mcq 1 3 0 "1" "2" "3" "4" "B"; mcq 2 3 1 "x" "y" "z" "w" "A"]
       [] [].

Lemma start_inactive_refused_witness :
  questions_of inactive_db 3 <> [] /\
  attempts_of inactive_db 3 7 = [] /\
  start_challenge inactive_db 50 7 3
  = (inactive_db, Redirect To_student_challenges (Some Not_currently_available)).
Proof.
  split; [discriminate|]. split; [reflexivity|].
  apply (start_inactive_refused inactive_db 50 7 3 (mkChallenge 3 None 3 70 false));
    reflexivity.
Defined.

(** The sessions of a student for a challenge that have a given status. *)
Definition attempts_with_status (db : DB) (cid uid : Z) (st : Status)
    : list ChallengeSession :=
  filter (fun s => status_eqb (status s) st) (attempts_of db cid uid).

Lemma attempts_by_status (db : DB) (cid uid : Z) :
  List.length (attempts_of db cid uid)
  = (List.length (attempts_with_status db cid uid in_progress)
     + List.length (attempts_with_status db cid uid completed)
     + List.length (attempts_with_status db cid uid abandoned))%nat.
Proof.
  unfold attempts_with_status.
  induction (attempts_of db cid uid) as [|s l IH]; [reflexivity|].
  simpl. destruct (status s); simpl; lia.
Qed.

(** C7.  When [max_attempts] is set (non-zero) and the student's
    sessions for the challenge, of every status together, number at
    least [max_attempts], [start_challenge] creates no session and sends
    the student back to the list with an error; for an active challenge
    that has questions the error is the attempt-limit message. *)
Theorem start_attempt_limit :
  forall (db : DB) (now user_id challenge_id : Z) (c : Challenge),
    get_challenge db challenge_id = Some c ->
    max_attempts c <> 0 ->
    max_attempts c
    <= Z.of_nat (List.length (attempts_with_status db challenge_id user_id in_progress)
                 + List.length (attempts_with_status db challenge_id user_id completed)
                 + List.length (attempts_with_status db challenge_id user_id abandoned)) ->
    fst (start_challenge db now user_id challenge_id) = db /\
    (exists f, snd (start_challenge db now user_id challenge_id)
               = Redirect To_student_challenges (Some f)) /\
    (is_active c = true -> questions_of db challenge_id <> [] ->
     snd (start_challenge db now user_id challenge_id)
     = Redirect To_student_challenges (Some (Max_attempts_reached (max_attempts c)))).
Proof.
  intros db now u cid c Hget Hset Hcount.
  rewrite <- attempts_by_status in Hcount.
  apply Z.eqb_neq in Hset. apply Z.leb_le in Hcount.
  unfold start_challenge. rewrite Hget, Hset, Hcount.
  destruct (is_active c); simpl.
  2: { split; [reflexivity|]. split; [eexists; reflexivity|discriminate]. }
  destruct (questions_of db cid) as [|q qs]; simpl.
  - split; [reflexivity|]. split; [eexists; reflexivity|].
    intros _ H. now elim H.
  - repeat split. eexists; reflexivity.
Qed.

(** Two attempts allowed; student 7 has one completed and one abandoned
    session. *)
Definition two_attempts_db : DB :=
  mkDB [mkChallenge 3 None 2 70 true]
       [mcq 1 3 0 "1" "2" "3" "4" "B"]
       [mkSession 1 7 3 0 (Some 90) completed 1 100 160 None;
        mkSession 2 7 3 100 (Some 150) abandoned 0 0 0 None]
       [].

Lemma start_attempt_limit_witness :
  fst (start_challenge two_attempts_db 200 7 3) = two_attempts_db /\
  snd (start_challenge two_attempts_db 200 7 3)
  = Redirect To_student_challenges (Some (Max_attempts_reached 2)).
Proof.
  destruct (start_attempt_limit two_attempts_db 200 7 3 (mkChallenge 3 None 2 70 true))
    as (H1 & _ & H3).
  - reflexivity.
  - simpl. discriminate.
  - simpl. lia.
  - split; [exact H1|]. apply H3; [reflexivity|discriminate].
Defined.

(** One attempt allowed; student 7 has started it and not finished. *)
Definition resume_db : DB :=
  mkDB [mkChallenge 3 None 1 70 true]
       [mcq 1 3 0 "1" "2" "3" "4" "B"]
       [mkSession 1 7 3 0 None in_progress 0 0 0 None]
       [].

(** C6 at its failing input: the student has a session in progress, and
    [start_challenge] answers with the attempt-limit error instead of the
    redirect to that session, because the limit is tested first and the
    session in progress is counted. *)
Theorem start_does_not_resume_at_limit :
  ongoing_session resume_db 3 7 = Some (mkSession 1 7 3 0 None in_progress 0 0 0 None) /\
  start_challenge resume_db 10 7 3
  = (resume_db, Redirect To_student_challenges (Some (Max_attempts_reached 1))) /\
  snd (start_challenge resume_db 10 7 3) <> Redirect (To_take_challenge 1) None.
Proof. repeat split. discriminate. Qed.

(** Below the limit the session in progress is resumed and none is
    created. *)
Lemma start_resumes_below_limit :
  forall (db : DB) (now user_id challenge_id : Z) (c : Challenge) (s : ChallengeSession),
    get_challenge db challenge_id = Some c ->
    is_active c = true ->
    questions_of db challenge_id <> [] ->
    (max_attempts c = 0 \/
     Z.of_nat (List.length (attempts_of db challenge_id user_id)) < max_attempts c) ->
    ongoing_session db challenge_id user_id = Some s ->
    start_challenge db now user_id challenge_id
    = (db, Redirect (To_take_challenge (s_id s)) None).
Proof.
  intros db now u cid c s Hget Hact Hq Hlim Hon.
  unfold start_challenge. rewrite Hget, Hact. simpl.
  destruct (questions_of db cid) as [|q qs]; [now elim Hq|].
  replace (Z.of_nat (List.length (q :: qs)) =? 0) with false
    by (symmetry; apply Z.eqb_neq; simpl; lia).
  replace (negb (max_attempts c =? 0)
           && (max_attempts c <=? Z.of_nat (List.length (attempts_of db cid u))))
    with false.
  - rewrite Hon. reflexivity.
  - symmetry. destruct Hlim as [H0|Hlt].
    + rewrite H0. reflexivity.
    + apply andb_false_iff. right. apply Z.leb_gt. exact Hlt.
Qed.

(* ================================================================== *)
(** ** The answer check *)

(** The option text that [correct_option] selects, if it is one of the
    letters A to D. *)
Definition selected_option (q : ChallengeQuestion) : option string :=
  if opt_eqb (correct_option q) "A" then option_a q
  else if opt_eqb (correct_option q) "B" then option_b q
  else if opt_eqb (correct_option q) "C" then option_c q
  else if opt_eqb (correct_option q) "D" then option_d q
  else None.

Lemma opt_eqb_true (o : option string) (t : string) : opt_eqb o t = true <-> o = Some t.
Proof.
  destruct o as [x|]; simpl.
  - rewrite String.eqb_eq. split; congruence.
  - split; discriminate.
Qed.

(** An empty or missing submission is incorrect for every question. *)
Lemma answer_is_correct_empty (q : ChallengeQuestion) (a : option string) :
  Py.truthy_str a = false -> answer_is_correct q a = Returned false.
Proof. destruct a as [[|ch t]|]; simpl; [reflexivity|discriminate|reflexivity]. Qed.

(** A multiple-choice question never raises, and the submission is
    correct exactly when it is non-empty and equal, character for
    character, to the selected option text. *)
Lemma answer_is_correct_multiple_choice (q : ChallengeQuestion) (a : option string) :
  question_type q = "multiple_choice" ->
  exists b, answer_is_correct q a = Returned b /\
            (b = true <-> exists text, a = Some text /\ text <> ""
                                       /\ selected_option q = Some text).
Proof.
  intros Hty. unfold answer_is_correct, selected_option. rewrite Hty. simpl.
  destruct a as [[|ch t]|].
  - exists false. split; [reflexivity|]. split; [discriminate|].
    intros (text & E & Hne & _). injection E as <-. now elim Hne.
  - eexists. split; [reflexivity|]. rewrite opt_eqb_true. split.
    + intros H. exists (String ch t). repeat split; [discriminate|exact H].
    + intros (text & E & _ & H). injection E as <-. exact H.
  - exists false. split; [reflexivity|]. split; [discriminate|].
    intros (text & E & _). discriminate E.
Qed.

(** A question of any other type that has a key compares the
    submission and the key after [strip] and [lower]. *)
Lemma answer_is_correct_text (q : ChallengeQuestion) (text key : string) :
  question_type q <> "multiple_choice" ->
  answer q = Some key ->
  text <> "" ->
  answer_is_correct q (Some text)
  = Returned (String.eqb (Py.lower (Py.strip text)) (Py.lower (Py.strip key))).
Proof.
  intros Hty Hkey Hne. unfold answer_is_correct.
  destruct text as [|ch t]; [now elim Hne|].
  apply String.eqb_neq in Hty. rewrite Hty, Hkey. reflexivity.
Qed.

(** A true/false question as [create_challenge] stores it: the column
    [answer] is not among the fields it sets. *)
Definition keyless_question : ChallengeQuestion :=
  mkQuestion 1 3 "true_false" (Some "True") (Some "False") None None
             (Some "A") None 0.

Definition keyless_db : DB :=
  mkDB [mkChallenge 3 None 3 70 true] [keyless_question]
       [mkSession 1 7 3 0 None in_progress 0 0 0 None] [].

(** C8 at its failing input: on a question that is not multiple choice
    and has no [answer], a non-empty submission raises instead of being
    judged incorrect; the route answers with its error message and
    records nothing, so the question stays the current one. *)
Theorem answer_check_raises_without_key :
  answer_is_correct keyless_question (Some "True") = AttributeError /\
  submit_challenge_answer keyless_db 60 7 1 1 (Some "True") false
  = (keyless_db, Redirect (To_take_challenge 1) (Some Error_submitting)) /\
  (exists p t, snd (take_challenge keyless_db 61 7 1)
               = Render_take_challenge (mkSession 1 7 3 0 None in_progress 0 0 0 None)
                   (mkChallenge 3 None 3 70 true) keyless_question p t).
Proof.
  split; [reflexivity|]. split; [reflexivity|].
  eexists; eexists; reflexivity.
Qed.

(* ================================================================== *)
(** ** Submitting to a session that is not in progress *)

(** A challenge with one question; the session of student 7 is
    abandoned. *)
Definition abandoned_db : DB :=
  mkDB [mkChallenge 3 None 3 70 true]
       [mcq 1 3 0 "1" "2" "3" "4" "B"]
       [mkSession 1 7 3 0 (Some 50) abandoned 0 0 0 None]
       [].

(** C5, as stated, fails: an answer submitted to an abandoned session is
    stored. *)
Lemma abandoned_session_accepts_answer :
  ~ (forall (db : DB) (now user_id session_id question_id : Z)
            (form_answer : option string) (is_auto_submit : bool)
            (cs : ChallengeSession),
        get_session db session_id = Some cs ->
        status cs <> in_progress ->
        answers (fst (submit_challenge_answer db now user_id session_id question_id
                                              form_answer is_auto_submit))
        = answers db).
Proof.
  intros H.
  specialize (H abandoned_db 60 7 1 1 (Some "2") false
                (mkSession 1 7 3 0 (Some 50) abandoned 0 0 0 None)
                eq_refl ltac:(discriminate)).
  vm_compute in H. discriminate H.
Qed.

(** C5, amended.  A submission to a completed session changes no table,
    and its student is sent to the results page. *)
Theorem submit_completed_rejected :
  forall (db : DB) (now user_id session_id question_id : Z)
         (form_answer : option string) (is_auto_submit : bool)
         (cs : ChallengeSession),
    get_session db session_id = Some cs ->
    status cs = completed ->
    fst (submit_challenge_answer db now user_id session_id question_id
                                 form_answer is_auto_submit) = db /\
    (student_id cs = user_id ->
     snd (submit_challenge_answer db now user_id session_id question_id
                                  form_answer is_auto_submit)
     = Redirect (To_challenge_results session_id) None).
Proof.
  intros db now u sid qid a auto cs Hget Hst.
  unfold submit_challenge_answer. rewrite Hget, Hst. simpl.
  destruct (student_id cs =? u) eqn:E; simpl.
  - split; reflexivity.
  - split; [reflexivity|]. intros Hu. apply Z.eqb_neq in E. now elim E.
Qed.

Definition completed_db : DB :=
  mkDB [mkChallenge 3 None 3 70 true]
       [mcq 1 3 0 "1" "2" "3" "4" "B"]
       [mkSession 1 7 3 0 (Some 50) completed 1 100 260 None]
       [mkAnswer 1 1 1 "2" true 40].

Lemma submit_completed_rejected_witness :
  submit_challenge_answer completed_db 60 7 1 1 (Some "3") false
  = (completed_db, Redirect (To_challenge_results 1) None).
Proof.
  destruct (submit_completed_rejected completed_db 60 7 1 1 (Some "3") false
              (mkSession 1 7 3 0 (Some 50) completed 1 100 260 None)
              eq_refl eq_refl) as [H1 H2].
  specialize (H2 eq_refl).
  rewrite (surjective_pairing (submit_challenge_answer _ _ _ _ _ _ _)).
  rewrite H1, H2. reflexivity.
Defined.

(* ================================================================== *)
(** ** One answer per session and question *)

(** Destructs the scrutinees of the matches of the goal, outermost first. *)
Ltac break_match :=
  repeat match goal with
         | |- context [match ?x with _ => _ end] => destruct x eqn:?
         end.

(** The number of ChallengeAnswer rows of a (session, question) pair. *)
Definition pair_count (tbl : list ChallengeAnswer) (sid qid : Z) : nat :=
  List.length (filter (answer_matches sid qid) tbl).

Definition one_answer_per_pair (tbl : list ChallengeAnswer) : Prop :=
  forall sid qid, (pair_count tbl sid qid <= 1)%nat.

(** The responses of [submit_challenge_answer] that follow an insertion. *)
Definition accepted (r : Response) : bool :=
  match r with
  | Redirect (To_take_challenge _) (Some Answer_submitted)
  | Redirect (To_take_challenge _) (Some Time_expired_submitted)
  | Redirect (To_take_challenge _) (Some Time_expired_no_answer) => true
  | _ => false
  end.

(** The request passes the tests that [submit_challenge_answer] makes
    before it looks for an existing answer: the session exists, belongs
    to the student and is not completed, an answer is given or the
    submission is automatic, the question exists and the answer check
    returns. *)
Definition reaches_duplicate_check (db : DB) (user_id session_id question_id : Z)
    (form_answer : option string) (is_auto_submit : bool) : Prop :=
  exists cs q b,
    get_session db session_id = Some cs /\
    student_id cs = user_id /\
    status cs <> completed /\
    (Py.truthy_str form_answer = true \/ is_auto_submit = true) /\
    get_question db question_id = Some q /\
    answer_is_correct q form_answer = Returned b.

Lemma pair_count_app (l : list ChallengeAnswer) (a : ChallengeAnswer) (sid qid : Z) :
  pair_count (l ++ [a]) sid qid
  = (pair_count l sid qid + if answer_matches sid qid a then 1 else 0)%nat.
Proof.
  unfold pair_count. rewrite filter_app, length_app. simpl.
  destruct (answer_matches sid qid a); reflexivity.
Qed.

Lemma find_none_filter {A : Type} (f : A -> bool) (l : list A) :
  find f l = None -> filter f l = [].
Proof.
  induction l as [|x l IH]; simpl; [reflexivity|].
  destruct (f x); [discriminate|exact IH].
Qed.

Lemma answer_matches_eq (sid qid : Z) (a : ChallengeAnswer) :
  answer_matches sid qid a = true <-> a_session_id a = sid /\ a_question_id a = qid.
Proof.
  unfold answer_matches. rewrite andb_true_iff, !Z.eqb_eq. reflexivity.
Qed.

(** What a submission does to the tables: nothing, or one new row for
    its pair, and that only when the pair had none. *)
Lemma submit_effect (db : DB) (now u sid qid : Z) (a : option string) (auto : bool) :
  let r := submit_challenge_answer db now u sid qid a auto in
  (fst r = db /\ accepted (snd r) = false) \/
  (existing_answer db sid qid = None /\
   exists row, fst r = with_answers db (answers db ++ [row]) /\
               a_session_id row = sid /\ a_question_id row = qid /\
               accepted (snd r) = true).
Proof.
  unfold submit_challenge_answer.
  destruct (get_session db sid) as [cs|]; [|left; split; reflexivity].
  destruct (negb (student_id cs =? u)); [left; split; reflexivity|].
  destruct (status_eqb (status cs) completed); [left; split; reflexivity|].
  destruct (negb (Py.truthy_str a) && negb auto); [left; split; reflexivity|].
  destruct (get_question db qid) as [q|]; [|left; split; reflexivity].
  destruct (answer_is_correct q a) as [b|]; [|left; split; reflexivity].
  destruct (existing_answer db sid qid) as [old|] eqn:E; [left; split; reflexivity|].
  right. split; [reflexivity|]. eexists. split; [reflexivity|].
  simpl. repeat split. destruct auto; [destruct (Py.truthy_str a)|]; reflexivity.
Qed.

Lemma submit_keeps_sessions (db : DB) (now u sid qid : Z) (a : option string)
    (auto : bool) :
  sessions (fst (submit_challenge_answer db now u sid qid a auto)) = sessions db
  /\ challenges (fst (submit_challenge_answer db now u sid qid a auto)) = challenges db
  /\ questions (fst (submit_challenge_answer db now u sid qid a auto)) = questions db.
Proof.
  destruct (submit_effect db now u sid qid a auto) as [[H _]|(_ & row & H & _)];
    rewrite H; repeat split.
Qed.

Lemma submit_keeps_invariant (db : DB) (now u sid qid : Z) (a : option string)
    (auto : bool) :
  one_answer_per_pair (answers db) ->
  one_answer_per_pair (answers (fst (submit_challenge_answer db now u sid qid a auto))).
Proof.
  intros Inv.
  destruct (submit_effect db now u sid qid a auto)
    as [[H _]|(Hnone & row & H & Hs & Hq & _)]; rewrite H; [exact Inv|].
  simpl. intros sid' qid'. rewrite pair_count_app.
  destruct (answer_matches sid' qid' row) eqn:M.
  - apply answer_matches_eq in M. destruct M as [M1 M2].
    rewrite Hs in M1. rewrite Hq in M2. subst sid' qid'.
    unfold pair_count, existing_answer in *.
    rewrite (find_none_filter _ _ Hnone). simpl. lia.
  - specialize (Inv sid' qid'). lia.
Qed.

(** The other routes leave the ChallengeAnswer table alone. *)
Lemma start_keeps_answers (db : DB) (now u cid : Z) :
  answers (fst (start_challenge db now u cid)) = answers db.
Proof. unfold start_challenge. break_match; reflexivity. Qed.

Lemma take_keeps_answers (db : DB) (now u sid : Z) :
  answers (fst (take_challenge db now u sid)) = answers db.
Proof. unfold take_challenge. break_match; reflexivity. Qed.

Lemma results_keeps_answers (db : DB) (u sid : Z) :
  answers (fst (challenge_results db u sid)) = answers db.
Proof. unfold challenge_results. cbv zeta. break_match; reflexivity. Qed.

Lemma handle_keeps_invariant (db : DB) (now : Z) (r : Request) :
  one_answer_per_pair (answers db) ->
  one_answer_per_pair (answers (fst (handle db now r))).
Proof.
  intros Inv. destruct r; simpl.
  - rewrite start_keeps_answers. exact Inv.
  - rewrite take_keeps_answers. exact Inv.
  - apply submit_keeps_invariant. exact Inv.
  - rewrite results_keeps_answers. exact Inv.
Qed.

Lemma run_keeps_invariant (reqs : list (Z * Request)) :
  forall db, one_answer_per_pair (answers db) ->
             one_answer_per_pair (answers (run db reqs)).
Proof.
  induction reqs as [|[now r] rest IH]; intros db Inv; simpl; [exact Inv|].
  apply IH. apply handle_keeps_invariant. exact Inv.
Qed.

(** C1.  Starting from tables with at most one answer per (session,
    question) pair, every sequence of requests leaves at most one per
    pair, and so does one more submission.  If the pair of that
    submission has an answer already, the submission changes no table
    (no row is added and the stored answer stays as it is), it is not
    accepted, and once it has passed the tests that precede the lookup
    it is answered 'This question has already been answered.' *)
Theorem no_double_answer :
  forall (db : DB) (reqs : list (Z * Request)) (now user_id session_id question_id : Z)
         (form_answer : option string) (is_auto_submit : bool),
    one_answer_per_pair (answers db) ->
    let db1 := run db reqs in
    let r := submit_challenge_answer db1 now user_id session_id question_id
                                     form_answer is_auto_submit in
    one_answer_per_pair (answers (fst r)) /\
    (forall old : ChallengeAnswer,
        existing_answer db1 session_id question_id = Some old ->
        fst r = db1 /\
        existing_answer (fst r) session_id question_id = Some old /\
        accepted (snd r) = false /\
        (reaches_duplicate_check db1 user_id session_id question_id
                                 form_answer is_auto_submit ->
         snd r = Redirect (To_take_challenge session_id) (Some Already_answered))).
Proof.
  intros db reqs now u sid qid a auto Inv db1 r.
  assert (Inv1 : one_answer_per_pair (answers db1))
    by (apply run_keeps_invariant; exact Inv).
  split; [apply submit_keeps_invariant; exact Inv1|].
  intros old Hold.
  destruct (submit_effect db1 now u sid qid a auto)
    as [[H Hacc]|(Hnone & _)]; [|congruence].
  fold r in H, Hacc. rewrite H. repeat split; try assumption.
  intros (cs & q & b & Hs & Hu & Hst & Hans & Hq & Hb).
  subst r. unfold submit_challenge_answer.
  rewrite Hs, Hq, Hb, Hold.
  apply Z.eqb_eq in Hu. rewrite Hu. simpl.
  destruct (status_eqb (status cs) completed) eqn:St.
  - apply status_eqb_eq in St. contradiction.
  - destruct Hans as [Ha|Ha]; rewrite Ha; simpl;
      rewrite ?andb_false_r; reflexivity.
Qed.

(** A challenge with one question, and the session of student 7 in
    progress with no answer yet. *)
Definition fresh_db : DB :=
  mkDB [mkChallenge 3 None 3 70 true]
       [mcq 1 3 0 "1" "2" "3" "4" "B"]
       [mkSession 1 7 3 0 None in_progress 0 0 0 None]
       [].

Definition answered_once : DB := with_answers fresh_db [mkAnswer 1 1 1 "2" true 20].

Lemma no_double_answer_witness :
  run fresh_db [(20, Submit 7 1 1 (Some "2") false)] = answered_once /\
  submit_challenge_answer answered_once 30 7 1 1 (Some "3") false
  = (answered_once, Redirect (To_take_challenge 1) (Some Already_answered)).
Proof.
  split; [reflexivity|].
  assert (Inv : one_answer_per_pair (answers fresh_db))
    by (intros sid qid; unfold pair_count; simpl; lia).
  destruct (no_double_answer fresh_db [(20, Submit 7 1 1 (Some "2") false)]
              30 7 1 1 (Some "3") false Inv) as [_ H].
  destruct (H (mkAnswer 1 1 1 "2" true 20) eq_refl) as (H1 & _ & _ & H4).
  rewrite (surjective_pairing (submit_challenge_answer _ _ _ _ _ _ _)).
  change (run fresh_db [(20, Submit 7 1 1 (Some "2") false)]) with answered_once in *.
  rewrite H1, H4; [reflexivity|].
  exists (mkSession 1 7 3 0 None in_progress 0 0 0 None),
         (mcq 1 3 0 "1" "2" "3" "4" "B"), false.
  repeat split; try reflexivity; [discriminate|left; reflexivity].
Defined.

(* ================================================================== *)
(** ** Completion *)

Section Tables.

Lemma insert_by_order_length (q : ChallengeQuestion) (l : list ChallengeQuestion) :
  List.length (insert_by_order q l) = S (List.length l).
Proof.
  induction l as [|x l IH]; simpl; [reflexivity|].
  destruct (order_index q <=? order_index x); simpl; [reflexivity|].
  rewrite IH. reflexivity.
Qed.

Lemma order_by_index_length (l : list ChallengeQuestion) :
  List.length (order_by_index l) = List.length l.
Proof.
  induction l as [|x l IH]; simpl; [reflexivity|].
  rewrite insert_by_order_length, IH. reflexivity.
Qed.

Lemma insert_by_order_In (q x : ChallengeQuestion) (l : list ChallengeQuestion) :
  In x (insert_by_order q l) <-> x = q \/ In x l.
Proof.
  induction l as [|y l IH]; simpl.
  - split; intros [H|H]; auto.
  - destruct (order_index q <=? order_index y); simpl.
    + split; intros [H|H]; auto.
    + rewrite IH. split; intros H; repeat destruct H as [H|H]; auto.
Qed.

Lemma order_by_index_In (x : ChallengeQuestion) (l : list ChallengeQuestion) :
  In x (order_by_index l) <-> In x l.
Proof.
  induction l as [|y l IH]; simpl; [reflexivity|].
  rewrite insert_by_order_In, IH. split; intros [H|H]; auto.
Qed.

(** The loop finds no question exactly when every question is answered. *)
Lemma first_unanswered_None (ids : list Z) (qs : list ChallengeQuestion) :
  forall i, first_unanswered ids qs i = None
            <-> forall q, In q qs -> In (q_id q) ids.
Proof.
  induction qs as [|q qs IH]; intros i; simpl.
  - split; [intros _ q []|reflexivity].
  - destruct (existsb (Z.eqb (q_id q)) ids) eqn:E; simpl.
    + rewrite IH. apply existsb_exists in E. destruct E as (x & Hx & Ex).
      apply Z.eqb_eq in Ex. subst x.
      split; intros H q'; [intros [<-|Hq]|intros Hq]; auto.
    + split; [discriminate|]. intros H. exfalso.
      specialize (H q (or_introl eq_refl)).
      assert (T : existsb (Z.eqb (q_id q)) ids = true).
      { apply existsb_exists. exists (q_id q). split; [exact H|apply Z.eqb_refl]. }
      congruence.
Qed.

(** Until every question is answered the loop yields one that is not. *)
Lemma first_unanswered_Some (ids : list Z) (qs : list ChallengeQuestion) :
  forall i q k, first_unanswered ids qs i = Some (q, k) ->
                In q qs /\ ~ In (q_id q) ids.
Proof.
  induction qs as [|x qs IH]; intros i q k; simpl; [discriminate|].
  destruct (existsb (Z.eqb (q_id x)) ids) eqn:E; simpl.
  - intros H. destruct (IH _ _ _ H) as [H1 H2]. auto.
  - intros H. injection H as <- _. split; [auto|].
    intros Hin.
    assert (T : existsb (Z.eqb (q_id x)) ids = true).
    { apply existsb_exists. exists (q_id x). split; [exact Hin|apply Z.eqb_refl]. }
    congruence.
Qed.

Variable s' : ChallengeSession.

Lemma find_update_session (tbl : list ChallengeSession) (s0 : ChallengeSession) :
  find (fun s => s_id s =? s_id s') tbl = Some s0 ->
  find (fun s => s_id s =? s_id s') (update_session tbl s') = Some s'.
Proof.
  induction tbl as [|x t IH]; simpl; [discriminate|].
  destruct (s_id x =? s_id s') eqn:E; simpl.
  - intros _. rewrite Z.eqb_refl. reflexivity.
  - rewrite E. exact IH.
Qed.

(** [update_session] touches one row only, the one that [find] returns. *)
Lemma update_session_nth (tbl : list ChallengeSession) (s0 : ChallengeSession) :
  find (fun s => s_id s =? s_id s') tbl = Some s0 ->
  forall i s, nth_error tbl i = Some s ->
              nth_error (update_session tbl s') i = Some s
              \/ (s = s0 /\ nth_error (update_session tbl s') i = Some s').
Proof.
  induction tbl as [|x t IH]; simpl; [discriminate|].
  destruct (s_id x =? s_id s') eqn:E; intros F i s Hn.
  - injection F as <-. destruct i as [|i]; simpl in *.
    + injection Hn as <-. right. split; reflexivity.
    + left. exact Hn.
  - destruct i as [|i]; simpl in *; [left; exact Hn|].
    apply IH; assumption.
Qed.

End Tables.

Lemma get_session_id (db : DB) (sid : Z) (cs : ChallengeSession) :
  get_session db sid = Some cs -> s_id cs = sid.
Proof.
  intros H. apply find_some in H. destruct H as [_ H]. apply Z.eqb_eq. exact H.
Qed.

Lemma get_session_update (db : DB) (sid : Z) (cs cs' : ChallengeSession) :
  get_session db sid = Some cs ->
  s_id cs' = s_id cs ->
  get_session (with_sessions db (update_session (sessions db) cs')) sid = Some cs'.
Proof.
  intros H Hid. pose proof (get_session_id _ _ _ H) as Hsid.
  unfold get_session in *. simpl.
  rewrite <- Hsid, <- Hid in *. eapply find_update_session. exact H.
Qed.

(** Every question of the challenge has an answer in the session. *)
Definition all_answered (db : DB) (cid sid : Z) : Prop :=
  forall q, In q (questions_of db cid) ->
            exists a, In a (answers_of db sid) /\ a_question_id a = q_id q.

Lemma all_answered_first_unanswered (db : DB) (cid sid : Z) :
  all_answered db cid sid <->
  first_unanswered (map a_question_id (answers_of db sid))
                   (order_by_index (questions_of db cid)) 0 = None.
Proof.
  rewrite first_unanswered_None. unfold all_answered.
  split; intros H q Hq.
  - apply (proj1 (order_by_index_In _ _)) in Hq. destruct (H q Hq) as (a & Ha & E).
    rewrite <- E. apply in_map. exact Ha.
  - apply (proj2 (order_by_index_In _ _)) in Hq. specialize (H q Hq).
    apply in_map_iff in H. destruct H as (a & E & Ha). exists a. auto.
Qed.

(** The correct answers of a session, counted on the table itself: the
    rows of ChallengeAnswer that are of the session and marked correct. *)
Lemma filter_filter_andb {A : Type} (f g : A -> bool) (l : list A) :
  filter g (filter f l) = filter (fun x => f x && g x) l.
Proof.
  induction l as [|x t IH]; [reflexivity|].
  cbn [filter]. destruct (f x); cbn [filter andb]; [|exact IH].
  destruct (g x); rewrite IH; reflexivity.
Qed.

Lemma count_correct_on_table (db : DB) (sid : Z) :
  count_correct (answers_of db sid)
  = Z.of_nat (List.length
                (filter (fun a => (a_session_id a =? sid) && is_correct a)
                        (answers db))).
Proof.
  unfold count_correct, answers_of. rewrite filter_filter_andb. reflexivity.
Qed.

(** For up to a hundred questions and correct answers the percentage
    is an integer nearest to the exact quotient: it is at most one half
    away from [100 * correct / total]. *)
Lemma percent_nearest (correct total : Z) :
  0 <= correct <= 100 -> 1 <= total <= 100 ->
  2 * Z.abs (percent correct total * total - 100 * correct) <= total.
Proof.
  intros Hc Ht.
  assert (H : forallb (fun c =>
                forallb (fun t => 2 * Z.abs (percent c t * t - 100 * c) <=? t)
                        (map Z.of_nat (seq 1 100)))
              (map Z.of_nat (seq 0 101)) = true)
    by (vm_compute; reflexivity).
  rewrite forallb_forall in H.
  assert (Ic : In correct (map Z.of_nat (seq 0 101))).
  { rewrite <- (Z2Nat.id correct) by lia. apply in_map. apply in_seq. lia. }
  specialize (H correct Ic). rewrite forallb_forall in H.
  assert (It : In total (map Z.of_nat (seq 1 100))).
  { rewrite <- (Z2Nat.id total) by lia. apply in_map. apply in_seq. lia. }
  apply Z.leb_le. exact (H total It).
Qed.


(** Two questions, both answered in session 1, the first one correctly. *)
Definition exhausted_db : DB :=
  mkDB [mkChallenge 3 None 1 70 true]
       [mcq 1 3 0 "1" "2" "3" "4" "B"; mcq 2 3 1 "x" "y" "z" "w" "A"]
       [mkSession 1 7 3 0 None in_progress 0 0 0 None]
       [mkAnswer 1 1 1 "2" true 20; mkAnswer 2 1 2 "z" false 30].

(** Three questions, all answered in session 1, two of them correctly;
    session 2, of another student, has one correct answer. *)
Definition answered_db : DB :=
  mkDB [mkChallenge 3 None 1 70 true]
       [mcq 1 3 0 "1" "2" "3" "4" "B"; mcq 2 3 1 "x" "y" "z" "w" "A";
        mcq 3 3 2 "k" "l" "m" "n" "D"]
       [mkSession 1 7 3 0 None in_progress 0 0 0 None;
        mkSession 2 8 3 5 None in_progress 0 0 0 None]
       [mkAnswer 1 1 1 "2" true 20; mkAnswer 2 2 1 "2" true 25;
        mkAnswer 3 1 2 "z" false 30; mkAnswer 4 1 3 "n" true 35].


(* ================================================================== *)
(** ** Completing twice *)

(** What a completed session was awarded, and when. *)
Definition same_award (s s' : ChallengeSession) : Prop :=
  s_id s' = s_id s /\ student_id s' = student_id s /\
  s_challenge_id s' = s_challenge_id s /\ start_time s' = start_time s /\
  status s' = status s /\ end_time s' = end_time s /\
  points s' = points s /\ points_breakdown s' = points_breakdown s.

(** Every completed row of [tbl] is still at its place in [tbl'], with
    the same award. *)
Definition awards_kept (tbl tbl' : list ChallengeSession) : Prop :=
  forall i s, nth_error tbl i = Some s -> status s = completed ->
              exists s', nth_error tbl' i = Some s' /\ same_award s s'.

Lemma same_award_refl (s : ChallengeSession) : same_award s s.
Proof. repeat split. Qed.

Lemma awards_kept_refl (tbl : list ChallengeSession) : awards_kept tbl tbl.
Proof. intros i s H _. exists s. split; [exact H|apply same_award_refl]. Qed.

Lemma awards_kept_trans (t1 t2 t3 : list ChallengeSession) :
  awards_kept t1 t2 -> awards_kept t2 t3 -> awards_kept t1 t3.
Proof.
  intros H12 H23 i s Hn Hc.
  destruct (H12 i s Hn Hc) as (s2 & Hn2 & A2).
  assert (Hc2 : status s2 = completed).
  { destruct A2 as (_ & _ & _ & _ & E & _). congruence. }
  destruct (H23 i s2 Hn2 Hc2) as (s3 & Hn3 & A3).
  exists s3. split; [exact Hn3|].
  unfold same_award in *.
  destruct A2 as (a1 & a2 & a3 & a4 & a5 & a6 & a7 & a8).
  destruct A3 as (b1 & b2 & b3 & b4 & b5 & b6 & b7 & b8).
  repeat split; congruence.
Qed.

(** Replacing the row that [get_session] returned keeps the awards when
    that row was not completed, or when the new row has its award. *)
Lemma awards_kept_update (db : DB) (sid : Z) (cs cs' : ChallengeSession) :
  get_session db sid = Some cs ->
  s_id cs' = s_id cs ->
  (status cs <> completed \/ same_award cs cs') ->
  awards_kept (sessions db) (update_session (sessions db) cs').
Proof.
  intros Hget Hid Hor i s Hn Hc.
  pose proof (get_session_id _ _ _ Hget) as Hsid.
  unfold get_session in Hget. rewrite <- Hsid, <- Hid in Hget.
  destruct (update_session_nth cs' (sessions db) cs Hget i s Hn) as [H|[-> H]].
  - exists s. split; [exact H|apply same_award_refl].
  - destruct Hor as [Hnc|Hsame]; [contradiction|].
    exists cs'. split; [exact H|exact Hsame].
Qed.

Lemma start_awards_kept (db : DB) (now u cid : Z) :
  awards_kept (sessions db) (sessions (fst (start_challenge db now u cid))).
Proof.
  unfold start_challenge. break_match; simpl; try apply awards_kept_refl.
  intros i s Hn _. exists s. split; [|apply same_award_refl].
  rewrite nth_error_app1; [exact Hn|].
  apply nth_error_Some. congruence.
Qed.

Lemma take_awards_kept (db : DB) (now u sid : Z) :
  awards_kept (sessions db) (sessions (fst (take_challenge db now u sid))).
Proof.
  unfold take_challenge.
  destruct (get_session db sid) as [cs|] eqn:G; [|apply awards_kept_refl].
  destruct (negb (student_id cs =? u)); [apply awards_kept_refl|].
  destruct (status_eqb (status cs) completed) eqn:St; [apply awards_kept_refl|].
  break_match; simpl; try apply awards_kept_refl;
    (apply (awards_kept_update db sid cs); [exact G|reflexivity|]);
    left; intros E; rewrite E in St; discriminate St.
Qed.

Lemma results_awards_kept (db : DB) (u sid : Z) :
  awards_kept (sessions db) (sessions (fst (challenge_results db u sid))).
Proof.
  unfold challenge_results.
  destruct (get_session db sid) as [cs|] eqn:G; [|apply awards_kept_refl].
  cbv zeta. break_match; simpl; try apply awards_kept_refl;
    (apply (awards_kept_update db sid cs); [exact G|reflexivity|]);
    right; repeat split.
Qed.

Lemma handle_awards_kept (db : DB) (now : Z) (r : Request) :
  awards_kept (sessions db) (sessions (fst (handle db now r))).
Proof.
  destruct r; simpl.
  - apply start_awards_kept.
  - apply take_awards_kept.
  - rewrite (proj1 (submit_keeps_sessions _ _ _ _ _ _ _)). apply awards_kept_refl.
  - apply results_awards_kept.
Qed.

Lemma run_awards_kept (reqs : list (Z * Request)) :
  forall db, awards_kept (sessions db) (sessions (run db reqs)).
Proof.
  induction reqs as [|[now r] rest IH]; intros db; simpl; [apply awards_kept_refl|].
  eapply awards_kept_trans; [apply handle_awards_kept|apply IH].
Qed.

(** The results page on a completed session: what it stores and shows. *)
Definition results_of (db : DB) (cs : ChallengeSession) (c : Challenge)
    : DB * Response :=
  let n := Z.of_nat (List.length (questions_of db (c_id c))) in
  let correct := count_correct (answers_of db (s_id cs)) in
  let pct := if 0 <? n then percent correct n else 0 in
  let differs := negb (score cs =? correct) || negb (percentage cs =? pct) in
  let cs' := if differs then with_score cs correct pct else cs in
  let passing := if passing_score c =? 0 then 70 else passing_score c in
  ((if differs then with_sessions db (update_session (sessions db) cs') else db),
   Render_challenge_results
     (mkResults c cs' n correct pct (passing <=? pct) passing
        (match end_time cs' with
         | Some e => Some ((e - start_time cs') / 1000000)
         | None => None
         end)
        (flat_map (fun a => match get_question db (a_question_id a) with
                            | Some q => [(q, a)]
                            | None => []
                            end) (answers_of db (s_id cs)))
        (points_breakdown cs'))).

Lemma results_completed (db : DB) (u sid : Z) (cs : ChallengeSession) (c : Challenge) :
  get_session db sid = Some cs ->
  student_id cs = u ->
  status cs = completed ->
  get_challenge db (s_challenge_id cs) = Some c ->
  challenge_results db u sid = results_of db cs c.
Proof.
  intros G Hu Hst Hc. pose proof (get_session_id _ _ _ G) as Hid.
  unfold challenge_results, results_of.
  rewrite G, Hst, Hc, Hid. apply Z.eqb_eq in Hu. rewrite Hu. reflexivity.
Qed.

(** Once the stored score and percentage are the recomputed ones the
    results page writes nothing. *)
Lemma results_of_settled (db : DB) (cs : ChallengeSession) (c : Challenge) :
  let n := Z.of_nat (List.length (questions_of db (c_id c))) in
  score cs = count_correct (answers_of db (s_id cs)) ->
  percentage cs = (if 0 <? n then percent (count_correct (answers_of db (s_id cs))) n
                   else 0) ->
  fst (results_of db cs c) = db.
Proof.
  intros n Hs Hp. unfold results_of. fold n. rewrite <- Hp, <- Hs.
  rewrite !Z.eqb_refl. reflexivity.
Qed.

(** The results page shown twice shows the same and, the second time,
    writes nothing. *)
Lemma results_idempotent (db : DB) (u sid : Z) :
  challenge_results (fst (challenge_results db u sid)) u sid
  = challenge_results db u sid.
Proof.
  destruct (get_session db sid) as [cs|] eqn:G.
  2: { assert (E : challenge_results db u sid
                   = (db, Redirect To_student_challenges (Some Error_results)))
         by (unfold challenge_results; rewrite G; reflexivity).
       rewrite E. exact E. }
  destruct (student_id cs =? u) eqn:Hu.
  2: { assert (E : challenge_results db u sid
                   = (db, Redirect To_student_challenges (Some Access_denied)))
         by (unfold challenge_results; rewrite G, Hu; reflexivity).
       rewrite E. exact E. }
  destruct (status_eqb (status cs) completed) eqn:Hst.
  2: { assert (E : challenge_results db u sid
                   = (db, Redirect (To_take_challenge sid) None))
         by (unfold challenge_results; rewrite G, Hu, Hst; reflexivity).
       rewrite E. exact E. }
  destruct (get_challenge db (s_challenge_id cs)) as [c|] eqn:Hc.
  2: { assert (E : challenge_results db u sid
                   = (db, Redirect To_student_challenges (Some Error_results)))
         by (unfold challenge_results; rewrite G, Hu, Hst, Hc; reflexivity).
       rewrite E. exact E. }
  apply Z.eqb_eq in Hu. apply status_eqb_eq in Hst.
  pose proof (get_session_id _ _ _ G) as Hid.
  rewrite (results_completed db u sid cs c G Hu Hst Hc).
  unfold results_of.
  set (n := Z.of_nat (List.length (questions_of db (c_id c)))).
  set (correct := count_correct (answers_of db (s_id cs))).
  set (pct := if 0 <? n then percent correct n else 0).
  destruct (negb (score cs =? correct) || negb (percentage cs =? pct)) eqn:D.
  - simpl fst.
    set (cs' := with_score cs correct pct).
    set (db' := with_sessions db (update_session (sessions db) cs')).
    assert (G' : get_session db' sid = Some cs')
      by (apply (get_session_update db sid cs); [exact G|reflexivity]).
    rewrite (results_completed db' u sid cs' c G' Hu Hst Hc).
    unfold results_of. simpl.
    fold n. fold correct. fold pct. rewrite !Z.eqb_refl. simpl.
    fold cs'. fold db'. reflexivity.
  - simpl fst.
    rewrite (results_completed db u sid cs c G Hu Hst Hc).
    unfold results_of. fold n. fold correct. fold pct. rewrite D. reflexivity.
Qed.

Lemma take_completed (db : DB) (now u sid : Z) (cs : ChallengeSession) :
  get_session db sid = Some cs ->
  student_id cs = u ->
  status cs = completed ->
  take_challenge db now u sid = (db, Redirect (To_challenge_results sid) None).
Proof.
  intros G Hu Hst. unfold take_challenge.
  rewrite G, Hst. apply Z.eqb_eq in Hu. rewrite Hu. reflexivity.
Qed.

(** The session that the results page shows is the stored one. *)
Lemma results_of_session (db : DB) (cs : ChallengeSession) (c : Challenge) :
  get_session db (s_id cs) = Some cs ->
  exists res,
    snd (results_of db cs c) = Render_challenge_results res /\
    get_session (fst (results_of db cs c)) (s_id cs) = Some (r_session res) /\
    same_award cs (r_session res).
Proof.
  intros G. unfold results_of. cbv zeta.
  destruct (negb (score cs =? _) || negb (percentage cs =? _)).
  - eexists. split; [reflexivity|]. simpl. split.
    + apply (get_session_update db (s_id cs) cs); [exact G|reflexivity].
    + repeat split.
  - eexists. split; [reflexivity|]. simpl. split; [exact G|apply same_award_refl].
Qed.

(** The state of a session that [take_challenge] has just completed is
    the one the results page recomputes. *)
Lemma take_completes_settled (db : DB) (now u sid : Z) (cs : ChallengeSession)
    (c : Challenge) (q0 : ChallengeQuestion) (qs0 : list ChallengeQuestion) :
  get_session db sid = Some cs ->
  order_by_index (questions_of db (c_id c)) = q0 :: qs0 ->
  let n := Z.of_nat (List.length (q0 :: qs0)) in
  let cs1 := finished cs (count_correct (answers_of db sid)) n now in
  let cs2 := with_points cs1 (calculate_challenge_points
                                (update_session (sessions db) cs1) cs1 c n) in
  let db1 := with_sessions db (update_session (sessions db) cs2) in
  get_session db1 sid = Some cs2 /\ fst (results_of db1 cs2 c) = db1.
Proof.
  intros G O n cs1 cs2 db1.
  pose proof (get_session_id _ _ _ G) as Hid.
  split; [apply (get_session_update db sid cs); [exact G|reflexivity]|].
  assert (Hn : Z.of_nat (List.length (questions_of db1 (c_id c))) = n).
  { subst n. rewrite <- O, order_by_index_length. reflexivity. }
  apply results_of_settled.
  - simpl s_id. rewrite Hid. reflexivity.
  - rewrite Hn. simpl s_id. rewrite Hid.
    replace (0 <? n) with true; [reflexivity|].
    symmetry. apply Z.ltb_lt. subst n. simpl. lia.
Qed.

(** C2.  Opening the challenge page of a session, and the results page
    it leads to once no question is left, is idempotent: done again, at
    any later time, it gives the same response (the same score,
    percentage, points and breakdown) and leaves the tables as the first
    time left them.  The session shown is the stored one.  A completed
    session keeps its status, end time, points and breakdown through it
    and through every later sequence of requests: points are set once. *)
Theorem try_complete_idempotent :
  forall (db : DB) (now now' user_id session_id : Z) (reqs : list (Z * Request)),
    let r := try_complete db now user_id session_id in
    try_complete (fst r) now' user_id session_id = r /\
    (forall res, snd r = Render_challenge_results res ->
                 get_session (fst r) session_id = Some (r_session res) /\
                 status (r_session res) = completed) /\
    awards_kept (sessions db) (sessions (fst r)) /\
    awards_kept (sessions (fst r)) (sessions (run (fst r) reqs)).
Proof.
  intros db now now' u sid reqs r.
  assert (Hkept : awards_kept (sessions db) (sessions (fst r))).
  { subst r. unfold try_complete, follow.
    destruct (snd (take_challenge db now u sid)) as [[| |sid'] f| |] eqn:S;
      try apply take_awards_kept.
    eapply awards_kept_trans; [apply take_awards_kept|apply results_awards_kept]. }
  assert (Hrun : awards_kept (sessions (fst r)) (sessions (run (fst r) reqs)))
    by apply run_awards_kept.
  cut (try_complete (fst r) now' u sid = r /\
       (forall res, snd r = Render_challenge_results res ->
                    get_session (fst r) sid = Some (r_session res) /\
                    status (r_session res) = completed)).
  { intros [H1 H2]. auto. }
  clear Hkept Hrun.
  destruct (get_session db sid) as [cs|] eqn:G.
  2: { assert (E : forall t, try_complete db t u sid
                   = (db, Redirect To_student_challenges (Some Error_loading)))
         by (intros t; unfold try_complete, take_challenge; rewrite G; reflexivity).
       subst r. rewrite (E now). simpl. split; [apply E|discriminate]. }
  pose proof (get_session_id _ _ _ G) as Hid.
  destruct (student_id cs =? u) eqn:Hu.
  2: { assert (E : forall t, try_complete db t u sid
                   = (db, Redirect To_student_challenges (Some Access_denied)))
         by (intros t; unfold try_complete, take_challenge; rewrite G, Hu;
             reflexivity).
       subst r. rewrite (E now). simpl. split; [apply E|discriminate]. }
  destruct (status_eqb (status cs) completed) eqn:Hst.
  { (* already completed: the results page *)
    apply Z.eqb_eq in Hu. apply status_eqb_eq in Hst.
    assert (E : forall t, try_complete db t u sid = challenge_results db u sid).
    { intros t. unfold try_complete.
      rewrite (take_completed db t u sid cs G Hu Hst). reflexivity. }
    subst r. rewrite (E now).
    destruct (get_challenge db (s_challenge_id cs)) as [c|] eqn:Hc.
    - pose proof (results_completed db u sid cs c G Hu Hst Hc) as RC.
      rewrite <- Hid in G.
      destruct (results_of_session db cs c G) as (res & Hres & Gres & Haw).
      rewrite Hid in *. rewrite <- RC in Hres, Gres.
      assert (Hst' : status (r_session res) = completed).
      { destruct Haw as (_ & _ & _ & _ & E' & _). congruence. }
      assert (Hu' : student_id (r_session res) = u).
      { destruct Haw as (_ & E' & _). congruence. }
      split.
      + unfold try_complete.
        rewrite (take_completed _ now' u sid _ Gres Hu' Hst').
        unfold follow. cbn [fst snd]. apply results_idempotent.
      + intros res' E'. rewrite Hres in E'. injection E' as <-. auto.
    - assert (E' : challenge_results db u sid
                   = (db, Redirect To_student_challenges (Some Error_results))).
      { unfold challenge_results. rewrite G, Hst, Hc.
        apply Z.eqb_eq in Hu. rewrite Hu. reflexivity. }
      rewrite E'. simpl. split; [|discriminate].
      rewrite (E now'). exact E'. }
  destruct (get_challenge db (s_challenge_id cs)) as [c|] eqn:Hc.
  2: { assert (E : forall t, try_complete db t u sid
                   = (db, Redirect To_student_challenges (Some Error_loading)))
         by (intros t; unfold try_complete, take_challenge;
             rewrite G, Hu, Hst, Hc; reflexivity).
       subst r. rewrite (E now). simpl. split; [apply E|discriminate]. }
  destruct (order_by_index (questions_of db (c_id c))) as [|q0 qs0] eqn:O.
  { assert (E : forall t, try_complete db t u sid
                  = (db, Redirect To_student_challenges (Some No_questions)))
      by (intros t; unfold try_complete, take_challenge;
          rewrite G, Hu, Hst, Hc, O; reflexivity).
    subst r. rewrite (E now). simpl. split; [apply E|discriminate]. }
  destruct (first_unanswered (map a_question_id (answers_of db sid)) (q0 :: qs0) 0)
    as [[cq k]|] eqn:F.
  { assert (E : forall t, exists p o,
                  try_complete db t u sid = (db, Render_take_challenge cs c cq p o)
                  /\ try_complete db now' u sid
                     = (db, Render_take_challenge cs c cq p o)).
    { intros t. eexists; eexists.
      split; unfold try_complete, take_challenge;
        rewrite G, Hu, Hst, Hc, O, F; reflexivity. }
    destruct (E now) as (p & o & E1 & E2).
    subst r. rewrite E1. simpl. split; [exact E2|discriminate]. }
  (* the session is completed now *)
  apply Z.eqb_eq in Hu.
  destruct (take_completes_settled db now u sid cs c q0 qs0 G O) as [G2 Hfst].
  cbv zeta in G2, Hfst.
  set (n := Z.of_nat (List.length (q0 :: qs0))) in *.
  set (cs1 := finished cs (count_correct (answers_of db sid)) n now) in *.
  set (cs2 := with_points cs1 (calculate_challenge_points
                                 (update_session (sessions db) cs1) cs1 c n)) in *.
  set (db1 := with_sessions db (update_session (sessions db) cs2)) in *.
  assert (R : challenge_results db1 u sid = results_of db1 cs2 c).
  { apply results_completed; [exact G2|exact Hu|reflexivity|exact Hc]. }
  assert (E : r = results_of db1 cs2 c).
  { subst r. unfold try_complete, take_challenge.
    rewrite G, Hst, Hc, O, F. rewrite (proj2 (Z.eqb_eq _ _) Hu).
    unfold follow. cbn [fst snd]. exact R. }
  rewrite E, Hfst. split.
  - unfold try_complete.
    rewrite (take_completed db1 now' u sid cs2 G2 Hu eq_refl).
    unfold follow. cbn [fst snd]. exact R.
  - intros res E'.
    assert (G2' : get_session db1 (s_id cs2) = Some cs2)
      by (simpl s_id; rewrite Hid; exact G2).
    destruct (results_of_session db1 cs2 c G2') as (res' & Hres & Gres & Haw).
    rewrite Hres in E'. injection E' as <-.
    rewrite Hfst in Gres. simpl s_id in Gres. rewrite Hid in Gres.
    split; [exact Gres|].
    destruct Haw as (_ & _ & _ & _ & E' & _). rewrite E'. reflexivity.
Qed.

Lemma try_complete_idempotent_witness :
  let r := try_complete exhausted_db 40 7 1 in
  try_complete (fst r) 99 7 1 = r /\
  exists res, snd r = Render_challenge_results res /\
              score (r_session res) = 1 /\ r_percentage res = 50 /\
              points (r_session res) = 160 /\
              r_points_breakdown res = Some (mkPoints 50 10 0 0 100 160) /\
              passed res = false.
Proof.
  split.
  - apply (try_complete_idempotent exhausted_db 40 99 7 1 []).
  - eexists. split; [reflexivity|]. repeat split.
Defined.

(* ================================================================== *)
(** ** A whole attempt *)

(** Two multiple-choice questions, no time limit, one attempt allowed. *)
Definition scenario_db : DB :=
  mkDB [mkChallenge 3 None 1 70 true]
       [mcq 1 3 0 "1" "2" "3" "4" "B"; mcq 2 3 1 "x" "y" "z" "w" "A"]
       [] [].

(** The student starts, answers the first question rightly and the
    second wrongly, and opens the challenge page: the session is
    completed with score 1, percentage 50 and 160 points, and a further
    start is refused. *)
Example whole_attempt :
  let db1 := run scenario_db
                 [(10, Start 7 3);
                  (20, Submit 7 1 1 (Some "2") false);
                  (30, Submit 7 1 2 (Some "z") false);
                  (40, Take 7 1)] in
  get_session db1 1
  = Some (mkSession 1 7 3 10 (Some 40) completed 1 50 160
                    (Some (mkPoints 50 10 0 0 100 160))) /\
  map is_correct (answers db1) = [true; false] /\
  start_challenge db1 50 7 3
  = (db1, Redirect To_student_challenges (Some (Max_attempts_reached 1))).
Proof. repeat split. Qed.

(* ================================================================== *)
(** * Further properties of the routes *)

(** ** The shape of a points breakdown *)

Lemma speed_bonus_of_values (s : ChallengeSession) (c : Challenge) :
  In (speed_bonus_of s c) [0; 25; 50; 100].
Proof.
  unfold speed_bonus_of. break_match; simpl; auto 6.
Qed.

Lemma completion_bonus_of_values (pct : Z) :
  In (completion_bonus_of pct) [0; 10; 20; 30; 50].
Proof.
  unfold completion_bonus_of. break_match; simpl; auto 6.
Qed.

(** X1.  For a session that has an end time and a challenge whose time
    limit, if it has one, is an integer of 64 bits, whatever the tables,
    the breakdown has base 50, correctness ten times the score, a speed
    bonus among 0, 25, 50, 100 (0 when the challenge has no time limit,
    be it missing or zero), a completion bonus among 0, 10, 20, 30, 50
    and a first-completion bonus of 0 or 100; the total is their sum, so
    it lies between [50 + 10 * score] and [300 + 10 * score]. *)
Theorem points_breakdown_range :
  forall (tbl : list ChallengeSession) (s : ChallengeSession) (c : Challenge)
         (total_questions t : Z),
    end_time s = Some t ->
    (forall l, time_limit_minutes c = Some l -> - 2 ^ 63 <= l < 2 ^ 63) ->
    let pb := calculate_challenge_points tbl s c total_questions in
    base_points pb = 50 /\
    correctness_bonus pb = 10 * score s /\
    In (speed_bonus pb) [0; 25; 50; 100] /\
    (Py.truthy_int (time_limit_minutes c) = false -> speed_bonus pb = 0) /\
    In (completion_bonus pb) [0; 10; 20; 30; 50] /\
    In (first_completion_bonus pb) [0; 100] /\
    total pb = base_points pb + correctness_bonus pb + speed_bonus pb
               + completion_bonus pb + first_completion_bonus pb /\
    50 + 10 * score s <= total pb <= 300 + 10 * score s.
Proof.
  intros tbl s c n t _ _ pb.
  assert (Hs := speed_bonus_of_values s c).
  assert (Hc := completion_bonus_of_values (percentage s)).
  assert (Hf : In (first_completion_bonus pb) [0; 100]).
  { subst pb. unfold calculate_challenge_points. simpl.
    destruct (first_completion tbl (c_id c) (end_time s)); simpl; auto. }
  assert (Hsp : speed_bonus pb = speed_bonus_of s c) by reflexivity.
  assert (Hcp : completion_bonus pb = completion_bonus_of (percentage s))
    by reflexivity.
  assert (Ht : total pb = 50 + score s * 10 + speed_bonus pb
                          + completion_bonus pb + first_completion_bonus pb)
    by reflexivity.
  split; [reflexivity|].
  split; [change (score s * 10 = 10 * score s); lia|].
  split; [rewrite Hsp; exact Hs|].
  split.
  { rewrite Hsp. unfold speed_bonus_of, Py.truthy_int. intros H.
    destruct (time_limit_minutes c) as [l|]; [|reflexivity].
    simpl. rewrite H. destruct (end_time s); reflexivity. }
  split; [rewrite Hcp; exact Hc|].
  split; [exact Hf|].
  split; [reflexivity|].
  rewrite Ht. rewrite Hsp, Hcp.
  cbn [In] in Hs, Hc, Hf.
  repeat match goal with H : _ \/ _ |- _ => destruct H as [H|H] end;
    try contradiction; lia.
Qed.

(** A session of 45 seconds on a challenge of two minutes, three of
    four answers correct, after an earlier completion. *)
Lemma points_breakdown_range_witness :
  let pb := calculate_challenge_points
              [mkSession 1 8 3 0 (Some 30000000) completed 4 100 300 None]
              (mkSession 2 7 3 60000000 (Some 105000000) completed 3 75 0 None)
              (mkChallenge 3 (Some 2) 3 70 true) 4 in
  speed_bonus pb = 100 /\ completion_bonus pb = 20 /\
  first_completion_bonus pb = 0 /\ 80 <= total pb <= 330.
Proof.
  assert (L : forall l, time_limit_minutes (mkChallenge 3 (Some 2) 3 70 true) = Some l ->
                        - 2 ^ 63 <= l < 2 ^ 63).
  { intros l H. injection H as <-. lia. }
  pose proof (points_breakdown_range
                [mkSession 1 8 3 0 (Some 30000000) completed 4 100 300 None]
                (mkSession 2 7 3 60000000 (Some 105000000) completed 3 75 0 None)
                (mkChallenge 3 (Some 2) 3 70 true) 4 105000000 eq_refl L)
    as (_ & _ & _ & _ & _ & _ & _ & H).
  split; [reflexivity|]. split; [reflexivity|]. split; [reflexivity|exact H].
Defined.

(** X2.  The first-completion bonus of a session that ended at [t] is
    lost exactly when the table holds a completed session of the same
    challenge that ended strictly before [t]; sessions that ended at the
    same instant do not deprive each other of it. *)
Theorem first_completion_bonus_criterion :
  forall (tbl : list ChallengeSession) (s : ChallengeSession) (c : Challenge)
         (total_questions t : Z),
    end_time s = Some t ->
    let pb := calculate_challenge_points tbl s c total_questions in
    (first_completion_bonus pb = 0 <->
     exists s', In s' tbl /\ s_challenge_id s' = c_id c /\ status s' = completed
                /\ exists e, end_time s' = Some e /\ e < t) /\
    (first_completion_bonus pb = 100 <-> no_earlier_completion tbl c t).
Proof.
  intros tbl s c n t Ht pb.
  assert (E : first_completion_bonus pb
              = match find (completed_before (c_id c) t) tbl with
                | None => 100 | Some _ => 0 end).
  { subst pb. unfold calculate_challenge_points, first_completion. simpl.
    rewrite Ht. reflexivity. }
  assert (Hb : forall s', completed_before (c_id c) t s' = true <->
                          s_challenge_id s' = c_id c /\ status s' = completed
                          /\ exists e, end_time s' = Some e /\ e < t).
  { intros s'. unfold completed_before.
    rewrite !andb_true_iff, Z.eqb_eq, status_eqb_eq.
    destruct (end_time s') as [e|].
    - rewrite Z.ltb_lt. split.
      + intros [[H1 H2] H3]. eauto.
      + intros (H1 & H2 & e' & He & Hlt). injection He as <-. auto.
    - split; [intros [_ H]; discriminate|].
      intros (_ & _ & e' & He & _). discriminate. }
  rewrite E. destruct (find (completed_before (c_id c) t) tbl) as [s'|] eqn:F.
  - apply find_some in F. destruct F as [Hin Hs'].
    apply Hb in Hs'. destruct Hs' as (H1 & H2 & e & He & Hlt).
    split; split.
    + intros _. exists s'. repeat split; try assumption. exists e. auto.
    + reflexivity.
    + discriminate.
    + intros Hno. specialize (Hno s' Hin H1 H2 e He). lia.
  - split; split.
    + discriminate.
    + intros (s' & Hin & H1 & H2 & e & He & Hlt).
      pose proof (find_none _ _ F s' Hin) as N.
      assert (T : completed_before (c_id c) t s' = true)
        by (apply Hb; repeat split; try assumption; exists e; auto).
      congruence.
    + intros _ s' Hin H1 H2 e He.
      pose proof (find_none _ _ F s' Hin) as N.
      destruct (Z.lt_ge_cases e t) as [Hlt|Hge]; [|exact Hge].
      assert (T : completed_before (c_id c) t s' = true)
        by (apply Hb; repeat split; try assumption; exists e; auto).
      congruence.
    + reflexivity.
Qed.

Lemma first_completion_bonus_criterion_witness :
  first_completion_bonus
    (calculate_challenge_points [earlier_session; example_session]
                                example_session example_challenge 5) = 0.
Proof.
  apply (proj1 (first_completion_bonus_criterion
                  [earlier_session; example_session] example_session
                  example_challenge 5 241000000 eq_refl)).
  exists earlier_session. split; [left; reflexivity|].
  repeat split. exists 2000000. split; [reflexivity|lia].
Defined.

(* ================================================================== *)
(** ** A new session *)

Lemma next_id_above (ids : list Z) (x : Z) : In x ids -> x < next_id ids.
Proof.
  unfold next_id. induction ids as [|y ids IH]; cbn [fold_right In]; [intros []|].
  intros [->|H]; [lia|]. specialize (IH H). lia.
Qed.

Lemma find_app_none {A : Type} (f : A -> bool) (l : list A) (x : A) :
  find f l = None -> find f (l ++ [x]) = if f x then Some x else None.
Proof.
  induction l as [|y l IH]; simpl; [reflexivity|].
  destruct (f y); [discriminate|exact IH].
Qed.

Lemma find_app_some {A : Type} (f : A -> bool) (l l' : list A) (y : A) :
  find f l = Some y -> find f (l ++ l') = Some y.
Proof.
  induction l as [|z l IH]; simpl; [discriminate|].
  destruct (f z); [auto|exact IH].
Qed.

Lemma get_session_fresh (db : DB) (id : Z) :
  (forall s, In s (sessions db) -> s_id s < id) -> get_session db id = None.
Proof.
  intros H. unfold get_session.
  destruct (find _ (sessions db)) as [s|] eqn:F; [|reflexivity].
  apply find_some in F. destruct F as [Hin E]. apply Z.eqb_eq in E.
  specialize (H s Hin). lia.
Qed.

(** The test that lets [start_challenge] go past the attempt limit. *)
Definition below_limit (db : DB) (c : Challenge) (user_id : Z) : Prop :=
  max_attempts c = 0 \/
  Z.of_nat (List.length (attempts_of db (c_id c) user_id)) < max_attempts c.

Lemma get_challenge_id (db : DB) (cid : Z) (c : Challenge) :
  get_challenge db cid = Some c -> c_id c = cid.
Proof.
  intros H. apply find_some in H. destruct H as [_ H]. apply Z.eqb_eq. exact H.
Qed.

(** The session that [start_challenge] creates at [now]. *)
Definition new_session_of (db : DB) (now user_id challenge_id : Z) : ChallengeSession :=
  mkSession (next_id (map s_id (sessions db))) user_id challenge_id
            now None in_progress 0 0 0 None.

Lemma start_creates (db : DB) (now u cid : Z) (c : Challenge) :
  get_challenge db cid = Some c ->
  is_active c = true ->
  questions_of db cid <> [] ->
  below_limit db c u ->
  ongoing_session db cid u = None ->
  start_challenge db now u cid
  = (with_sessions db (sessions db ++ [new_session_of db now u cid]),
     Redirect (To_take_challenge (s_id (new_session_of db now u cid))) None).
Proof.
  intros Hget Hact Hq Hlim Hon.
  pose proof (get_challenge_id _ _ _ Hget) as Hid.
  unfold below_limit in Hlim. rewrite Hid in Hlim.
  unfold start_challenge. rewrite Hget, Hact. simpl.
  destruct (questions_of db cid) as [|q qs]; [now elim Hq|].
  replace (Z.of_nat (List.length (q :: qs)) =? 0) with false
    by (symmetry; apply Z.eqb_neq; simpl; lia).
  replace (negb (max_attempts c =? 0)
           && (max_attempts c <=? Z.of_nat (List.length (attempts_of db cid u))))
    with false.
  - rewrite Hon. reflexivity.
  - symmetry. destruct Hlim as [H0|Hlt].
    + rewrite H0. reflexivity.
    + apply andb_false_iff. right. apply Z.leb_gt. exact Hlt.
Qed.

Lemma start_creates_facts :
  forall (db : DB) (now user_id challenge_id : Z) (c : Challenge),
    get_challenge db challenge_id = Some c ->
    is_active c = true ->
    questions_of db challenge_id <> [] ->
    below_limit db c user_id ->
    ongoing_session db challenge_id user_id = None ->
    let new := new_session_of db now user_id challenge_id in
    let r := start_challenge db now user_id challenge_id in
    r = (with_sessions db (sessions db ++ [new]),
         Redirect (To_take_challenge (s_id new)) None) /\
    (forall s, In s (sessions db) -> s_id s < s_id new) /\
    get_session (fst r) (s_id new) = Some new /\
    ongoing_session (fst r) challenge_id user_id = Some new /\
    attempts_of (fst r) challenge_id user_id
    = (attempts_of db challenge_id user_id ++ [new])%list.
Proof.
  intros db now u cid c Hget Hact Hq Hlim Hon new r.
  assert (R : r = (with_sessions db (sessions db ++ [new]),
                   Redirect (To_take_challenge (s_id new)) None))
    by (apply (start_creates db now u cid c); assumption).
  assert (Hfresh : forall s, In s (sessions db) -> s_id s < s_id new).
  { intros s Hin. apply next_id_above. apply in_map. exact Hin. }
  split; [exact R|]. split; [exact Hfresh|]. rewrite R. simpl fst.
  split; [|split].
  - unfold get_session. simpl sessions.
    rewrite (find_app_none _ _ _ (get_session_fresh db (s_id new) Hfresh)).
    rewrite Z.eqb_refl. reflexivity.
  - unfold ongoing_session in *. simpl sessions.
    rewrite (find_app_none _ _ _ Hon). simpl. rewrite !Z.eqb_refl. reflexivity.
  - unfold attempts_of. simpl sessions. rewrite filter_app. simpl.
    rewrite !Z.eqb_refl. reflexivity.
Qed.

(** The keys of a table lie where the database counts on from the
    largest: they are positive and below the largest key of all, which
    is [2 ^ 63 - 1] (there SQLite looks for an unused key at random). *)
Definition keys_in_range (ids : list Z) : Prop :=
  forall k, In k ids -> 1 <= k < 2 ^ 63 - 1.

(** X3.  For an active challenge with questions, a student below the
    attempt limit and with no session of it in progress gets one new
    row, appended to ChallengeSession: in progress, started now, score,
    percentage and points 0, no end time; while the keys in use are
    below the largest key of the database, its primary key is above
    every one of them; the student is sent to it, and it is then the row
    found under that key and the student's session in progress. *)
Theorem start_creates_session :
  forall (db : DB) (now user_id challenge_id : Z) (c : Challenge),
    keys_in_range (map s_id (sessions db)) ->
    get_challenge db challenge_id = Some c ->
    is_active c = true ->
    questions_of db challenge_id <> [] ->
    below_limit db c user_id ->
    ongoing_session db challenge_id user_id = None ->
    let new := new_session_of db now user_id challenge_id in
    let r := start_challenge db now user_id challenge_id in
    r = (with_sessions db (sessions db ++ [new]),
         Redirect (To_take_challenge (s_id new)) None) /\
    (forall s, In s (sessions db) -> s_id s < s_id new) /\
    1 <= s_id new <= 2 ^ 63 - 1 /\
    get_session (fst r) (s_id new) = Some new /\
    ongoing_session (fst r) challenge_id user_id = Some new /\
    attempts_of (fst r) challenge_id user_id
    = (attempts_of db challenge_id user_id ++ [new])%list.
Proof.
  intros db now u cid c Hk Hget Hact Hq Hlim Hon new r.
  destruct (start_creates_facts db now u cid c Hget Hact Hq Hlim Hon)
    as (R & Hfresh & Hg & Ho & Ha).
  split; [exact R|]. split; [exact Hfresh|].
  split; [|split; [exact Hg|split; [exact Ho|exact Ha]]].
  subst new. unfold new_session_of. cbn [s_id]. unfold next_id.
  assert (B : 0 <= fold_right Z.max 0 (map s_id (sessions db)) < 2 ^ 63 - 1).
  { clear - Hk. induction (map s_id (sessions db)) as [|k t IH];
      cbn [fold_right]; [lia|].
    assert (Hk0 := Hk k (or_introl eq_refl)).
    assert (IH' := IH (fun x Hx => Hk x (or_intror Hx))). lia. }
  lia.
Qed.

(** Student 8 has a completed session of challenge 3; student 7 has
    none. *)
Definition visited_db : DB :=
  mkDB [mkChallenge 3 None 1 70 true]
       [mcq 1 3 0 "1" "2" "3" "4" "B"; mcq 2 3 1 "x" "y" "z" "w" "A"]
       [mkSession 4 8 3 0 (Some 9) completed 0 0 50 None]
       [mkAnswer 1 4 1 "1" false 3; mkAnswer 2 4 2 "y" false 6].

Lemma start_creates_session_witness :
  start_challenge visited_db 10 7 3
  = (with_sessions visited_db
       [mkSession 4 8 3 0 (Some 9) completed 0 0 50 None;
        mkSession 5 7 3 10 None in_progress 0 0 0 None],
     Redirect (To_take_challenge 5) None).
Proof.
  assert (K : keys_in_range (map s_id (sessions visited_db))).
  { intros k [<-|[]]. cbn [s_id]. lia. }
  assert (Q : questions_of visited_db 3 <> []) by discriminate.
  assert (L : below_limit visited_db (mkChallenge 3 None 1 70 true) 7)
    by (right; simpl; lia).
  exact (proj1 (start_creates_session visited_db 10 7 3
                  (mkChallenge 3 None 1 70 true) K eq_refl eq_refl Q L eq_refl)).
Defined.

(** X4.  Asking twice to start creates one session: after a start that
    created a session, a second start by the same student, at any time,
    creates nothing and leads to that same session, as long as the
    student is still below the attempt limit with the new session
    counted. *)
Theorem start_twice_resumes :
  forall (db : DB) (now now' user_id challenge_id : Z) (c : Challenge),
    get_challenge db challenge_id = Some c ->
    is_active c = true ->
    questions_of db challenge_id <> [] ->
    (max_attempts c = 0 \/
     Z.of_nat (List.length (attempts_of db challenge_id user_id)) + 1
     < max_attempts c) ->
    ongoing_session db challenge_id user_id = None ->
    let r := start_challenge db now user_id challenge_id in
    start_challenge (fst r) now' user_id challenge_id
    = (fst r, Redirect (To_take_challenge
                          (s_id (new_session_of db now user_id challenge_id))) None)
    /\ snd r = Redirect (To_take_challenge
                           (s_id (new_session_of db now user_id challenge_id))) None.
Proof.
  intros db now now' u cid c Hget Hact Hq Hlim Hon r.
  pose proof (get_challenge_id _ _ _ Hget) as Hid.
  assert (Hlim0 : below_limit db c u).
  { unfold below_limit. rewrite Hid. destruct Hlim as [H|H]; [left|right]; lia. }
  destruct (start_creates_facts db now u cid c Hget Hact Hq Hlim0 Hon)
    as (R & _ & _ & Hon' & Hatt).
  fold r in R, Hon', Hatt. split; [|rewrite R; reflexivity].
  apply (start_resumes_below_limit (fst r) now' u cid c
           (new_session_of db now u cid)).
  - rewrite R. exact Hget.
  - exact Hact.
  - rewrite R. exact Hq.
  - rewrite Hatt, length_app. simpl.
    destruct Hlim as [H|H]; [left; exact H|right; lia].
  - exact Hon'.
Qed.

(** Three attempts allowed, one question, no session yet. *)
Definition three_attempts_db : DB :=
  mkDB [mkChallenge 3 None 3 70 true] [mcq 1 3 0 "1" "2" "3" "4" "B"] [] [].

Lemma start_twice_resumes_witness :
  start_challenge (fst (start_challenge three_attempts_db 10 7 3)) 11 7 3
  = (fst (start_challenge three_attempts_db 10 7 3),
     Redirect (To_take_challenge 1) None).
Proof.
  assert (Q : questions_of three_attempts_db 3 <> []) by discriminate.
  assert (L : max_attempts (mkChallenge 3 None 3 70 true) = 0 \/
              Z.of_nat (List.length (attempts_of three_attempts_db 3 7)) + 1
              < max_attempts (mkChallenge 3 None 3 70 true))
    by (right; simpl; lia).
  exact (proj1 (start_twice_resumes three_attempts_db 10 11 7 3
                  (mkChallenge 3 None 3 70 true) eq_refl eq_refl Q L eq_refl)).
Defined.

(* ================================================================== *)
(** ** What a request changes *)

Lemma update_session_ids (tbl : list ChallengeSession) (s' : ChallengeSession) :
  map s_id (update_session tbl s') = map s_id tbl.
Proof.
  induction tbl as [|x t IH]; simpl; [reflexivity|].
  destruct (s_id x =? s_id s') eqn:E; simpl.
  - apply Z.eqb_eq in E. rewrite E. reflexivity.
  - rewrite IH. reflexivity.
Qed.

Lemma update_session_length (tbl : list ChallengeSession) (s' : ChallengeSession) :
  List.length (update_session tbl s') = List.length tbl.
Proof.
  rewrite <- (length_map s_id), update_session_ids, length_map. reflexivity.
Qed.

Lemma update_session_other (tbl : list ChallengeSession) (s' : ChallengeSession) :
  forall i s, nth_error tbl i = Some s -> s_id s <> s_id s' ->
              nth_error (update_session tbl s') i = Some s.
Proof.
  induction tbl as [|x t IH]; intros i s Hn Hne; simpl; [exact Hn|].
  destruct (s_id x =? s_id s') eqn:E.
  - destruct i as [|i]; simpl in *; [|exact Hn].
    injection Hn as <-. apply Z.eqb_eq in E. contradiction.
  - destruct i as [|i]; simpl in *; [exact Hn|]. apply IH; assumption.
Qed.

(** [take_challenge] writes nothing, or completes the session found. *)
Lemma take_effect (db : DB) (now u sid : Z) :
  fst (take_challenge db now u sid) = db \/
  exists cs cs',
    get_session db sid = Some cs /\
    fst (take_challenge db now u sid)
    = with_sessions db (update_session (sessions db) cs') /\
    student_id cs = u /\ status cs <> completed /\
    s_id cs' = s_id cs /\ student_id cs' = student_id cs /\
    s_challenge_id cs' = s_challenge_id cs /\ start_time cs' = start_time cs /\
    status cs' = completed /\ end_time cs' = Some now.
Proof.
  unfold take_challenge.
  destruct (get_session db sid) as [cs|] eqn:G; [|left; reflexivity].
  destruct (student_id cs =? u) eqn:Hu; [|left; reflexivity].
  destruct (status_eqb (status cs) completed) eqn:Hst; [left; reflexivity|].
  simpl negb. cbv iota.
  destruct (get_challenge db (s_challenge_id cs)) as [c|]; [|left; reflexivity].
  destruct (order_by_index (questions_of db (c_id c))) as [|q0 qs0];
    [left; reflexivity|].
  destruct (first_unanswered _ _ _) as [[q k]|]; [left; reflexivity|].
  right. eexists; eexists. split; [reflexivity|]. split; [reflexivity|].
  apply Z.eqb_eq in Hu. split; [exact Hu|].
  split. { intros E. rewrite E in Hst. discriminate Hst. }
  simpl. repeat split.
Qed.

(** [challenge_results] writes nothing, or the score and the percentage
    of a completed session. *)
Lemma results_effect (db : DB) (u sid : Z) :
  fst (challenge_results db u sid) = db \/
  exists cs correct pct,
    get_session db sid = Some cs /\ student_id cs = u /\ status cs = completed /\
    fst (challenge_results db u sid)
    = with_sessions db (update_session (sessions db) (with_score cs correct pct)).
Proof.
  unfold challenge_results.
  destruct (get_session db sid) as [cs|] eqn:G; [|left; reflexivity].
  destruct (student_id cs =? u) eqn:Hu; [|left; reflexivity].
  destruct (status_eqb (status cs) completed) eqn:Hst; [|left; reflexivity].
  simpl negb. cbv iota.
  destruct (get_challenge db (s_challenge_id cs)) as [c|]; [|left; reflexivity].
  cbv zeta.
  destruct (negb (score cs =? _) || negb (percentage cs =? _));
    [|left; reflexivity].
  right. eexists; eexists; eexists. split; [reflexivity|].
  apply Z.eqb_eq in Hu. apply status_eqb_eq in Hst. repeat split; assumption.
Qed.

(** X5.  The challenge page and the results page never write a table
    other than ChallengeSession, never add, remove or renumber its rows,
    and never change the row of a session other than the one asked
    for. *)
Theorem pages_touch_one_session :
  forall (db : DB) (now user_id session_id : Z) (db' : DB),
    db' = fst (take_challenge db now user_id session_id) \/
    db' = fst (challenge_results db user_id session_id) ->
    challenges db' = challenges db /\
    questions db' = questions db /\
    answers db' = answers db /\
    map s_id (sessions db') = map s_id (sessions db) /\
    (forall i s, nth_error (sessions db) i = Some s -> s_id s <> session_id ->
                 nth_error (sessions db') i = Some s).
Proof.
  intros db now u sid db' H.
  assert (E : db' = db \/
              exists cs cs', get_session db sid = Some cs /\ s_id cs' = s_id cs /\
                             db' = with_sessions db (update_session (sessions db) cs')).
  { destruct H as [->| ->].
    - destruct (take_effect db now u sid)
        as [E|(cs & cs' & G & E & _ & _ & Hid & _)]; [left; exact E|].
      right. exists cs, cs'. auto.
    - destruct (results_effect db u sid)
        as [E|(cs & correct & pct & G & _ & _ & E)]; [left; exact E|].
      right. exists cs, (with_score cs correct pct). auto. }
  destruct E as [->|(cs & cs' & G & Hid & ->)].
  - repeat split. intros i s Hn _. exact Hn.
  - simpl. repeat split.
    + apply update_session_ids.
    + intros i s Hn Hne. apply update_session_other; [exact Hn|].
      rewrite Hid, (get_session_id _ _ _ G). exact Hne.
Qed.

(** [exhausted_db] with a second session of the challenge, of student 8. *)
Definition two_students_db : DB :=
  with_sessions exhausted_db
    [mkSession 1 7 3 0 None in_progress 0 0 0 None;
     mkSession 2 8 3 5 None in_progress 0 0 0 None].

Lemma pages_touch_one_session_witness :
  nth_error (sessions (fst (take_challenge two_students_db 40 7 1))) 1
  = Some (mkSession 2 8 3 5 None in_progress 0 0 0 None).
Proof.
  assert (N : s_id (mkSession 2 8 3 5 None in_progress 0 0 0 None) <> 1)
    by discriminate.
  exact (proj2 (proj2 (proj2 (proj2
           (pages_touch_one_session two_students_db 40 7 1
              (fst (take_challenge two_students_db 40 7 1))
              (or_introl eq_refl)))))
           1%nat (mkSession 2 8 3 5 None in_progress 0 0 0 None) eq_refl N).
Defined.

(** X6.  A student who is not the one of the session is refused by the
    challenge page, by the submission and by the results page alike,
    with 'Access denied to this challenge session.', and no table
    changes. *)
Theorem other_student_denied :
  forall (db : DB) (now user_id session_id question_id : Z)
         (form_answer : option string) (is_auto_submit : bool)
         (cs : ChallengeSession),
    get_session db session_id = Some cs ->
    student_id cs <> user_id ->
    let denied := (db, Redirect To_student_challenges (Some Access_denied)) in
    take_challenge db now user_id session_id = denied /\
    submit_challenge_answer db now user_id session_id question_id
                            form_answer is_auto_submit = denied /\
    challenge_results db user_id session_id = denied.
Proof.
  intros db now u sid qid a auto cs G Hne denied.
  apply Z.eqb_neq in Hne.
  unfold take_challenge, submit_challenge_answer, challenge_results.
  rewrite G, Hne. repeat split.
Qed.

Lemma other_student_denied_witness :
  submit_challenge_answer fresh_db 20 8 1 1 (Some "2") false
  = (fresh_db, Redirect To_student_challenges (Some Access_denied)).
Proof.
  refine (proj1 (proj2 (other_student_denied fresh_db 20 8 1 1 (Some "2") false
                          (mkSession 1 7 3 0 None in_progress 0 0 0 None)
                          eq_refl _))).
  discriminate.
Defined.

(* ================================================================== *)
(** ** The current question *)

(** The session has an answer for the question. *)
Definition answered (db : DB) (sid qid : Z) : Prop :=
  In qid (map a_question_id (answers_of db sid)).

Lemma answered_existing (db : DB) (sid qid : Z) :
  answered db sid qid <-> existing_answer db sid qid <> None.
Proof.
  unfold answered, answers_of, existing_answer. split.
  - intros H. apply in_map_iff in H. destruct H as (a & Hq & Hin).
    apply filter_In in Hin. destruct Hin as [Hin Hs].
    intros N. pose proof (find_none _ _ N a Hin) as F.
    unfold answer_matches in F. rewrite Hs, Hq, Z.eqb_refl in F. discriminate F.
  - intros H. destruct (find (answer_matches sid qid) (answers db)) as [a|] eqn:F;
      [|now elim H].
    apply find_some in F. destruct F as [Hin M].
    apply answer_matches_eq in M. destruct M as [Hs Hq].
    apply in_map_iff. exists a. split; [exact Hq|].
    apply filter_In. split; [exact Hin|]. apply Z.eqb_eq. exact Hs.
Qed.

(** No question comes before one of lower [order_index]. *)
Fixpoint sorted_by_index (l : list ChallengeQuestion) : Prop :=
  match l with
  | [] => True
  | x :: r => (forall y, In y r -> order_index x <= order_index y)
              /\ sorted_by_index r
  end.

Lemma insert_by_order_sorted (q : ChallengeQuestion) (l : list ChallengeQuestion) :
  sorted_by_index l -> sorted_by_index (insert_by_order q l).
Proof.
  induction l as [|x l IH]; simpl; [intros _; split; [intros y []|exact I]|].
  intros [Hx Hl]. destruct (order_index q <=? order_index x) eqn:E.
  - apply Z.leb_le in E. simpl. split; [|split; assumption].
    intros y [<-|Hy]; [exact E|]. specialize (Hx y Hy). lia.
  - apply Z.leb_gt in E. simpl. split; [|apply IH; exact Hl].
    intros y Hy. apply insert_by_order_In in Hy.
    destruct Hy as [->|Hy]; [lia|apply Hx; exact Hy].
Qed.

Lemma order_by_index_sorted (l : list ChallengeQuestion) :
  sorted_by_index (order_by_index l).
Proof.
  induction l as [|x l IH]; simpl; [exact I|].
  apply insert_by_order_sorted. exact IH.
Qed.

Lemma sorted_by_index_app (l1 l2 : list ChallengeQuestion) (q : ChallengeQuestion) :
  sorted_by_index (l1 ++ q :: l2) ->
  forall y, In y l2 -> order_index q <= order_index y.
Proof.
  induction l1 as [|x l1 IH]; simpl.
  - intros [H _]. exact H.
  - intros [_ H]. apply IH. exact H.
Qed.

(** The loop returns the first question of the list that has no answer,
    with its position. *)
Lemma first_unanswered_split (ids : list Z) (qs : list ChallengeQuestion) :
  forall i q k,
    first_unanswered ids qs i = Some (q, k) ->
    exists l1 l2, qs = (l1 ++ q :: l2)%list /\
                  (forall x, In x l1 -> In (q_id x) ids) /\
                  ~ In (q_id q) ids /\
                  k = i + Z.of_nat (List.length l1) + 1.
Proof.
  induction qs as [|x qs IH]; intros i q k; simpl; [discriminate|].
  destruct (existsb (Z.eqb (q_id x)) ids) eqn:E; simpl.
  - intros H. destruct (IH _ _ _ H) as (l1 & l2 & -> & Hl1 & Hq & Hk).
    exists (x :: l1), l2. split; [reflexivity|]. split; [|split].
    + intros y [<-|Hy]; [|apply Hl1; exact Hy].
      apply existsb_exists in E. destruct E as (z & Hz & Ez).
      apply Z.eqb_eq in Ez. subst z. exact Hz.
    + exact Hq.
    + simpl List.length. lia.
  - intros H. injection H as <- <-. exists [], qs.
    split; [reflexivity|]. split; [intros y []|]. split; [|simpl; lia].
    intros Hin.
    assert (T : existsb (Z.eqb (q_id x)) ids = true).
    { apply existsb_exists. exists (q_id x). split; [exact Hin|apply Z.eqb_refl]. }
    congruence.
Qed.

(** When [take_challenge] shows a question. *)
Lemma take_renders_inv (db db' : DB) (now u sid : Z) (s : ChallengeSession)
    (c : Challenge) (q : ChallengeQuestion) (p : Progress) (t : option Z) :
  take_challenge db now u sid = (db', Render_take_challenge s c q p t) ->
  db' = db /\ get_session db sid = Some s /\ student_id s = u /\
  status s <> completed /\
  get_challenge db (s_challenge_id s) = Some c /\
  first_unanswered (map a_question_id (answers_of db sid))
                   (order_by_index (questions_of db (c_id c))) 0
  = Some (q, p_current p) /\
  p_total p = Z.of_nat (List.length (questions_of db (c_id c))).
Proof.
  unfold take_challenge.
  destruct (get_session db sid) as [cs|] eqn:G; [|discriminate].
  destruct (student_id cs =? u) eqn:Hu; [|discriminate].
  destruct (status_eqb (status cs) completed) eqn:Hst; [discriminate|].
  simpl negb. cbv iota.
  destruct (get_challenge db (s_challenge_id cs)) as [ch|] eqn:Hc; [|discriminate].
  destruct (order_by_index (questions_of db (c_id ch))) as [|q0 qs0] eqn:O;
    [discriminate|].
  destruct (first_unanswered _ _ _) as [[cq k]|] eqn:F; [|discriminate].
  intros H. injection H as <- <- <- <- <- <-.
  apply Z.eqb_eq in Hu.
  split; [reflexivity|]. split; [reflexivity|]. split; [exact Hu|].
  split; [intros E; rewrite E in Hst; discriminate Hst|].
  split; [exact Hc|]. split.
  - cbn [p_current]. rewrite O. exact F.
  - cbn [p_total].
    rewrite <- (order_by_index_length (questions_of db (c_id ch))), O.
    reflexivity.
Qed.

Lemma take_shown_question :
  forall (db db' : DB) (now user_id session_id : Z) (s : ChallengeSession)
         (c : Challenge) (q : ChallengeQuestion) (p : Progress) (t : option Z),
    take_challenge db now user_id session_id
    = (db', Render_take_challenge s c q p t) ->
    db' = db /\
    In q (questions_of db (c_id c)) /\
    c_id c = s_challenge_id s /\
    ~ answered db session_id (q_id q) /\
    (forall q', In q' (questions_of db (c_id c)) ->
                order_index q' < order_index q ->
                answered db session_id (q_id q')) /\
    1 <= p_current p <= p_total p.
Proof.
  intros db db' now u sid s c q p t H.
  destruct (take_renders_inv _ _ _ _ _ _ _ _ _ _ H)
    as (-> & G & Hu & Hst & Hc & F & Ht).
  destruct (first_unanswered_split _ _ _ _ _ F) as (l1 & l2 & O & Hl1 & Hq & Hk).
  pose proof (order_by_index_sorted (questions_of db (c_id c))) as S.
  rewrite O in S.
  assert (Hin : forall x, In x (questions_of db (c_id c))
                          <-> In x (l1 ++ q :: l2)%list).
  { intros x. rewrite <- O. symmetry. apply order_by_index_In. }
  split; [reflexivity|].
  split; [apply Hin; apply in_or_app; right; left; reflexivity|].
  split; [apply (get_challenge_id _ _ _ Hc)|].
  split; [exact Hq|]. split.
  - intros q' Hq' Hlt. apply Hin in Hq'. apply in_app_or in Hq'.
    destruct Hq' as [H1|[<-|H2]].
    + apply Hl1. exact H1.
    + lia.
    + pose proof (sorted_by_index_app _ _ _ S q' H2). lia.
  - rewrite Ht, Hk, <- (order_by_index_length (questions_of db (c_id c))), O.
    rewrite length_app. simpl List.length. lia.
Qed.




(* ================================================================== *)
(** ** A stored answer *)

Lemma find_app_keep {A : Type} (f : A -> bool) (l : list A) (x : A) :
  f x = false -> find f (l ++ [x]) = find f l.
Proof.
  intros H. induction l as [|y l IH]; simpl; [rewrite H; reflexivity|].
  destruct (f y); [reflexivity|exact IH].
Qed.

(** X8.  A submission that passes the tests of the route, for a pair
    that has no answer, adds one row to ChallengeAnswer and nothing
    else: the submitted text (the empty text when none came), the
    verdict of the answer check and the current time, for that session
    and question, whatever challenge the question belongs to.  The row
    is then the answer found for the pair, the answers of the other
    pairs are the ones found before, and the challenge page no longer
    shows that question. *)
Theorem submit_stores_answer :
  forall (db : DB) (now user_id session_id question_id : Z)
         (form_answer : option string) (is_auto_submit : bool)
         (cs : ChallengeSession) (q : ChallengeQuestion) (b : bool),
    get_session db session_id = Some cs ->
    student_id cs = user_id ->
    status cs <> completed ->
    (Py.truthy_str form_answer = true \/ is_auto_submit = true) ->
    get_question db question_id = Some q ->
    answer_is_correct q form_answer = Returned b ->
    existing_answer db session_id question_id = None ->
    let row := mkAnswer (next_id (map a_id (answers db))) session_id question_id
                        (match form_answer with Some t => t | None => "" end)
                        b now in
    let r := submit_challenge_answer db now user_id session_id question_id
                                     form_answer is_auto_submit in
    fst r = with_answers db (answers db ++ [row]) /\
    accepted (snd r) = true /\
    existing_answer (fst r) session_id question_id = Some row /\
    (forall sid qid, sid <> session_id \/ qid <> question_id ->
                     existing_answer (fst r) sid qid = existing_answer db sid qid) /\
    (forall now' db2 s c q' p t,
        take_challenge (fst r) now' user_id session_id
        = (db2, Render_take_challenge s c q' p t) ->
        q_id q' <> question_id).
Proof.
  intros db now u sid qid a auto cs q b G Hu Hst Hans Hq Hb Hnone row r.
  assert (R : r = (with_answers db (answers db ++ [row]),
                   Redirect (To_take_challenge sid)
                     (Some (if auto then
                              if Py.truthy_str a then Time_expired_submitted
                              else Time_expired_no_answer
                            else Answer_submitted)))).
  { subst r. unfold submit_challenge_answer.
    rewrite G, Hq, Hb, Hnone. apply Z.eqb_eq in Hu. rewrite Hu. simpl negb.
    destruct (status_eqb (status cs) completed) eqn:St;
      [apply status_eqb_eq in St; contradiction|].
    cbv iota.
    replace (negb (Py.truthy_str a) && negb auto) with false; [reflexivity|].
    destruct Hans as [H|H]; rewrite H; simpl; rewrite ?andb_false_r; reflexivity. }
  assert (E : existing_answer (fst r) sid qid = Some row).
  { rewrite R. unfold existing_answer in *. simpl.
    rewrite (find_app_none _ _ _ Hnone). unfold answer_matches. simpl.
    rewrite !Z.eqb_refl. reflexivity. }
  split; [rewrite R; reflexivity|].
  split; [rewrite R; simpl; destruct auto; [destruct (Py.truthy_str a)|];
          reflexivity|].
  split; [exact E|]. split.
  - intros sid' qid' Hne. rewrite R. unfold existing_answer. simpl.
    apply find_app_keep. unfold answer_matches. simpl.
    apply andb_false_iff. destruct Hne as [H|H]; [left|right];
      apply Z.eqb_neq; congruence.
  - intros now' db2 s c q' p t T Heq.
    destruct (take_shown_question _ _ _ _ _ _ _ _ _ _ T)
      as (_ & _ & _ & Hun & _).
    apply Hun. apply answered_existing. rewrite Heq, E. discriminate.
Qed.

(** Student 7 has a session of challenge 3; question 9 belongs to
    challenge 4. *)
Definition foreign_db : DB :=
  mkDB [mkChallenge 3 None 3 70 true; mkChallenge 4 None 3 70 true]
       [mcq 1 3 0 "1" "2" "3" "4" "B"; mcq 9 4 0 "p" "q" "r" "s" "C"]
       [mkSession 1 7 3 0 None in_progress 0 0 0 None]
       [].

Lemma submit_stores_answer_witness :
  fst (submit_challenge_answer foreign_db 20 7 1 9 (Some "r") false)
  = with_answers foreign_db [mkAnswer 1 1 9 "r" true 20].
Proof.
  assert (N : status (mkSession 1 7 3 0 None in_progress 0 0 0 None) <> completed)
    by discriminate.
  exact (proj1 (submit_stores_answer foreign_db 20 7 1 9 (Some "r") false
                  (mkSession 1 7 3 0 None in_progress 0 0 0 None)
                  (mcq 9 4 0 "p" "q" "r" "s" "C") true
                  eq_refl eq_refl N (or_introl eq_refl) eq_refl eq_refl eq_refl)).
Defined.

(* ================================================================== *)
(** ** Case and surrounding white space in text answers *)

(** A text made of white space only. *)
Fixpoint blank (s : string) : bool :=
  match s with
  | EmptyString => true
  | String c r => Py.isspace c && blank r
  end.

Lemma isspace_lower_char (c : ascii) : Py.isspace (Py.lower_char c) = Py.isspace c.
Proof. destruct c as [[] [] [] [] [] [] [] []]; reflexivity. Qed.

Lemma lower_char_idem (c : ascii) :
  Py.lower_char (Py.lower_char c) = Py.lower_char c.
Proof. destruct c as [[] [] [] [] [] [] [] []]; reflexivity. Qed.

Lemma lower_idem (s : string) : Py.lower (Py.lower s) = Py.lower s.
Proof.
  induction s as [|c s IH]; simpl; [reflexivity|].
  rewrite lower_char_idem, IH. reflexivity.
Qed.

Lemma lower_empty (s : string) : Py.lower s = "" <-> s = "".
Proof. destruct s; simpl; split; congruence. Qed.

Lemma lstrip_lower (s : string) : Py.lstrip (Py.lower s) = Py.lower (Py.lstrip s).
Proof.
  induction s as [|c s IH]; simpl; [reflexivity|].
  rewrite isspace_lower_char. destruct (Py.isspace c); [exact IH|reflexivity].
Qed.

Lemma rstrip_lower (s : string) : Py.rstrip (Py.lower s) = Py.lower (Py.rstrip s).
Proof.
  induction s as [|c s IH]; simpl; [reflexivity|].
  rewrite IH, isspace_lower_char.
  destruct (Py.rstrip s) as [|d r]; simpl; [|reflexivity].
  destruct (Py.isspace c); reflexivity.
Qed.

Lemma strip_lower (s : string) : Py.strip (Py.lower s) = Py.lower (Py.strip s).
Proof. unfold Py.strip. rewrite lstrip_lower, rstrip_lower. reflexivity. Qed.

Lemma lstrip_blank (w : string) : blank w = true -> Py.lstrip w = "".
Proof.
  induction w as [|c w IH]; simpl; [reflexivity|].
  intros H. apply andb_true_iff in H. destruct H as [Hc Hw].
  rewrite Hc. apply IH. exact Hw.
Qed.

Lemma rstrip_blank (w : string) : blank w = true -> Py.rstrip w = "".
Proof.
  induction w as [|c w IH]; simpl; [reflexivity|].
  intros H. apply andb_true_iff in H. destruct H as [Hc Hw].
  rewrite (IH Hw), Hc. reflexivity.
Qed.

Lemma lstrip_blank_app (w x : string) :
  blank w = true -> Py.lstrip (w ++ x) = Py.lstrip x.
Proof.
  induction w as [|c w IH]; simpl; [reflexivity|].
  intros H. apply andb_true_iff in H. destruct H as [Hc Hw].
  rewrite Hc. apply IH. exact Hw.
Qed.

Lemma rstrip_app_blank (x w : string) :
  blank w = true -> Py.rstrip (x ++ w) = Py.rstrip x.
Proof.
  intros Hw. induction x as [|c x IH]; simpl.
  - apply rstrip_blank. exact Hw.
  - rewrite IH. reflexivity.
Qed.

Lemma strip_padded (w1 x w2 : string) :
  blank w1 = true -> blank w2 = true -> Py.strip (w1 ++ x ++ w2) = Py.strip x.
Proof.
  intros H1 H2. unfold Py.strip. rewrite (lstrip_blank_app _ _ H1).
  induction x as [|c x IH]; simpl.
  - rewrite (lstrip_blank _ H2). reflexivity.
  - destruct (Py.isspace c); [exact IH|].
    change (String c (x ++ w2)) with (String c x ++ w2).
    apply rstrip_app_blank. exact H2.
Qed.

(** X9.  For a question that is not multiple choice, a non-empty
    submission and the same submission put in lower case and wrapped in
    white space get the same verdict (or fail alike when the question
    has no key): the comparison ignores case and surrounding white
    space. *)
Theorem text_answer_ignores_case_and_padding :
  forall (q : ChallengeQuestion) (text w1 w2 : string),
    question_type q <> "multiple_choice" ->
    text <> "" ->
    blank w1 = true ->
    blank w2 = true ->
    answer_is_correct q (Some (w1 ++ Py.lower text ++ w2))
    = answer_is_correct q (Some text).
Proof.
  intros q text w1 w2 Hty Hne H1 H2.
  assert (Hne' : w1 ++ Py.lower text ++ w2 <> "").
  { destruct text as [|c t]; [now elim Hne|].
    destruct w1; simpl; discriminate. }
  apply String.eqb_neq in Hty.
  unfold answer_is_correct. rewrite Hty.
  destruct (w1 ++ Py.lower text ++ w2) as [|c0 t0] eqn:E; [now elim Hne'|].
  destruct text as [|c t]; [now elim Hne|].
  destruct (answer q) as [key|]; [|reflexivity].
  rewrite <- E, (strip_padded _ _ _ H1 H2), strip_lower, lower_idem.
  reflexivity.
Qed.

(** A true/false question whose key is "True". *)
Definition true_false_question : ChallengeQuestion :=
  mkQuestion 5 3 "true_false" None None None None None (Some "True") 0.

Lemma text_answer_ignores_case_and_padding_witness :
  answer_is_correct true_false_question (Some "  true ") = Returned true.
Proof.
  assert (T : question_type true_false_question <> "multiple_choice")
    by discriminate.
  assert (N : "TRUE" <> "") by discriminate.
  refine (eq_trans (text_answer_ignores_case_and_padding true_false_question
                      "TRUE" "  " " " T N eq_refl eq_refl) _).
  reflexivity.
Defined.

(* ================================================================== *)
(** ** What the four routes keep true *)

(** [start_challenge] writes nothing, or appends the new session, and
    that only when the student has none in progress for the challenge. *)
Lemma start_effect (db : DB) (now u cid : Z) :
  fst (start_challenge db now u cid) = db \/
  (ongoing_session db cid u = None /\
   fst (start_challenge db now u cid)
   = with_sessions db (sessions db ++ [new_session_of db now u cid])).
Proof.
  unfold start_challenge.
  destruct (get_challenge db cid) as [c|]; [|left; reflexivity].
  destruct (negb (is_active c)); [left; reflexivity|].
  cbv zeta.
  destruct (Z.of_nat (List.length (questions_of db cid)) =? 0); [left; reflexivity|].
  destruct (negb (max_attempts c =? 0) && _); [left; reflexivity|].
  destruct (ongoing_session db cid u) as [s|]; [left; reflexivity|].
  right. split; reflexivity.
Qed.

(** The row that [take_challenge] stores when it completes a session. *)
Lemma take_effect_row (db : DB) (now u sid : Z) :
  fst (take_challenge db now u sid) = db \/
  exists cs cs' c,
    get_session db sid = Some cs /\
    fst (take_challenge db now u sid)
    = with_sessions db (update_session (sessions db) cs') /\
    get_challenge db (s_challenge_id cs) = Some c /\
    questions_of db (c_id c) <> [] /\
    s_id cs' = s_id cs /\ s_challenge_id cs' = s_challenge_id cs /\
    student_id cs' = student_id cs /\
    status cs' = completed /\ end_time cs' = Some now /\
    score cs' = count_correct (answers_of db sid) /\
    percentage cs'
    = percent (count_correct (answers_of db sid))
              (Z.of_nat (List.length (questions_of db (c_id c)))).
Proof.
  unfold take_challenge.
  destruct (get_session db sid) as [cs|] eqn:G; [|left; reflexivity].
  destruct (student_id cs =? u) eqn:Hu; [|left; reflexivity].
  destruct (status_eqb (status cs) completed) eqn:Hst; [left; reflexivity|].
  simpl negb. cbv iota.
  destruct (get_challenge db (s_challenge_id cs)) as [c|] eqn:Hc;
    [|left; reflexivity].
  destruct (order_by_index (questions_of db (c_id c))) as [|q0 qs0] eqn:O;
    [left; reflexivity|].
  destruct (first_unanswered _ _ _) as [[q k]|]; [left; reflexivity|].
  right. eexists; eexists; exists c.
  split; [reflexivity|]. split; [reflexivity|]. split; [exact Hc|].
  split.
  { intros E. rewrite E in O. discriminate O. }
  cbn [s_id s_challenge_id student_id status end_time score percentage
       with_points finished].
  rewrite <- O, order_by_index_length. repeat split.
Qed.

(** The row that [challenge_results] stores when it corrects one. *)
Lemma results_effect_row (db : DB) (u sid : Z) :
  fst (challenge_results db u sid) = db \/
  exists cs c,
    get_session db sid = Some cs /\ status cs = completed /\
    get_challenge db (s_challenge_id cs) = Some c /\
    let n := Z.of_nat (List.length (questions_of db (c_id c))) in
    let correct := count_correct (answers_of db sid) in
    let pct := if 0 <? n then percent correct n else 0 in
    (score cs <> correct \/ percentage cs <> pct) /\
    fst (challenge_results db u sid)
    = with_sessions db (update_session (sessions db) (with_score cs correct pct)).
Proof.
  unfold challenge_results.
  destruct (get_session db sid) as [cs|] eqn:G; [|left; reflexivity].
  destruct (student_id cs =? u) eqn:Hu; [|left; reflexivity].
  destruct (status_eqb (status cs) completed) eqn:Hst; [|left; reflexivity].
  simpl negb. cbv iota.
  destruct (get_challenge db (s_challenge_id cs)) as [c|] eqn:Hc;
    [|left; reflexivity].
  cbv zeta.
  destruct (negb (score cs =? _) || negb (percentage cs =? _)) eqn:D;
    [|left; reflexivity].
  right. exists cs, c. apply status_eqb_eq in Hst.
  split; [reflexivity|]. split; [exact Hst|]. split; [exact Hc|].
  split; [|reflexivity].
  apply orb_true_iff in D. destruct D as [D|D]; apply negb_true_iff in D;
    apply Z.eqb_neq in D; auto.
Qed.

(** The session of a submission that was stored. *)
Lemma submit_effect_session (db : DB) (now u sid qid : Z) (a : option string)
    (auto : bool) :
  fst (submit_challenge_answer db now u sid qid a auto) = db \/
  exists cs row,
    get_session db sid = Some cs /\ status cs <> completed /\
    a_session_id row = sid /\ a_id row = next_id (map a_id (answers db)) /\
    fst (submit_challenge_answer db now u sid qid a auto)
    = with_answers db (answers db ++ [row]).
Proof.
  unfold submit_challenge_answer.
  destruct (get_session db sid) as [cs|]; [|left; reflexivity].
  destruct (negb (student_id cs =? u)); [left; reflexivity|].
  destruct (status_eqb (status cs) completed) eqn:Hst; [left; reflexivity|].
  destruct (negb (Py.truthy_str a) && negb auto); [left; reflexivity|].
  destruct (get_question db qid) as [q|]; [|left; reflexivity].
  destruct (answer_is_correct q a) as [b|]; [|left; reflexivity].
  destruct (existing_answer db sid qid) as [old|]; [left; reflexivity|].
  right. exists cs. eexists. split; [reflexivity|]. split.
  { intros E. rewrite E in Hst. discriminate Hst. }
  split; [|split]; [| |reflexivity]; reflexivity.
Qed.

Lemma In_update_session (tbl : list ChallengeSession) (s' x : ChallengeSession) :
  In x (update_session tbl s') -> In x tbl \/ x = s'.
Proof.
  induction tbl as [|y t IH]; simpl; [intros []|].
  destruct (s_id y =? s_id s'); simpl.
  - intros [<-|H]; auto.
  - intros [<-|H]; auto. destruct (IH H); auto.
Qed.

Lemma NoDup_snoc {A : Type} (l : list A) (x : A) :
  NoDup l -> ~ In x l -> NoDup (l ++ [x]).
Proof.
  induction l as [|y l IH]; simpl; intros Hn Hx.
  - constructor; [intros []|constructor].
  - inversion Hn as [|? ? Hy Hl]; subst. constructor.
    + intros H. apply in_app_or in H. destruct H as [H|[H|[]]]; [auto|].
      subst. apply Hx. left. reflexivity.
    + apply IH; [exact Hl|]. intros H. apply Hx. right. exact H.
Qed.

Lemma next_id_fresh (ids : list Z) : ~ In (next_id ids) ids.
Proof. intros H. apply next_id_above in H. lia. Qed.

Lemma handle_session_keys (db : DB) (now : Z) (r : Request) :
  NoDup (map s_id (sessions db)) ->
  NoDup (map s_id (sessions (fst (handle db now r)))).
Proof.
  intros Hs. destruct r as [u c|u s|u s q a auto|u s]; simpl.
  - destruct (start_effect db now u c) as [->|[_ ->]]; [exact Hs|].
    simpl. rewrite map_app. apply NoDup_snoc; [exact Hs|apply next_id_fresh].
  - destruct (take_effect db now u s) as [->|(cs & cs' & _ & -> & _)];
      [exact Hs|]. simpl. rewrite update_session_ids. exact Hs.
  - rewrite (proj1 (submit_keeps_sessions _ _ _ _ _ _ _)). exact Hs.
  - destruct (results_effect db u s) as [->|(cs & co & pc & _ & _ & _ & ->)];
      [exact Hs|]. simpl. rewrite update_session_ids. exact Hs.
Qed.

Lemma handle_answer_keys (db : DB) (now : Z) (r : Request) :
  NoDup (map a_id (answers db)) ->
  NoDup (map a_id (answers (fst (handle db now r)))).
Proof.
  intros Ha. destruct r as [u c|u s|u s q a auto|u s]; simpl.
  - rewrite start_keeps_answers. exact Ha.
  - rewrite take_keeps_answers. exact Ha.
  - destruct (submit_effect_session db now u s q a auto)
      as [->|(cs & row & _ & _ & _ & Hid & ->)]; [exact Ha|].
    simpl. rewrite map_app. simpl. rewrite Hid.
    apply NoDup_snoc; [exact Ha|apply next_id_fresh].
  - rewrite results_keeps_answers. exact Ha.
Qed.

(** X10.  Primary keys stay distinct: if no two sessions and no two
    answers share a key, no sequence of requests makes two share one. *)
Theorem keys_stay_distinct :
  forall (db : DB) (reqs : list (Z * Request)),
    NoDup (map s_id (sessions db)) ->
    NoDup (map a_id (answers db)) ->
    NoDup (map s_id (sessions (run db reqs))) /\
    NoDup (map a_id (answers (run db reqs))).
Proof.
  intros db reqs. revert db.
  induction reqs as [|[now r] rest IH]; intros db Hs Ha; simpl; [auto|].
  apply IH; [apply handle_session_keys; exact Hs
            |apply handle_answer_keys; exact Ha].
Qed.

Definition whole_attempt_requests : list (Z * Request) :=
  [(10, Start 7 3);
   (20, Submit 7 1 1 (Some "2") false);
   (30, Submit 7 1 2 (Some "z") false);
   (40, Take 7 1)].

Lemma keys_stay_distinct_witness :
  NoDup (map a_id (answers (run scenario_db whole_attempt_requests))).
Proof.
  exact (proj2 (keys_stay_distinct scenario_db whole_attempt_requests
                  (NoDup_nil Z) (NoDup_nil Z))).
Defined.

(** The test of [ongoing_session]. *)
Definition in_progress_of (cid uid : Z) (s : ChallengeSession) : bool :=
  (s_challenge_id s =? cid) && (student_id s =? uid)
  && status_eqb (status s) in_progress.

(** No student has two sessions of a challenge in progress. *)
Definition one_in_progress (tbl : list ChallengeSession) : Prop :=
  forall cid uid, (List.length (filter (in_progress_of cid uid) tbl) <= 1)%nat.

Lemma filter_update_session_le (P : ChallengeSession -> bool)
    (tbl : list ChallengeSession) (s' : ChallengeSession) :
  P s' = false ->
  (List.length (filter P (update_session tbl s')) <= List.length (filter P tbl))%nat.
Proof.
  intros H. induction tbl as [|x t IH]; simpl; [lia|].
  destruct (s_id x =? s_id s'); simpl.
  - rewrite H. destruct (P x); simpl; lia.
  - destruct (P x); simpl; lia.
Qed.

Lemma in_progress_of_completed (cid uid : Z) (s : ChallengeSession) :
  status s = completed -> in_progress_of cid uid s = false.
Proof.
  intros H. unfold in_progress_of. rewrite H. simpl. apply andb_false_r.
Qed.

Lemma handle_one_in_progress (db : DB) (now : Z) (r : Request) :
  one_in_progress (sessions db) ->
  one_in_progress (sessions (fst (handle db now r))).
Proof.
  intros Inv. destruct r as [u c|u s|u s q a auto|u s]; simpl.
  - destruct (start_effect db now u c) as [->|[Hon ->]]; [exact Inv|].
    simpl. intros cid uid. rewrite filter_app, length_app. simpl.
    destruct (in_progress_of cid uid (new_session_of db now u c)) eqn:E.
    + unfold in_progress_of in E. simpl in E.
      rewrite andb_true_r in E. apply andb_true_iff in E.
      destruct E as [E1 E2]. apply Z.eqb_eq in E1, E2. subst cid uid.
      unfold ongoing_session in Hon.
      change (fun s0 => (s_challenge_id s0 =? c) && (student_id s0 =? u)
                        && status_eqb (status s0) in_progress)
        with (in_progress_of c u) in Hon.
      rewrite (find_none_filter _ _ Hon). simpl. lia.
    + specialize (Inv cid uid). simpl. lia.
  - destruct (take_effect db now u s)
      as [->|(cs & cs' & _ & -> & _ & _ & _ & _ & _ & _ & Hc & _)]; [exact Inv|].
    simpl. intros cid uid. specialize (Inv cid uid).
    pose proof (filter_update_session_le (in_progress_of cid uid) (sessions db) cs'
                  (in_progress_of_completed cid uid cs' Hc)).
    lia.
  - rewrite (proj1 (submit_keeps_sessions _ _ _ _ _ _ _)). exact Inv.
  - destruct (results_effect db u s) as [->|(cs & co & pc & _ & _ & Hc & ->)];
      [exact Inv|].
    simpl. intros cid uid. specialize (Inv cid uid).
    pose proof (filter_update_session_le (in_progress_of cid uid) (sessions db)
                  (with_score cs co pc)
                  (in_progress_of_completed cid uid (with_score cs co pc) Hc)).
    lia.
Qed.

(** X11.  If no student has two sessions of one challenge in progress,
    no sequence of requests brings that about. *)
Theorem one_session_in_progress :
  forall (db : DB) (reqs : list (Z * Request)),
    one_in_progress (sessions db) ->
    one_in_progress (sessions (run db reqs)).
Proof.
  intros db reqs. revert db.
  induction reqs as [|[now r] rest IH]; intros db Inv; simpl; [exact Inv|].
  apply IH. apply handle_one_in_progress. exact Inv.
Qed.

Lemma one_session_in_progress_witness :
  one_in_progress
    (sessions (run scenario_db [(10, Start 7 3); (11, Start 7 3); (12, Start 8 3)])).
Proof.
  apply (one_session_in_progress scenario_db).
  intros cid uid. simpl. lia.
Defined.

(** A session in progress has no end time and a completed one has. *)
Definition end_time_matches (s : ChallengeSession) : Prop :=
  (status s = in_progress -> end_time s = None) /\
  (status s = completed -> end_time s <> None).

Lemma handle_end_times (db : DB) (now : Z) (r : Request) :
  Forall end_time_matches (sessions db) ->
  Forall end_time_matches (sessions (fst (handle db now r))).
Proof.
  intros Inv. destruct r as [u c|u s|u s q a auto|u s]; simpl.
  - destruct (start_effect db now u c) as [->|[_ ->]]; [exact Inv|].
    simpl. apply Forall_app. split; [exact Inv|].
    constructor; [|constructor]. split; [reflexivity|discriminate].
  - destruct (take_effect db now u s)
      as [->|(cs & cs' & _ & -> & _ & _ & _ & _ & _ & _ & Hc & He)]; [exact Inv|].
    simpl. rewrite Forall_forall in *. intros x Hx.
    apply In_update_session in Hx. destruct Hx as [Hx| ->]; [auto|].
    split; [rewrite Hc; discriminate|rewrite He; discriminate].
  - rewrite (proj1 (submit_keeps_sessions _ _ _ _ _ _ _)). exact Inv.
  - destruct (results_effect db u s) as [->|(cs & co & pc & G & _ & Hc & ->)];
      [exact Inv|].
    simpl. rewrite Forall_forall in *. intros x Hx.
    apply In_update_session in Hx. destruct Hx as [Hx| ->]; [auto|].
    apply find_some in G. destruct G as [G _]. exact (Inv cs G).
Qed.

(** X12.  If every session in progress is without an end time and every
    completed session has one, this stays so through every sequence of
    requests: the routes set an end time exactly when they complete a
    session. *)
Theorem end_time_set_with_completion :
  forall (db : DB) (reqs : list (Z * Request)),
    Forall end_time_matches (sessions db) ->
    Forall end_time_matches (sessions (run db reqs)).
Proof.
  intros db reqs. revert db.
  induction reqs as [|[now r] rest IH]; intros db Inv; simpl; [exact Inv|].
  apply IH. apply handle_end_times. exact Inv.
Qed.

Lemma end_time_set_with_completion_witness :
  Forall end_time_matches (sessions (run scenario_db whole_attempt_requests)).
Proof.
  apply (end_time_set_with_completion scenario_db). constructor.
Defined.

(** What the results page computes for a session: the number of its
    correct answers and the percentage over the questions of its
    challenge, 0 when there are none. *)
Definition recomputed (db : DB) (s : ChallengeSession) : Z * Z :=
  let n := Z.of_nat (List.length (questions_of db (s_challenge_id s))) in
  let correct := count_correct (answers_of db (s_id s)) in
  (correct, if 0 <? n then percent correct n else 0).

(** Keys are distinct and every completed session stores what the
    results page computes. *)
Definition settled (db : DB) : Prop :=
  NoDup (map s_id (sessions db)) /\
  forall s, In s (sessions db) -> status s = completed ->
            (score s, percentage s) = recomputed db s.

Lemma NoDup_key_eq (tbl : list ChallengeSession) (s s' : ChallengeSession) :
  NoDup (map s_id tbl) -> In s tbl -> In s' tbl -> s_id s = s_id s' -> s = s'.
Proof.
  induction tbl as [|x t IH]; simpl; [intros _ []|].
  intros Hn Hs Hs' E. inversion Hn as [|? ? Hx Ht]; subst.
  destruct Hs as [<-|Hs], Hs' as [<-|Hs'].
  - reflexivity.
  - exfalso. apply Hx. rewrite E. apply in_map. exact Hs'.
  - exfalso. apply Hx. rewrite <- E. apply in_map. exact Hs.
  - apply IH; assumption.
Qed.

Lemma answers_of_app_other (db : DB) (row : ChallengeAnswer) (sid : Z) :
  a_session_id row <> sid ->
  answers_of (with_answers db (answers db ++ [row])) sid = answers_of db sid.
Proof.
  intros H. unfold answers_of. simpl. rewrite filter_app. simpl.
  apply Z.eqb_neq in H. rewrite H. apply app_nil_r.
Qed.

Lemma handle_settled (db : DB) (now : Z) (r : Request) :
  settled db -> settled (fst (handle db now r)).
Proof.
  intros [Hk Inv].
  assert (Hk' : NoDup (map s_id (sessions (fst (handle db now r)))))
    by (apply handle_session_keys; exact Hk).
  split; [exact Hk'|]. clear Hk'.
  destruct r as [u c|u sid|u sid q a auto|u sid]; simpl.
  - destruct (start_effect db now u c) as [->|[_ ->]]; [exact Inv|].
    simpl. intros s Hs Hc. apply in_app_or in Hs.
    destruct Hs as [Hs|[<-|[]]]; [|discriminate Hc].
    exact (Inv s Hs Hc).
  - destruct (take_effect_row db now u sid)
      as [->|(cs & cs' & c & G & -> & Hch & Hq & Hid & Hcid & _ & _ & _ & Hsc & Hp)];
      [exact Inv|].
    simpl. intros s Hs Hc. apply In_update_session in Hs.
    destruct Hs as [Hs| ->]; [exact (Inv s Hs Hc)|].
    unfold recomputed. simpl questions_of. simpl answers_of.
    change (questions_of (with_sessions db (update_session (sessions db) cs'))
                         (s_challenge_id cs'))
      with (questions_of db (s_challenge_id cs')).
    change (answers_of (with_sessions db (update_session (sessions db) cs'))
                       (s_id cs'))
      with (answers_of db (s_id cs')).
    rewrite Hid, Hcid, (get_session_id _ _ _ G), <- (get_challenge_id _ _ _ Hch).
    rewrite Hsc, Hp.
    replace (0 <? Z.of_nat (List.length (questions_of db (c_id c)))) with true;
      [reflexivity|].
    symmetry. apply Z.ltb_lt.
    destruct (questions_of db (c_id c)); [now elim Hq|simpl; lia].
  - destruct (submit_effect_session db now u sid q a auto)
      as [->|(cs & row & G & Hst & Hrow & _ & ->)]; [exact Inv|].
    simpl. intros s Hs Hc. unfold recomputed.
    change (questions_of (with_answers db (answers db ++ [row])) (s_challenge_id s))
      with (questions_of db (s_challenge_id s)).
    rewrite answers_of_app_other; [exact (Inv s Hs Hc)|].
    rewrite Hrow. intros E.
    assert (s = cs).
    { apply (NoDup_key_eq (sessions db)); [exact Hk|exact Hs| |].
      - apply find_some in G. exact (proj1 G).
      - rewrite (get_session_id _ _ _ G). symmetry. exact E. }
    subst s. contradiction.
  - destruct (results_effect_row db u sid)
      as [->|(cs & c & G & Hst & Hch & _ & ->)]; [exact Inv|].
    simpl. intros s Hs Hc. apply In_update_session in Hs.
    destruct Hs as [Hs| ->]; [exact (Inv s Hs Hc)|].
    unfold recomputed. cbn [s_id s_challenge_id score percentage with_score].
    change (questions_of (with_sessions db _) (s_challenge_id cs))
      with (questions_of db (s_challenge_id cs)).
    change (answers_of (with_sessions db _) (s_id cs))
      with (answers_of db (s_id cs)).
    rewrite (get_session_id _ _ _ G), <- (get_challenge_id _ _ _ Hch).
    reflexivity.
Qed.

Lemma run_settled (reqs : list (Z * Request)) :
  forall db, settled db -> settled (run db reqs).
Proof.
  induction reqs as [|[now r] rest IH]; intros db Inv; simpl; [exact Inv|].
  apply IH. apply handle_settled. exact Inv.
Qed.

(** X13.  From tables with distinct keys in which every completed
    session stores the score and percentage that the results page
    computes (tables without a completed session, for one), every
    sequence of requests leads to tables that the results page, asked by
    anyone for any session, leaves as they are: it never has a score or
    a percentage to correct. *)
Theorem results_page_writes_nothing :
  forall (db : DB) (reqs : list (Z * Request)) (user_id session_id : Z),
    settled db ->
    fst (challenge_results (run db reqs) user_id session_id) = run db reqs.
Proof.
  intros db reqs u sid Inv.
  pose proof (run_settled reqs db Inv) as [Hk H].
  destruct (results_effect_row (run db reqs) u sid)
    as [E|(cs & c & G & Hst & Hch & Hne & _)]; [exact E|].
  exfalso. cbv zeta in Hne.
  pose proof (find_some _ _ G) as [Hin _].
  specialize (H cs Hin Hst). unfold recomputed in H.
  rewrite (get_session_id _ _ _ G), <- (get_challenge_id _ _ _ Hch) in H.
  injection H as H1 H2. destruct Hne as [N|N]; contradiction.
Qed.

Lemma results_page_writes_nothing_witness :
  fst (challenge_results (run scenario_db whole_attempt_requests) 7 1)
  = run scenario_db whole_attempt_requests.
Proof.
  apply (results_page_writes_nothing scenario_db whole_attempt_requests 7 1).
  split; [constructor|intros s []].
Defined.

(* ================================================================== *)
(** * The lecturer's routes on a challenge

    [toggle_challenge_status], [edit_challenge] (its POST branch) and
    [delete_challenge], modelled from the point where the logged-in
    lecturer is known.  The column [Challenge.created_by], which no route
    changes, is read through [created_by], from the key of the challenge
    to the key of its creator. *)

Inductive LecturerResponse :=
| Json_success (is_active : option bool)  (* {'success': True, ...} *)
| Json_not_found                          (* 'Challenge not found', 404 *)
| To_manage_challenges
| To_edit_challenge (challenge_id : Z).

Definition with_challenges (db : DB) (tbl : list Challenge) : DB :=
  mkDB tbl (questions db) (sessions db) (answers db).

(** Writing back the object that [get_challenge] returned. *)
Fixpoint update_challenge (tbl : list Challenge) (c' : Challenge) : list Challenge :=
  match tbl with
  | [] => []
  | c :: t => if c_id c =? c_id c' then c' :: t else c :: update_challenge t c'
  end.

(** A form field read with [int(...)]: the integer, or the [ValueError]
    of a text that is not one. *)
Inductive Parsed :=
| Int_of (z : Z)
| ValueError.

(** The fields of the edit form that the route reads: [None] is a field
    that is absent (for [time_limit_minutes], absent or empty).  The
    texts are written to columns that the model of [Challenge] does not
    carry; they count for whether the commit is accepted. *)
Record EditForm := mkEditForm {
  f_title : option string;
  f_description : option string;
  f_challenge_type : option string;
  f_time_limit_minutes : option Parsed;
  f_max_attempts : option Parsed;
  f_passing_score : option Parsed;
  f_is_active : bool     (* 'is_active' in request.form *)
}.

(** What the database accepts at a commit: an integer in an Integer
    column, a text in a column String(n).  A value that is refused makes
    the commit raise. *)
Record Backend := mkBackend {
  stores_integer : Z -> bool;
  stores_string : nat -> string -> bool
}.

(** SQLite, the database of the application when no other is
    configured: the integers of 64 bits, and texts of any length. *)
Definition sqlite : Backend :=
  mkBackend (fun z => (- 2 ^ 63 <=? z) && (z <? 2 ^ 63)) (fun _ _ => true).

Section Lecturer.

Variable created_by : Z -> Z.
Variable backend : Backend.

Definition toggle_challenge_status (db : DB) (user_id challenge_id : Z)
    : DB * LecturerResponse :=
  match get_challenge db challenge_id with
  | None => (db, Json_not_found)
  | Some challenge =>
      if negb (created_by (c_id challenge) =? user_id) then (db, Json_not_found)
      else
        let challenge' :=
          mkChallenge (c_id challenge) (time_limit_minutes challenge)
                      (max_attempts challenge) (passing_score challenge)
                      (negb (is_active challenge)) in
        (with_challenges db (update_challenge (challenges db) challenge'),
         Json_success (Some (is_active challenge')))
  end.

Definition edit_challenge (db : DB) (user_id challenge_id : Z) (form : EditForm)
    : DB * LecturerResponse :=
  match get_challenge db challenge_id with
  | None => (db, To_manage_challenges)
  | Some challenge =>
      if negb (created_by (c_id challenge) =? user_id) then
        (db, To_manage_challenges)
      else
        (* the assignments, in the order of the route; a [ValueError]
           goes to the [except] branch, which rolls back *)
        let title :=
          Py.strip (match f_title form with Some t => t | None => "" end) in
        let description :=
          Py.strip (match f_description form with Some t => t | None => "" end) in
        let challenge_type :=
          match f_challenge_type form with Some t => t | None => "speed_quiz" end in
        match f_time_limit_minutes form with
        | Some ValueError => (db, To_edit_challenge challenge_id)
        | time_limit =>
            match match f_max_attempts form with
                  | Some p => p
                  | None => Int_of 3
                  end with
            | ValueError => (db, To_edit_challenge challenge_id)
            | Int_of attempts =>
                match match f_passing_score form with
                      | Some p => p
                      | None => Int_of 70
                      end with
                | ValueError => (db, To_edit_challenge challenge_id)
                | Int_of passing =>
                    let limit :=
                      match time_limit with
                      | Some (Int_of z) => Some z
                      | _ => None
                      end in
                    (* db.session.commit(): a value that its column
                       refuses raises, and the [except] branch rolls back *)
                    if stores_string backend 200 title
                       && stores_string backend 1000 description
                       && stores_string backend 50 challenge_type
                       && match limit with
                          | Some z => stores_integer backend z
                          | None => true
                          end
                       && stores_integer backend attempts
                       && stores_integer backend passing
                    then
                      let challenge' :=
                        mkChallenge (c_id challenge) limit attempts passing
                                    (f_is_active form) in
                      (with_challenges db
                         (update_challenge (challenges db) challenge'),
                       To_manage_challenges)
                    else (db, To_edit_challenge challenge_id)
                end
            end
        end
  end.

Definition delete_challenge (db : DB) (user_id challenge_id : Z)
    : DB * LecturerResponse :=
  match get_challenge db challenge_id with
  | None => (db, Json_not_found)
  | Some challenge =>
      if negb (created_by (c_id challenge) =? user_id) then (db, Json_not_found)
      else
        let session_ids :=
          map s_id (filter (fun s => s_challenge_id s =? challenge_id)
                           (sessions db)) in
        (mkDB (filter (fun c => negb (c_id c =? c_id challenge)) (challenges db))
              (filter (fun q => negb (q_challenge_id q =? challenge_id))
                      (questions db))
              (filter (fun s => negb (s_challenge_id s =? challenge_id))
                      (sessions db))
              (filter (fun a => negb (existsb (Z.eqb (a_session_id a)) session_ids))
                      (answers db)),
         Json_success None)
  end.

End Lecturer.

(* ================================================================== *)
(** ** Toggling a challenge *)

Lemma find_update_challenge (tbl : list Challenge) (c' c0 : Challenge) :
  find (fun c => c_id c =? c_id c') tbl = Some c0 ->
  find (fun c => c_id c =? c_id c') (update_challenge tbl c') = Some c'.
Proof.
  induction tbl as [|x t IH]; simpl; [discriminate|].
  destruct (c_id x =? c_id c') eqn:E; simpl.
  - intros _. rewrite Z.eqb_refl. reflexivity.
  - rewrite E. exact IH.
Qed.

Lemma find_update_challenge_other (tbl : list Challenge) (c' : Challenge) (k : Z) :
  k <> c_id c' ->
  find (fun c => c_id c =? k) (update_challenge tbl c')
  = find (fun c => c_id c =? k) tbl.
Proof.
  intros Hk. induction tbl as [|x t IH]; simpl; [reflexivity|].
  destruct (c_id x =? c_id c') eqn:E; simpl.
  - apply Z.eqb_eq in E.
    replace (c_id c' =? k) with false by (symmetry; apply Z.eqb_neq; congruence).
    replace (c_id x =? k) with false by (symmetry; apply Z.eqb_neq; congruence).
    reflexivity.
  - destruct (c_id x =? k); [reflexivity|exact IH].
Qed.

Lemma update_challenge_twice (tbl : list Challenge) (c1 c2 : Challenge) :
  c_id c1 = c_id c2 ->
  update_challenge (update_challenge tbl c1) c2 = update_challenge tbl c2.
Proof.
  intros E. induction tbl as [|x t IH]; simpl; [reflexivity|].
  destruct (c_id x =? c_id c1) eqn:F; simpl.
  - rewrite E, Z.eqb_refl. rewrite E in F. rewrite F. reflexivity.
  - rewrite E in F. rewrite F, IH. reflexivity.
Qed.

Lemma update_challenge_same (tbl : list Challenge) (c : Challenge) :
  find (fun x => c_id x =? c_id c) tbl = Some c -> update_challenge tbl c = tbl.
Proof.
  induction tbl as [|x t IH]; simpl; [reflexivity|].
  destruct (c_id x =? c_id c); [intros H; injection H as ->; reflexivity|].
  intros H. rewrite (IH H). reflexivity.
Qed.

Lemma update_challenge_ids (tbl : list Challenge) (c' : Challenge) :
  map c_id (update_challenge tbl c') = map c_id tbl.
Proof.
  induction tbl as [|x t IH]; simpl; [reflexivity|].
  destruct (c_id x =? c_id c') eqn:E; simpl.
  - apply Z.eqb_eq in E. rewrite E. reflexivity.
  - rewrite IH. reflexivity.
Qed.

Lemma with_challenges_same (db : DB) : with_challenges db (challenges db) = db.
Proof. destruct db; reflexivity. Qed.

(** X14.  Toggling a challenge twice leaves every table as it was; one
    toggle by the creator answers with the new value of the flag, which
    is the negation of the old one, and writes no table but Challenge; a
    toggle by anyone else, or of a challenge that does not exist, is
    answered 'Challenge not found' and changes nothing. *)
Theorem toggle_twice_restores :
  forall (created_by : Z -> Z) (db : DB) (user_id challenge_id : Z),
    let r := toggle_challenge_status created_by db user_id challenge_id in
    fst (toggle_challenge_status created_by (fst r) user_id challenge_id) = db /\
    questions (fst r) = questions db /\ sessions (fst r) = sessions db /\
    answers (fst r) = answers db /\
    (forall c, get_challenge db challenge_id = Some c ->
               created_by challenge_id = user_id ->
               snd r = Json_success (Some (negb (is_active c))) /\
               option_map is_active (get_challenge (fst r) challenge_id)
               = Some (negb (is_active c))) /\
    ((get_challenge db challenge_id = None \/ created_by challenge_id <> user_id) ->
     r = (db, Json_not_found)).
Proof.
  intros cb db u cid r.
  destruct (get_challenge db cid) as [c|] eqn:G.
  2: { assert (E : r = (db, Json_not_found))
         by (subst r; unfold toggle_challenge_status; rewrite G; reflexivity).
       rewrite E. cbn [fst snd]. fold r. rewrite E.
       split; [reflexivity|]. split; [reflexivity|]. split; [reflexivity|].
       split; [reflexivity|]. split; [intros c E0; discriminate E0|reflexivity]. }
  pose proof (get_challenge_id _ _ _ G) as Hid.
  destruct (cb cid =? u) eqn:O.
  2: { assert (E : r = (db, Json_not_found))
         by (subst r; unfold toggle_challenge_status; rewrite G, Hid, O;
             reflexivity).
       rewrite E. cbn [fst snd]. fold r. rewrite E.
       split; [reflexivity|]. split; [reflexivity|]. split; [reflexivity|].
       split; [reflexivity|]. split; [|reflexivity].
       intros c0 _ Hu. apply Z.eqb_neq in O. contradiction. }
  set (c' := mkChallenge (c_id c) (time_limit_minutes c) (max_attempts c)
                         (passing_score c) (negb (is_active c))).
  set (db1 := with_challenges db (update_challenge (challenges db) c')).
  assert (O' : (cb (c_id c) =? u) = true) by (rewrite Hid; exact O).
  assert (E : r = (db1, Json_success (Some (negb (is_active c)))))
    by (subst r; unfold toggle_challenge_status; rewrite G, O'; reflexivity).
  assert (G' : get_challenge db1 cid = Some c').
  { unfold get_challenge in *. simpl. rewrite <- Hid.
    change (c_id c) with (c_id c'). eapply find_update_challenge.
    change (c_id c') with (c_id c). rewrite Hid. exact G. }
  rewrite E. cbn [fst snd]. split.
  - unfold toggle_challenge_status. rewrite G'. cbn [c_id c']. rewrite O'.
    cbn [negb fst]. unfold db1, with_challenges. cbn [challenges questions sessions answers].
    rewrite update_challenge_twice by reflexivity.
    cbn [is_active time_limit_minutes max_attempts passing_score c_id c'].
    rewrite negb_involutive.
    replace (mkChallenge (c_id c) (time_limit_minutes c) (max_attempts c)
                         (passing_score c) (is_active c)) with c
      by (destruct c; reflexivity).
    rewrite update_challenge_same.
    + destruct db; reflexivity.
    + unfold get_challenge in G. rewrite Hid. exact G.
  - split; [reflexivity|]. split; [reflexivity|]. split; [reflexivity|]. split.
    + intros c0 E0 _. injection E0 as <-. rewrite G'. split; reflexivity.
    + intros [H|H]; [discriminate H|].
      apply Z.eqb_eq in O. contradiction.
Qed.

Lemma toggle_twice_restores_witness :
  start_challenge
    (fst (toggle_challenge_status (fun _ => 1)
            (fst (toggle_challenge_status (fun _ => 1) scenario_db 1 3)) 1 3))
    10 7 3
  = start_challenge scenario_db 10 7 3.
Proof.
  rewrite (proj1 (toggle_twice_restores (fun _ => 1) scenario_db 1 3)).
  reflexivity.
Defined.

Lemma start_inactive_refused_helper (db : DB) (now u cid : Z) (c : Challenge) :
  get_challenge db cid = Some c ->
  is_active c = false ->
  start_challenge db now u cid
  = (db, Redirect To_student_challenges (Some Not_currently_available)).
Proof.
  intros Hget Hact. unfold start_challenge. rewrite Hget, Hact. reflexivity.
Qed.

(** A challenge with its [is_active] flag left out of account. *)
Definition forget_active (c : Challenge) : Challenge :=
  mkChallenge (c_id c) (time_limit_minutes c) (max_attempts c) (passing_score c) true.

Lemma find_forget_active (tbl tbl' : list Challenge) (k : Z) :
  map forget_active tbl' = map forget_active tbl ->
  option_map forget_active (find (fun c => c_id c =? k) tbl')
  = option_map forget_active (find (fun c => c_id c =? k) tbl).
Proof.
  revert tbl'. induction tbl as [|x t IH]; intros [|x' t'] H; simpl in *;
    try discriminate; [reflexivity|].
  assert (Hx : forget_active x' = forget_active x) by congruence.
  assert (Ht : map forget_active t' = map forget_active t) by congruence.
  assert (E : c_id x' = c_id x) by exact (f_equal c_id Hx).
  rewrite E. destruct (c_id x =? k); simpl; [rewrite Hx; reflexivity|].
  apply IH. exact Ht.
Qed.

Lemma update_challenge_forget (tbl : list Challenge) (c' c0 : Challenge) :
  find (fun c => c_id c =? c_id c') tbl = Some c0 ->
  forget_active c0 = forget_active c' ->
  map forget_active (update_challenge tbl c') = map forget_active tbl.
Proof.
  induction tbl as [|x t IH]; simpl; [reflexivity|].
  destruct (c_id x =? c_id c'); simpl.
  - intros H E. injection H as ->. rewrite E. reflexivity.
  - intros H E. rewrite (IH H E). reflexivity.
Qed.

Lemma calculate_forget_active (tbl : list ChallengeSession) (s : ChallengeSession)
    (c c' : Challenge) (n : Z) :
  forget_active c' = forget_active c ->
  calculate_challenge_points tbl s c' n = calculate_challenge_points tbl s c n.
Proof.
  intros H. destruct c, c'. unfold forget_active in H. simpl in H.
  injection H as -> -> -> ->. reflexivity.
Qed.

(** A submission reads no row of Challenge. *)
Lemma submit_ignores_challenges (db : DB) (tbl : list Challenge) (now u sid qid : Z)
    (a : option string) (auto : bool) :
  submit_challenge_answer (with_challenges db tbl) now u sid qid a auto
  = (with_challenges (fst (submit_challenge_answer db now u sid qid a auto)) tbl,
     snd (submit_challenge_answer db now u sid qid a auto)).
Proof.
  unfold submit_challenge_answer, get_session, get_question, existing_answer.
  cbn [with_challenges sessions questions answers].
  break_match; reflexivity.
Qed.

(** What the challenge page stores does not depend on [is_active]. *)
Lemma take_ignores_active (db : DB) (tbl : list Challenge) (now u sid : Z) :
  map forget_active tbl = map forget_active (challenges db) ->
  sessions (fst (take_challenge (with_challenges db tbl) now u sid))
  = sessions (fst (take_challenge db now u sid)) /\
  answers (fst (take_challenge (with_challenges db tbl) now u sid))
  = answers (fst (take_challenge db now u sid)).
Proof.
  intros H. rewrite !take_keeps_answers. split; [|reflexivity].
  unfold take_challenge.
  change (get_session (with_challenges db tbl) sid) with (get_session db sid).
  destruct (get_session db sid) as [cs|]; [|reflexivity].
  destruct (negb (student_id cs =? u)); [reflexivity|].
  destruct (status_eqb (status cs) completed); [reflexivity|].
  pose proof (find_forget_active (challenges db) tbl (s_challenge_id cs) H) as F.
  unfold get_challenge. cbn [with_challenges challenges].
  destruct (find _ tbl) as [c'|], (find _ (challenges db)) as [c|];
    simpl in F; try discriminate; [|reflexivity].
  assert (F' : forget_active c' = forget_active c) by congruence.
  clear F. rename F' into F.
  assert (Eid : c_id c' = c_id c) by exact (f_equal c_id F).
  assert (Etl : time_limit_minutes c' = time_limit_minutes c)
    by exact (f_equal time_limit_minutes F).
  change (questions_of (with_challenges db tbl) (c_id c'))
    with (questions_of db (c_id c')).
  change (answers_of (with_challenges db tbl) sid) with (answers_of db sid).
  rewrite Eid.
  destruct (order_by_index (questions_of db (c_id c))) as [|q0 qs0]; [reflexivity|].
  destruct (first_unanswered _ _ _) as [[q k]|]; [reflexivity|].
  cbn [fst with_sessions with_challenges sessions].
  rewrite (calculate_forget_active _ _ c c' _ F). reflexivity.
Qed.

(** What the results page stores does not depend on [is_active]. *)
Lemma results_ignores_active (db : DB) (tbl : list Challenge) (u sid : Z) :
  map forget_active tbl = map forget_active (challenges db) ->
  sessions (fst (challenge_results (with_challenges db tbl) u sid))
  = sessions (fst (challenge_results db u sid)).
Proof.
  intros H. unfold challenge_results.
  change (get_session (with_challenges db tbl) sid) with (get_session db sid).
  destruct (get_session db sid) as [cs|]; [|reflexivity].
  destruct (negb (student_id cs =? u)); [reflexivity|].
  destruct (negb (status_eqb (status cs) completed)); [reflexivity|].
  pose proof (find_forget_active (challenges db) tbl (s_challenge_id cs) H) as F.
  unfold get_challenge. cbn [with_challenges challenges].
  destruct (find _ tbl) as [c'|], (find _ (challenges db)) as [c|];
    simpl in F; try discriminate; [|reflexivity].
  assert (F' : forget_active c' = forget_active c) by congruence.
  clear F. rename F' into F.
  assert (Eid : c_id c' = c_id c) by exact (f_equal c_id F).
  change (questions_of (with_challenges db tbl) (c_id c'))
    with (questions_of db (c_id c')).
  change (answers_of (with_challenges db tbl) sid) with (answers_of db sid).
  rewrite Eid. cbv zeta.
  destruct (negb (score cs =? _) || negb (percentage cs =? _)); reflexivity.
Qed.

(** X15.  Once its creator has switched an active challenge off, no
    student can start it, whatever the student's sessions; a session
    already started goes on as before: a submission is answered and
    stored as it would have been, and the challenge page and the
    results page store what they would have stored. *)
Theorem deactivation_stops_only_starts :
  forall (created_by : Z -> Z) (db : DB) (lecturer challenge_id : Z) (c : Challenge),
    get_challenge db challenge_id = Some c ->
    created_by challenge_id = lecturer ->
    is_active c = true ->
    let db1 := fst (toggle_challenge_status created_by db lecturer challenge_id) in
    (forall now student,
        start_challenge db1 now student challenge_id
        = (db1, Redirect To_student_challenges (Some Not_currently_available))) /\
    (forall now student sid qid a auto,
        snd (submit_challenge_answer db1 now student sid qid a auto)
        = snd (submit_challenge_answer db now student sid qid a auto) /\
        answers (fst (submit_challenge_answer db1 now student sid qid a auto))
        = answers (fst (submit_challenge_answer db now student sid qid a auto))) /\
    (forall now student sid,
        sessions (fst (take_challenge db1 now student sid))
        = sessions (fst (take_challenge db now student sid))) /\
    (forall student sid,
        sessions (fst (challenge_results db1 student sid))
        = sessions (fst (challenge_results db student sid))).
Proof.
  intros cb db u cid c G Hu Hact db1.
  pose proof (get_challenge_id _ _ _ G) as Hid.
  set (c' := mkChallenge (c_id c) (time_limit_minutes c) (max_attempts c)
                         (passing_score c) (negb (is_active c))).
  assert (E : db1 = with_challenges db (update_challenge (challenges db) c')).
  { subst db1. unfold toggle_challenge_status. rewrite G.
    replace (cb (c_id c) =? u) with true; [reflexivity|].
    symmetry. apply Z.eqb_eq. rewrite Hid. exact Hu. }
  assert (F : find (fun x => c_id x =? c_id c') (challenges db) = Some c).
  { unfold get_challenge in G. cbn [c_id c']. rewrite Hid. exact G. }
  assert (R : map forget_active (update_challenge (challenges db) c')
              = map forget_active (challenges db))
    by (apply (update_challenge_forget _ c' c F); reflexivity).
  rewrite E. split; [|split; [|split]].
  - intros now student.
    apply (start_inactive_refused_helper _ now student cid c').
    + unfold get_challenge. cbn [with_challenges challenges].
      rewrite <- Hid. change (c_id c) with (c_id c').
      apply (find_update_challenge _ c' c F).
    + cbn [is_active c']. rewrite Hact. reflexivity.
  - intros now student sid qid a auto.
    rewrite submit_ignores_challenges. split; reflexivity.
  - intros now student sid. apply take_ignores_active. exact R.
  - intros student sid. apply results_ignores_active. exact R.
Qed.

Lemma deactivation_stops_only_starts_witness :
  start_challenge
    (fst (toggle_challenge_status (fun _ => 1) fresh_db 1 3)) 50 8 3
  = (fst (toggle_challenge_status (fun _ => 1) fresh_db 1 3),
     Redirect To_student_challenges (Some Not_currently_available)).
Proof.
  exact (proj1 (deactivation_stops_only_starts (fun _ => 1) fresh_db 1 3
                  (mkChallenge 3 None 3 70 true) eq_refl eq_refl eq_refl) 50 8).
Defined.

(* ================================================================== *)
(** ** Editing a challenge *)

(** The form can be read: no field raises [ValueError]. *)
Definition form_parses (form : EditForm) : Prop :=
  f_time_limit_minutes form <> Some ValueError /\
  f_max_attempts form <> Some ValueError /\
  f_passing_score form <> Some ValueError.

(** The database accepts what the form gives: the title and the
    description without the white space around them, the type
    ('speed_quiz' when absent), and each number, among them the 3 and
    the 70 that stand for an absent field. *)
Definition form_stores (b : Backend) (form : EditForm) : Prop :=
  stores_string b 200
    (Py.strip (match f_title form with Some t => t | None => "" end)) = true /\
  stores_string b 1000
    (Py.strip (match f_description form with Some t => t | None => "" end)) = true /\
  stores_string b 50
    (match f_challenge_type form with Some t => t | None => "speed_quiz" end) = true /\
  (forall z, f_time_limit_minutes form = Some (Int_of z) ->
             stores_integer b z = true) /\
  (forall z, f_max_attempts form = Some (Int_of z) -> stores_integer b z = true) /\
  (f_max_attempts form = None -> stores_integer b 3 = true) /\
  (forall z, f_passing_score form = Some (Int_of z) -> stores_integer b z = true) /\
  (f_passing_score form = None -> stores_integer b 70 = true).

(** The row that a readable form gives a challenge. *)
Definition edited (c : Challenge) (form : EditForm) : Challenge :=
  mkChallenge (c_id c)
    (match f_time_limit_minutes form with Some (Int_of z) => Some z | _ => None end)
    (match f_max_attempts form with Some (Int_of z) => z | _ => 3 end)
    (match f_passing_score form with Some (Int_of z) => z | _ => 70 end)
    (f_is_active form).

Lemma edit_effect (created_by : Z -> Z) (b : Backend) (db : DB) (u cid : Z)
    (form : EditForm) :
  let r := edit_challenge created_by b db u cid form in
  (r = (db, To_manage_challenges) /\
   (get_challenge db cid = None \/ created_by cid <> u)) \/
  (exists c, get_challenge db cid = Some c /\ created_by cid = u /\
             (~ form_parses form \/ ~ form_stores b form) /\
             r = (db, To_edit_challenge cid)) \/
  (exists c, get_challenge db cid = Some c /\ created_by cid = u /\
             form_parses form /\ form_stores b form /\
             r = (with_challenges db (update_challenge (challenges db) (edited c form)),
                  To_manage_challenges)).
Proof.
  intros r. subst r. unfold edit_challenge.
  destruct (get_challenge db cid) as [c|] eqn:G.
  2: { left. split; [reflexivity|left; reflexivity]. }
  replace (created_by (c_id c) =? u) with (created_by cid =? u)
    by (rewrite (get_challenge_id _ _ _ G); reflexivity).
  destruct (created_by cid =? u) eqn:O; simpl negb; cbv iota.
  2: { left. apply Z.eqb_neq in O. split; [reflexivity|right; exact O]. }
  apply Z.eqb_eq in O. right. unfold form_parses, form_stores, edited.
  destruct (f_time_limit_minutes form) as [[tl|]|];
    destruct (f_max_attempts form) as [[ma|]|];
    destruct (f_passing_score form) as [[ps|]|]; cbv zeta.
  (* a field that cannot be read *)
  all: try solve
    [ left; exists c; split; [reflexivity|]; split; [exact O|];
      split; [|reflexivity];
      left; intros (H1 & H2 & H3); congruence ].
  (* the commit *)
  all: match goal with
       | |- context [if ?t then _ else _] => destruct t eqn:S
       end.
  all: try solve
    [ left; exists c; split; [reflexivity|]; split; [exact O|];
      split; [|reflexivity];
      right; intros (S1 & S2 & S3 & S4 & S5 & S6 & S7 & S8);
      rewrite S1, S2, S3 in S; cbn [andb] in S;
      try rewrite (S4 _ eq_refl) in S;
      try rewrite (S5 _ eq_refl) in S; try rewrite (S6 eq_refl) in S;
      try rewrite (S7 _ eq_refl) in S; try rewrite (S8 eq_refl) in S;
      discriminate S ].
  all: right; exists c; split; [reflexivity|]; split; [exact O|];
       split; [repeat split; discriminate|]; split; [|reflexivity];
       repeat match goal with
              | H : _ && _ = true |- _ =>
                  apply andb_true_iff in H; destruct H
              end;
       repeat split; try assumption; try reflexivity;
       try (intros ? ?; congruence); try (intros ?; congruence).
Qed.

(** X16.  An edit writes no table but Challenge and at most the row of
    the challenge edited, whose key it keeps; it writes nothing at all
    when a number of the form cannot be read or the database refuses a
    value of the form (the lecturer is sent back to the form), when the
    challenge does not exist or when it is another lecturer's; otherwise
    the row gets the time limit (none when the field is empty), the
    attempts (3 when absent), the passing score (70 when absent) and the
    flag of the form. *)
Theorem edit_writes_one_challenge :
  forall (created_by : Z -> Z) (backend : Backend) (db : DB)
         (user_id challenge_id : Z) (form : EditForm),
    let r := edit_challenge created_by backend db user_id challenge_id form in
    questions (fst r) = questions db /\
    sessions (fst r) = sessions db /\
    answers (fst r) = answers db /\
    map c_id (challenges (fst r)) = map c_id (challenges db) /\
    (forall k, k <> challenge_id -> get_challenge (fst r) k = get_challenge db k) /\
    (~ form_parses form \/ ~ form_stores backend form
     \/ get_challenge db challenge_id = None
     \/ created_by challenge_id <> user_id -> fst r = db) /\
    (forall c, get_challenge db challenge_id = Some c ->
               created_by challenge_id = user_id ->
               form_parses form ->
               form_stores backend form ->
               get_challenge (fst r) challenge_id = Some (edited c form)
               /\ snd r = To_manage_challenges) /\
    (forall c, get_challenge db challenge_id = Some c ->
               created_by challenge_id = user_id ->
               ~ form_parses form \/ ~ form_stores backend form ->
               snd r = To_edit_challenge challenge_id).
Proof.
  intros cb b db u cid form r.
  destruct (edit_effect cb b db u cid form)
    as [(E & Hwhy)|[(c & G & O & Hno & E)|(c & G & O & P & St & E)]];
    fold r in E; rewrite E; cbn [fst snd].
  - split; [reflexivity|]. split; [reflexivity|]. split; [reflexivity|].
    split; [reflexivity|]. split; [reflexivity|]. split; [reflexivity|].
    split; intros c G O; destruct Hwhy as [H|H]; congruence.
  - split; [reflexivity|]. split; [reflexivity|]. split; [reflexivity|].
    split; [reflexivity|]. split; [reflexivity|]. split; [reflexivity|].
    split.
    + intros c0 _ _ P St. destruct Hno as [H|H]; contradiction.
    + intros c0 _ _ _. reflexivity.
  - pose proof (get_challenge_id _ _ _ G) as Hid.
    split; [reflexivity|]. split; [reflexivity|]. split; [reflexivity|].
    split; [apply update_challenge_ids|]. split.
    { intros k Hk. unfold get_challenge. cbn [with_challenges challenges].
      apply find_update_challenge_other. cbn [c_id edited]. congruence. }
    split.
    { intros [H|[H|[H|H]]]; [contradiction|contradiction|congruence|contradiction]. }
    split.
    + intros c0 G0 _ _ _. rewrite G in G0. injection G0 as <-.
      split; [|reflexivity].
      unfold get_challenge in *. cbn [with_challenges challenges].
      rewrite <- Hid. change (c_id c) with (c_id (edited c form)).
      eapply find_update_challenge.
      change (c_id (edited c form)) with (c_id c). rewrite Hid. exact G.
    + intros c0 _ _ [H|H]; contradiction.
Qed.

(** A form that sets the passing score to 50, and one that sets it to
    [2 ^ 63]. *)
Definition pass_mark_form (p : Z) : EditForm :=
  mkEditForm (Some " Sums ") (Some "Add and subtract") None
             None None (Some (Int_of p)) true.

Lemma pass_mark_form_parses (p : Z) : form_parses (pass_mark_form p).
Proof. repeat split; discriminate. Qed.

Lemma pass_mark_form_stores (p : Z) :
  - 2 ^ 63 <= p < 2 ^ 63 -> form_stores sqlite (pass_mark_form p).
Proof.
  intros Hp. unfold form_stores, pass_mark_form.
  cbn [f_title f_description f_challenge_type f_time_limit_minutes
       f_max_attempts f_passing_score sqlite stores_string stores_integer].
  split; [reflexivity|]. split; [reflexivity|]. split; [reflexivity|].
  split; [intros z H; discriminate H|]. split; [intros z H; discriminate H|].
  split; [intros _; reflexivity|]. split; [|intros H; discriminate H].
  intros z H. injection H as <-. apply andb_true_iff.
  split; [apply Z.leb_le|apply Z.ltb_lt]; lia.
Qed.

Lemma edit_writes_one_challenge_witness :
  get_challenge
    (fst (edit_challenge (fun _ => 1) sqlite fresh_db 1 3 (pass_mark_form 50))) 3
  = Some (mkChallenge 3 None 3 50 true)
  /\ edit_challenge (fun _ => 1) sqlite fresh_db 1 3 (pass_mark_form (2 ^ 63))
     = (fresh_db, To_edit_challenge 3).
Proof.
  assert (S : form_stores sqlite (pass_mark_form 50))
    by (apply pass_mark_form_stores; lia).
  assert (N : ~ form_stores sqlite (pass_mark_form (2 ^ 63))).
  { intros (_ & _ & _ & _ & _ & _ & H & _).
    specialize (H _ eq_refl). discriminate H. }
  split.
  - exact (proj1 (proj1 (proj2 (proj2 (proj2 (proj2 (proj2 (proj2
             (edit_writes_one_challenge (fun _ => 1) sqlite fresh_db 1 3
                (pass_mark_form 50))))))))
             (mkChallenge 3 None 3 70 true) eq_refl eq_refl
             (pass_mark_form_parses 50) S)).
  - pose proof (edit_writes_one_challenge (fun _ => 1) sqlite fresh_db 1 3
                  (pass_mark_form (2 ^ 63)))
      as (_ & _ & _ & _ & _ & H1 & _ & H2).
    specialize (H1 (or_intror (or_introl N))).
    specialize (H2 (mkChallenge 3 None 3 70 true) eq_refl eq_refl (or_intror N)).
    destruct (edit_challenge (fun _ => 1) sqlite fresh_db 1 3
                (pass_mark_form (2 ^ 63))) as [d t].
    cbn [fst snd] in H1, H2. rewrite H1, H2. reflexivity.
Defined.

(** X17.  Whether a completed session passed is not stored: the results
    page judges the percentage against the passing score the challenge
    has now (70 when it is 0).  After an edit that sets the passing
    score, with a form that can be read and that the database accepts,
    the page shows the session judged against the new score, with the
    points and the breakdown it was awarded. *)
Theorem edit_changes_pass_mark :
  forall (created_by : Z -> Z) (backend : Backend) (db : DB)
         (lecturer challenge_id : Z)
         (form : EditForm) (c : Challenge) (p : Z)
         (student session_id : Z) (cs : ChallengeSession),
    get_challenge db challenge_id = Some c ->
    created_by challenge_id = lecturer ->
    form_parses form ->
    form_stores backend form ->
    f_passing_score form = Some (Int_of p) ->
    get_session db session_id = Some cs ->
    student_id cs = student ->
    status cs = completed ->
    s_challenge_id cs = challenge_id ->
    let db1 := fst (edit_challenge created_by backend db lecturer challenge_id form) in
    exists res,
      snd (challenge_results db1 student session_id) = Render_challenge_results res /\
      r_passing_score res = (if p =? 0 then 70 else p) /\
      r_percentage res = snd (recomputed db cs) /\
      passed res = (r_passing_score res <=? r_percentage res) /\
      points (r_session res) = points cs /\
      r_points_breakdown res = points_breakdown cs.
Proof.
  intros cb b db u cid form c p student sid cs G O P St Hp Gs Hu Hst Hcid db1.
  pose proof (get_challenge_id _ _ _ G) as Hid.
  pose proof (get_session_id _ _ _ Gs) as Hsid.
  destruct (edit_effect cb b db u cid form)
    as [(_ & [H|H])|[(c0 & _ & _ & [H|H] & _)|(c0 & G0 & _ & _ & _ & E)]];
    try congruence; try contradiction.
  rewrite G in G0. injection G0 as <-.
  assert (E1 : db1 = with_challenges db
                       (update_challenge (challenges db) (edited c form)))
    by (subst db1; rewrite E; reflexivity).
  assert (G1 : get_challenge db1 (s_challenge_id cs) = Some (edited c form)).
  { rewrite E1, Hcid. unfold get_challenge in *. cbn [with_challenges challenges].
    rewrite <- Hid. change (c_id c) with (c_id (edited c form)).
    eapply find_update_challenge.
    change (c_id (edited c form)) with (c_id c). rewrite Hid. exact G. }
  assert (Gs1 : get_session db1 sid = Some cs) by (rewrite E1; exact Gs).
  rewrite (results_completed db1 student sid cs (edited c form) Gs1 Hu Hst G1).
  unfold results_of. cbv zeta. eexists. split; [reflexivity|].
  cbn [r_passing_score r_percentage passed r_session r_points_breakdown
       passing_score edited c_id].
  rewrite Hp.
  assert (Q : questions_of db1 (c_id c) = questions_of db (s_challenge_id cs))
    by (rewrite E1, Hid, Hcid; reflexivity).
  assert (A : answers_of db1 (s_id cs) = answers_of db (s_id cs))
    by (rewrite E1; reflexivity).
  rewrite Q, A. unfold recomputed. cbn [snd].
  split; [reflexivity|]. split; [reflexivity|]. split; [reflexivity|].
  destruct (negb (score cs =? _) || negb (percentage cs =? _)); split; reflexivity.
Qed.

Lemma edit_changes_pass_mark_witness :
  exists res,
    snd (challenge_results
           (fst (edit_challenge (fun _ => 1) sqlite completed_db 1 3
                   (pass_mark_form 0))) 7 1)
    = Render_challenge_results res /\
    r_passing_score res = 70.
Proof.
  assert (S : form_stores sqlite (pass_mark_form 0))
    by (apply pass_mark_form_stores; lia).
  destruct (edit_changes_pass_mark (fun _ => 1) sqlite completed_db 1 3
              (pass_mark_form 0)
              (mkChallenge 3 None 3 70 true) 0 7 1
              (mkSession 1 7 3 0 (Some 50) completed 1 100 260 None)
              eq_refl eq_refl (pass_mark_form_parses 0) S
              eq_refl eq_refl eq_refl eq_refl eq_refl)
    as (res & H1 & H2 & _).
  exists res. split; [exact H1|exact H2].
Defined.

(* ================================================================== *)
(** ** Deleting a challenge *)

Lemma delete_effect (created_by : Z -> Z) (db : DB) (u cid : Z) :
  let r := delete_challenge created_by db u cid in
  (r = (db, Json_not_found) /\
   (get_challenge db cid = None \/ created_by cid <> u)) \/
  (exists c, get_challenge db cid = Some c /\ created_by cid = u /\
     r = (mkDB (filter (fun x => negb (c_id x =? cid)) (challenges db))
               (filter (fun q => negb (q_challenge_id q =? cid)) (questions db))
               (filter (fun s => negb (s_challenge_id s =? cid)) (sessions db))
               (filter (fun a => negb (existsb (Z.eqb (a_session_id a))
                                         (map s_id (filter (fun s => s_challenge_id s =? cid)
                                                           (sessions db)))))
                       (answers db)),
          Json_success None)).
Proof.
  intros r. subst r. unfold delete_challenge.
  destruct (get_challenge db cid) as [c|] eqn:G.
  2: { left. split; [reflexivity|left; reflexivity]. }
  pose proof (get_challenge_id _ _ _ G) as Hid. rewrite Hid.
  destruct (created_by cid =? u) eqn:O; simpl negb; cbv iota.
  - right. exists c. apply Z.eqb_eq in O. repeat split; assumption.
  - left. apply Z.eqb_neq in O. split; [reflexivity|right; exact O].
Qed.

(** X18.  After its creator has deleted a challenge, the challenge is
    not found, it has no question and no session left, the sessions it
    had have no answer left, and a student who asks to start it gets the
    error of the start route; nothing is created. *)
Theorem delete_removes_challenge :
  forall (created_by : Z -> Z) (db : DB) (lecturer challenge_id : Z) (c : Challenge),
    get_challenge db challenge_id = Some c ->
    created_by challenge_id = lecturer ->
    let r := delete_challenge created_by db lecturer challenge_id in
    snd r = Json_success None /\
    get_challenge (fst r) challenge_id = None /\
    questions_of (fst r) challenge_id = [] /\
    (forall s, In s (sessions (fst r)) -> s_challenge_id s <> challenge_id) /\
    (forall s, In s (sessions db) -> s_challenge_id s = challenge_id ->
               answers_of (fst r) (s_id s) = []) /\
    (forall now student,
        start_challenge (fst r) now student challenge_id
        = (fst r, Redirect To_student_challenges (Some Error_starting))).
Proof.
  intros cb db u cid c G O r.
  destruct (delete_effect cb db u cid) as [[_ [H|H]]|(c0 & _ & _ & E)];
    [congruence|contradiction|].
  fold r in E. rewrite E. cbn [fst snd].
  assert (Gn : get_challenge
                 (mkDB (filter (fun x => negb (c_id x =? cid)) (challenges db))
                       (filter (fun q => negb (q_challenge_id q =? cid)) (questions db))
                       (filter (fun s => negb (s_challenge_id s =? cid)) (sessions db))
                       (filter (fun a => negb (existsb (Z.eqb (a_session_id a))
                                                 (map s_id (filter (fun s => s_challenge_id s =? cid)
                                                                   (sessions db)))))
                               (answers db))) cid = None).
  { unfold get_challenge. cbn [challenges].
    destruct (find _ _) as [x|] eqn:F; [|reflexivity].
    apply find_some in F. destruct F as [Hin Hx].
    apply filter_In in Hin. destruct Hin as [_ Hn].
    rewrite Hx in Hn. discriminate Hn. }
  split; [reflexivity|]. split; [exact Gn|]. split; [|split; [|split]].
  - unfold questions_of. cbn [questions].
    destruct (filter _ (filter _ _)) as [|q l] eqn:F; [reflexivity|].
    assert (Hq : In q (q :: l)) by (left; reflexivity).
    rewrite <- F in Hq. apply filter_In in Hq. destruct Hq as [Hq H1].
    apply filter_In in Hq. destruct Hq as [_ H2].
    rewrite H1 in H2. discriminate H2.
  - cbn [sessions]. intros s Hs. apply filter_In in Hs. destruct Hs as [_ Hs].
    apply negb_true_iff, Z.eqb_neq in Hs. exact Hs.
  - intros s Hs Hc. unfold answers_of. cbn [answers].
    destruct (filter _ (filter _ _)) as [|a l] eqn:F; [reflexivity|].
    assert (Ha : In a (a :: l)) by (left; reflexivity).
    rewrite <- F in Ha. apply filter_In in Ha. destruct Ha as [Ha H1].
    apply filter_In in Ha. destruct Ha as [_ H2].
    apply negb_true_iff in H2.
    assert (T : existsb (Z.eqb (a_session_id a))
                        (map s_id (filter (fun s0 => s_challenge_id s0 =? cid)
                                          (sessions db))) = true).
    { apply existsb_exists. exists (s_id s). split.
      - apply in_map. apply filter_In. split; [exact Hs|].
        apply Z.eqb_eq. exact Hc.
      - exact H1. }
    congruence.
  - intros now student. unfold start_challenge. rewrite Gn. reflexivity.
Qed.

(** Challenge 3 with a question and an answered session, challenge 4
    with a question and an answered session of its own. *)
Definition two_challenges_db : DB :=
  mkDB [mkChallenge 3 None 3 70 true; mkChallenge 4 None 3 70 true]
       [mcq 1 3 0 "1" "2" "3" "4" "B"; mcq 9 4 0 "p" "q" "r" "s" "C"]
       [mkSession 1 7 3 0 None in_progress 0 0 0 None;
        mkSession 2 7 4 5 None in_progress 0 0 0 None]
       [mkAnswer 1 1 1 "2" true 20; mkAnswer 2 2 9 "r" true 30].

Lemma delete_removes_challenge_witness :
  fst (delete_challenge (fun _ => 1) two_challenges_db 1 3)
  = mkDB [mkChallenge 4 None 3 70 true]
         [mcq 9 4 0 "p" "q" "r" "s" "C"]
         [mkSession 2 7 4 5 None in_progress 0 0 0 None]
         [mkAnswer 2 2 9 "r" true 30]
  /\ get_challenge (fst (delete_challenge (fun _ => 1) two_challenges_db 1 3)) 3
     = None.
Proof.
  split; [reflexivity|].
  exact (proj1 (proj2 (delete_removes_challenge (fun _ => 1) two_challenges_db 1 3
                         (mkChallenge 3 None 3 70 true) eq_refl eq_refl))).
Defined.

Lemma filter_filter_implies {A : Type} (f g : A -> bool) (l : list A) :
  (forall x, In x l -> f x = true -> g x = true) ->
  filter f (filter g l) = filter f l.
Proof.
  induction l as [|x t IH]; intros H; [reflexivity|].
  assert (IH' : filter f (filter g t) = filter f t).
  { apply IH. intros y Hy. apply H. right. exact Hy. }
  cbn [filter]. destruct (f x) eqn:F.
  - rewrite (H x (or_introl eq_refl) F). cbn [filter]. rewrite F, IH'. reflexivity.
  - destruct (g x); cbn [filter]; [rewrite F|]; exact IH'.
Qed.

Lemma find_filter_implies {A : Type} (f g : A -> bool) (l : list A) :
  (forall x, In x l -> f x = true -> g x = true) ->
  find f (filter g l) = find f l.
Proof.
  induction l as [|x t IH]; intros H; [reflexivity|].
  assert (IH' : find f (filter g t) = find f t).
  { apply IH. intros y Hy. apply H. right. exact Hy. }
  cbn [filter find]. destruct (f x) eqn:F.
  - rewrite (H x (or_introl eq_refl) F). cbn [find]. rewrite F. reflexivity.
  - destruct (g x); cbn [find]; [rewrite F|]; exact IH'.
Qed.

Lemma NoDup_map_filter {A : Type} (k : A -> Z) (f : A -> bool) (l : list A) :
  NoDup (map k l) -> NoDup (map k (filter f l)).
Proof.
  induction l as [|x t IH]; intros H; [exact H|].
  cbn [map] in H. inversion H as [|? ? Hx Ht]; subst.
  cbn [filter]. destruct (f x); [|exact (IH Ht)].
  cbn [map]. constructor; [|exact (IH Ht)].
  intros Hin. apply Hx. apply in_map_iff in Hin.
  destruct Hin as (y & Hy & Hin). apply filter_In in Hin.
  apply in_map_iff. exists y. split; [exact Hy|exact (proj1 Hin)].
Qed.

(** X19.  Deleting a challenge leaves the other challenges as they were:
    with distinct session keys, every other challenge is found as
    before with its questions in the same order, each of its sessions is
    still in the table with the same answers, and completed sessions
    that stored what the results page computes still do. *)
Theorem delete_spares_other_challenges :
  forall (created_by : Z -> Z) (db : DB) (lecturer challenge_id : Z),
    NoDup (map s_id (sessions db)) ->
    let db1 := fst (delete_challenge created_by db lecturer challenge_id) in
    (forall k, k <> challenge_id ->
       get_challenge db1 k = get_challenge db k /\
       questions_of db1 k = questions_of db k /\
       (forall s, In s (sessions db) -> s_challenge_id s = k ->
          get_session db1 (s_id s) = get_session db (s_id s) /\
          In s (sessions db1) /\
          answers_of db1 (s_id s) = answers_of db (s_id s))) /\
    (settled db -> settled db1).
Proof.
  intros cb db u cid Hk db1.
  destruct (delete_effect cb db u cid) as [[E _]|(c & G & _ & E)].
  { cbv zeta in E. subst db1. rewrite E. cbn [fst].
    split; [|intros H; exact H].
    intros k _. split; [reflexivity|]. split; [reflexivity|].
    intros s Hs _. split; [reflexivity|]. split; [exact Hs|reflexivity]. }
  cbv zeta in E.
  assert (Hans : forall s, In s (sessions db) -> s_challenge_id s <> cid ->
            answers_of db1 (s_id s) = answers_of db (s_id s)).
  { intros s Hs Hc. subst db1. rewrite E. cbn [fst]. unfold answers_of.
    cbn [answers]. apply filter_filter_implies.
    intros a _ Ha. apply Z.eqb_eq in Ha. apply negb_true_iff.
    destruct (existsb _ _) eqn:X; [|reflexivity]. exfalso.
    apply existsb_exists in X. destruct X as (i & Hi & Hai).
    apply Z.eqb_eq in Hai. apply in_map_iff in Hi.
    destruct Hi as (s' & Hi & Hs'). apply filter_In in Hs'.
    destruct Hs' as [Hs' Hc']. apply Z.eqb_eq in Hc'.
    assert (s = s').
    { apply (NoDup_key_eq (sessions db)); [exact Hk|exact Hs|exact Hs'|].
      congruence. }
    subst s'. contradiction. }
  assert (Hqs : forall k, k <> cid -> questions_of db1 k = questions_of db k).
  { intros k Hne. subst db1. rewrite E. cbn [fst]. unfold questions_of.
    cbn [questions]. apply filter_filter_implies.
    intros q _ Hq. apply Z.eqb_eq in Hq. apply negb_true_iff, Z.eqb_neq.
    congruence. }
  assert (Hin : forall s, In s (sessions db) -> s_challenge_id s <> cid ->
            In s (sessions db1)).
  { intros s Hs Hc. subst db1. rewrite E. cbn [fst sessions].
    apply filter_In. split; [exact Hs|].
    apply negb_true_iff, Z.eqb_neq. exact Hc. }
  assert (Hsub : forall s, In s (sessions db1) ->
            In s (sessions db) /\ s_challenge_id s <> cid).
  { intros s Hs. subst db1. rewrite E in Hs. cbn [fst sessions] in Hs.
    apply filter_In in Hs. destruct Hs as [Hs Hc].
    apply negb_true_iff, Z.eqb_neq in Hc. split; assumption. }
  split.
  - intros k Hne. split; [|split].
    + subst db1. rewrite E. cbn [fst]. unfold get_challenge. cbn [challenges].
      apply find_filter_implies.
      intros x _ Hx. apply Z.eqb_eq in Hx. apply negb_true_iff, Z.eqb_neq.
      congruence.
    + exact (Hqs k Hne).
    + intros s Hs Hc. assert (Hc' : s_challenge_id s <> cid) by congruence.
      split; [|split; [exact (Hin s Hs Hc')|exact (Hans s Hs Hc')]].
      subst db1. rewrite E. cbn [fst]. unfold get_session. cbn [sessions].
      apply find_filter_implies.
      intros x Hx Hxid. apply Z.eqb_eq in Hxid.
      assert (x = s).
      { apply (NoDup_key_eq (sessions db)); assumption. }
      subst x. apply negb_true_iff, Z.eqb_neq. exact Hc'.
  - intros [_ Hset]. split.
    + subst db1. rewrite E. cbn [fst sessions]. apply NoDup_map_filter. exact Hk.
    + intros s Hs Hst. destruct (Hsub s Hs) as [Hs0 Hc].
      rewrite (Hset s Hs0 Hst). unfold recomputed.
      rewrite (Hans s Hs0 Hc), (Hqs _ Hc). reflexivity.
Qed.

Lemma delete_spares_other_challenges_witness :
  get_challenge (fst (delete_challenge (fun _ => 1) two_challenges_db 1 3)) 4
  = Some (mkChallenge 4 None 3 70 true) /\
  answers_of (fst (delete_challenge (fun _ => 1) two_challenges_db 1 3)) 2
  = [mkAnswer 2 2 9 "r" true 30].
Proof.
  assert (K : NoDup (map s_id (sessions two_challenges_db))).
  { cbn. repeat constructor; cbn; intuition discriminate. }
  assert (N : 4 <> 3) by discriminate.
  destruct (proj1 (delete_spares_other_challenges (fun _ => 1)
                     two_challenges_db 1 3 K) 4 N) as (H1 & _ & H3).
  split; [exact H1|].
  exact (proj2 (proj2 (H3 (mkSession 2 7 4 5 None in_progress 0 0 0 None)
                          (or_intror (or_introl eq_refl)) eq_refl))).
Defined.

(* ================================================================== *)
(** * fix_stuck_sessions.py

    The script that completes the sessions left in progress.  The loop
    runs over the rows that the first query returned; [clock k] is the
    time read by [datetime.now] at the visit of the row at position
    [k]. *)

Definition total_questions_of (db : DB) (s : ChallengeSession) : Z :=
  Z.of_nat (List.length (questions_of db (s_challenge_id s))).

Definition answered_questions_of (db : DB) (s : ChallengeSession) : Z :=
  Z.of_nat (List.length (answers_of db (s_id s))).

(** [answered_questions >= total_questions and total_questions > 0]. *)
Definition stuck (db : DB) (s : ChallengeSession) : bool :=
  (total_questions_of db s <=? answered_questions_of db s)
  && (0 <? total_questions_of db s).

(** The body of the loop.  With no challenge the scoring function raises
    at its first read of the challenge, and the [except] branch sets the
    points alone. *)
Definition fix_session (db : DB) (now : Z) (session : ChallengeSession) : DB :=
  let total_questions := total_questions_of db session in
  if stuck db session then
    let correct_answers := count_correct (answers_of db (s_id session)) in
    let s1 := finished session correct_answers total_questions now in
    let s2 :=
      match get_challenge db (s_challenge_id session) with
      | Some challenge =>
          with_points s1
            (calculate_challenge_points (update_session (sessions db) s1)
                                        s1 challenge total_questions)
      | None =>
          mkSession (s_id s1) (student_id s1) (s_challenge_id s1) (start_time s1)
                    (end_time s1) (status s1) (score s1) (percentage s1)
                    (50 + correct_answers * 10) (points_breakdown s1)
      end in
    with_sessions db (update_session (sessions db) s2)
  else db.

Fixpoint fix_loop (db : DB) (clock : nat -> Z) (k : nat)
    (stuck_sessions : list ChallengeSession) : DB :=
  match stuck_sessions with
  | [] => db
  | session :: rest => fix_loop (fix_session db (clock k) session) clock (S k) rest
  end.

Definition fix_stuck_sessions (db : DB) (clock : nat -> Z) : DB :=
  fix_loop db clock 0
           (filter (fun s => status_eqb (status s) in_progress) (sessions db)).

(** What the loop leaves alone in a row. *)
Definition row_key (s : ChallengeSession) : Z * Z * Z * Z :=
  (s_id s, student_id s, s_challenge_id s, start_time s).

Lemma update_session_row_keys (tbl : list ChallengeSession) (s' : ChallengeSession) :
  (forall s, In s tbl -> s_id s = s_id s' -> row_key s = row_key s') ->
  map row_key (update_session tbl s') = map row_key tbl.
Proof.
  induction tbl as [|x t IH]; intros H; [reflexivity|].
  cbn [update_session]. destruct (s_id x =? s_id s') eqn:E; cbn [map].
  - apply Z.eqb_eq in E. rewrite (H x (or_introl eq_refl) E). reflexivity.
  - rewrite IH; [reflexivity|]. intros s Hs. apply H. right. exact Hs.
Qed.

Lemma In_update_session_NoDup (tbl : list ChallengeSession) (s' x : ChallengeSession) :
  NoDup (map s_id tbl) ->
  In x (update_session tbl s') ->
  (In x tbl /\ s_id x <> s_id s') \/ x = s'.
Proof.
  induction tbl as [|y t IH]; intros Hk; [intros []|].
  cbn [map] in Hk. inversion Hk as [|? ? Hy Ht]; subst.
  cbn [update_session]. destruct (s_id y =? s_id s') eqn:E.
  - apply Z.eqb_eq in E. intros [Hx|H]; [right; symmetry; exact Hx|].
    left. split; [right; exact H|].
    intros Hx. apply Hy. rewrite E, <- Hx. apply in_map. exact H.
  - apply Z.eqb_neq in E. intros [Hx|H].
    + subst x. left. split; [left; reflexivity|exact E].
    + destruct (IH Ht H) as [[H1 H2]|H1]; [left|right; exact H1].
      split; [right; exact H1|exact H2].
Qed.

Lemma In_update_session_other (tbl : list ChallengeSession) (s' x : ChallengeSession) :
  In x tbl -> s_id x <> s_id s' -> In x (update_session tbl s').
Proof.
  induction tbl as [|y t IH]; [intros []|].
  cbn [update_session]. intros [<-|H] Hne.
  - destruct (s_id y =? s_id s') eqn:E; [|left; reflexivity].
    apply Z.eqb_eq in E. contradiction.
  - destruct (s_id y =? s_id s'); right; [exact H|apply IH; assumption].
Qed.

(** The row that a visit writes. *)
Definition fixed_row (db : DB) (s s' : ChallengeSession) : Prop :=
  row_key s' = row_key s /\
  status s' = completed /\
  score s' = count_correct (answers_of db (s_id s)) /\
  percentage s' = percent (count_correct (answers_of db (s_id s)))
                          (total_questions_of db s) /\
  (exists now, end_time s' = Some now) /\
  (get_challenge db (s_challenge_id s) = None ->
   points s' = 50 + score s' * 10 /\ points_breakdown s' = points_breakdown s).

Lemma fix_session_effect (db : DB) (now : Z) (s : ChallengeSession) :
  (stuck db s = false /\ fix_session db now s = db) \/
  (stuck db s = true /\
   exists s', fixed_row db s s' /\
              fix_session db now s
              = with_sessions db (update_session (sessions db) s')).
Proof.
  unfold fix_session. destruct (stuck db s) eqn:S; [right|left; split; reflexivity].
  split; [reflexivity|]. eexists. split; [|reflexivity].
  unfold fixed_row.
  destruct (get_challenge db (s_challenge_id s)) as [c|] eqn:G.
  - split; [reflexivity|]. split; [reflexivity|]. split; [reflexivity|].
    split; [reflexivity|]. split; [exists now; reflexivity|discriminate].
  - split; [reflexivity|]. split; [reflexivity|]. split; [reflexivity|].
    split; [reflexivity|]. split; [exists now; reflexivity|].
    intros _. split; reflexivity.
Qed.

(** The state of the loop: [db0] the tables at the start, [db] the
    tables now, [todo] the rows still to visit. *)
Record loop_invariant (db0 db : DB) (todo : list ChallengeSession) : Prop := {
  inv_challenges : challenges db = challenges db0;
  inv_questions : questions db = questions db0;
  inv_answers : answers db = answers db0;
  inv_keys : map row_key (sessions db) = map row_key (sessions db0);
  inv_todo : forall s, In s todo -> In s (sessions db) /\ status s = in_progress;
  inv_once : NoDup (map s_id todo);
  inv_rows : forall s', In s' (sessions db) ->
      (In s' (sessions db0) /\
       (status s' = in_progress -> stuck db0 s' = false \/ In s' todo)) \/
      (exists s, In s (sessions db0) /\ status s = in_progress /\
                 stuck db0 s = true /\ fixed_row db0 s s');
  inv_kept : forall s, In s (sessions db0) ->
      (status s = in_progress /\ stuck db0 s = true) \/ In s (sessions db)
}.

Lemma stuck_ext (db db0 : DB) (s : ChallengeSession) :
  questions db = questions db0 -> answers db = answers db0 ->
  stuck db s = stuck db0 s.
Proof.
  intros Q A. unfold stuck, total_questions_of, answered_questions_of,
                questions_of, answers_of. rewrite Q, A. reflexivity.
Qed.

Lemma fixed_row_ext (db db0 : DB) (s s' : ChallengeSession) :
  challenges db = challenges db0 ->
  questions db = questions db0 -> answers db = answers db0 ->
  fixed_row db s s' -> fixed_row db0 s s'.
Proof.
  intros C Q A. unfold fixed_row, total_questions_of, questions_of, answers_of,
                  get_challenge. rewrite C, Q, A. exact (fun H => H).
Qed.

Lemma row_keys_ids (l l' : list ChallengeSession) :
  map row_key l = map row_key l' -> map s_id l = map s_id l'.
Proof.
  intros H.
  assert (E : forall t, map s_id t = map (fun k => fst (fst (fst k))) (map row_key t)).
  { intros t. rewrite map_map. reflexivity. }
  rewrite (E l), (E l'), H. reflexivity.
Qed.

Lemma loop_invariant_step (db0 db : DB) (now : Z) (s : ChallengeSession)
    (rest : list ChallengeSession) :
  NoDup (map s_id (sessions db0)) ->
  loop_invariant db0 db (s :: rest) ->
  loop_invariant db0 (fix_session db now s) rest.
Proof.
  intros Hk0 [C Q A K T O R Kp].
  assert (Hk : NoDup (map s_id (sessions db)))
    by (rewrite (row_keys_ids _ _ K); exact Hk0).
  cbn [map] in O. inversion O as [|? ? Hn O']; subst.
  destruct (T s (or_introl eq_refl)) as [Hs Hst].
  destruct (fix_session_effect db now s) as [[S E]|(S & s' & F & E)]; rewrite E.
  - rewrite (stuck_ext db db0 s Q A) in S.
    constructor; try assumption.
    + intros x Hx. apply T. right. exact Hx.
    + intros x Hx. destruct (R x Hx) as [[H0 H1]|H]; [left|right; exact H].
      split; [exact H0|]. intros Hp. destruct (H1 Hp) as [H|[<-|H]].
      * left. exact H.
      * left. exact S.
      * right. exact H.
  - rewrite (stuck_ext db db0 s Q A) in S.
    apply (fixed_row_ext db db0 s s' C Q A) in F.
    pose proof F as (Fk & Fst & _).
    assert (Fid : s_id s' = s_id s) by (unfold row_key in Fk; congruence).
    assert (Hs0 : In s (sessions db0)).
    { destruct (R s Hs) as [[H _]|(x & _ & _ & _ & (_ & Hx & _))];
        [exact H|congruence]. }
    constructor; cbn [with_sessions challenges questions answers sessions];
      try assumption.
    + rewrite update_session_row_keys; [exact K|].
      intros x Hx Hid. rewrite Fid in Hid.
      rewrite (NoDup_key_eq (sessions db) x s Hk Hx Hs Hid). symmetry. exact Fk.
    + intros x Hx. destruct (T x (or_intror Hx)) as [Hin Hp].
      split; [|exact Hp]. apply In_update_session_other; [exact Hin|].
      rewrite Fid. intros Hid. apply Hn. rewrite <- Hid. apply in_map. exact Hx.
    + intros x Hx.
      destruct (In_update_session_NoDup _ _ _ Hk Hx) as [[Hin Hne]| -> ].
      * destruct (R x Hin) as [[H0 H1]|H]; [left|right; exact H].
        split; [exact H0|]. intros Hp. destruct (H1 Hp) as [H|[<-|H]].
        -- left. exact H.
        -- exfalso. apply Hne. symmetry. exact Fid.
        -- right. exact H.
      * right. exists s. split; [exact Hs0|]. split; [exact Hst|].
        split; [exact S|exact F].
    + intros x Hx. destruct (Kp x Hx) as [H|H]; [left; exact H|].
      destruct (Z.eq_dec (s_id x) (s_id s)) as [Hid|Hne].
      * assert (x = s) by (apply (NoDup_key_eq (sessions db)); assumption).
        subst x. left. split; assumption.
      * right. apply In_update_session_other; [exact H|]. rewrite Fid. exact Hne.
Qed.

Lemma fix_loop_invariant (db0 : DB) (clock : nat -> Z) :
  NoDup (map s_id (sessions db0)) ->
  forall todo db k,
    loop_invariant db0 db todo ->
    loop_invariant db0 (fix_loop db clock k todo) [].
Proof.
  intros Hk. induction todo as [|s rest IH]; intros db k Inv; [exact Inv|].
  cbn [fix_loop]. apply IH. apply loop_invariant_step; assumption.
Qed.

Lemma fix_stuck_sessions_facts (db : DB) (clock : nat -> Z) :
  NoDup (map s_id (sessions db)) ->
  loop_invariant db (fix_stuck_sessions db clock) [].
Proof.
  intros Hk. unfold fix_stuck_sessions. apply fix_loop_invariant; [exact Hk|].
  constructor; try reflexivity.
  - intros s Hs. apply filter_In in Hs. destruct Hs as [Hs Hp].
    apply status_eqb_eq in Hp. split; assumption.
  - apply NoDup_map_filter. exact Hk.
  - intros s Hs. left. split; [exact Hs|]. intros Hp. right.
    apply filter_In. split; [exact Hs|]. apply status_eqb_eq. exact Hp.
  - intros s Hs. right. exact Hs.
Qed.

Lemma fix_loop_nothing_stuck (db : DB) (clock : nat -> Z) :
  forall todo k,
    (forall s, In s todo -> stuck db s = false) ->
    fix_loop db clock k todo = db.
Proof.
  induction todo as [|s rest IH]; intros k H; [reflexivity|].
  cbn [fix_loop].
  assert (E : fix_session db (clock k) s = db).
  { unfold fix_session. rewrite (H s (or_introl eq_refl)). reflexivity. }
  rewrite E. apply IH. intros x Hx. apply H. right. exact Hx.
Qed.

(** X20.  The script stores what the challenge page would have stored:
    for a session in progress whose challenge exists, with questions of
    distinct keys that all have an answer of the session, one visit of
    the loop at time [now] leaves the tables that the student's opening
    of the challenge page at that time leaves. *)
Theorem fix_matches_challenge_page :
  forall (db : DB) (now : Z) (s : ChallengeSession) (c : Challenge),
    get_session db (s_id s) = Some s ->
    status s = in_progress ->
    get_challenge db (s_challenge_id s) = Some c ->
    questions_of db (s_challenge_id s) <> [] ->
    NoDup (map q_id (questions_of db (s_challenge_id s))) ->
    all_answered db (s_challenge_id s) (s_id s) ->
    fix_session db now s = fst (take_challenge db now (student_id s) (s_id s)).
Proof.
  intros db now s c G Hst Gc Hne Hq Hall.
  pose proof (get_challenge_id _ _ _ Gc) as Hcid.
  assert (S : stuck db s = true).
  { unfold stuck, total_questions_of, answered_questions_of.
    apply andb_true_iff. split.
    - apply Z.leb_le. apply Nat2Z.inj_le.
      rewrite <- (length_map q_id), <- (length_map a_question_id).
      apply NoDup_incl_length; [exact Hq|].
      intros i Hi. apply in_map_iff in Hi. destruct Hi as (q & <- & Hi).
      destruct (Hall q Hi) as (a & Ha & E). rewrite <- E. apply in_map. exact Ha.
    - apply Z.ltb_lt. destruct (questions_of db (s_challenge_id s));
        [contradiction|]. cbn [List.length]. lia. }
  unfold fix_session. rewrite S, Gc.
  unfold take_challenge. rewrite G, Z.eqb_refl, Hst, Gc, Hcid.
  cbn [negb status_eqb]. cbv iota.
  rewrite (proj1 (all_answered_first_unanswered db (s_challenge_id s) (s_id s)) Hall).
  rewrite order_by_index_length.
  destruct (order_by_index (questions_of db (s_challenge_id s))) as [|q qs] eqn:O.
  - exfalso. apply Hne. apply length_zero_iff_nil.
    rewrite <- order_by_index_length, O. reflexivity.
  - reflexivity.
Qed.

Lemma fix_matches_challenge_page_witness :
  fix_session exhausted_db 500 (mkSession 1 7 3 0 None in_progress 0 0 0 None)
  = fst (take_challenge exhausted_db 500 7 1).
Proof.
  assert (Hne : questions_of exhausted_db 3 <> []) by discriminate.
  assert (Hq : NoDup (map q_id (questions_of exhausted_db 3))).
  { cbn. repeat constructor; cbn; intuition discriminate. }
  assert (Hall : all_answered exhausted_db 3 1).
  { apply (proj2 (all_answered_first_unanswered exhausted_db 3 1)). reflexivity. }
  exact (fix_matches_challenge_page exhausted_db 500
           (mkSession 1 7 3 0 None in_progress 0 0 0 None)
           (mkChallenge 3 None 1 70 true)
           eq_refl eq_refl eq_refl Hne Hq Hall).
Defined.

Lemma stuck_on_tables (db : DB) (s : ChallengeSession) :
  stuck db s = true <->
  0 < Z.of_nat (List.length (filter (fun q => q_challenge_id q =? s_challenge_id s)
                                    (questions db)))
    <= Z.of_nat (List.length (filter (fun a => a_session_id a =? s_id s)
                                     (answers db))).
Proof.
  unfold stuck, total_questions_of, answered_questions_of, questions_of, answers_of.
  rewrite andb_true_iff, Z.leb_le, Z.ltb_lt. lia.
Qed.

(** X21.  With distinct session keys, a run of the script writes the
    ChallengeSession table only, and in it only the rows in progress
    whose answers are at least as many as the questions of the
    challenge, of which there is one at least: each of them is completed
    with the number of the rows of ChallengeAnswer that are of the
    session and marked correct, the percentage of that number (for up to
    a hundred questions and correct answers an integer nearest to the
    exact quotient) and an end time (and, when its challenge is missing,
    50 points and 10 for each correct answer), keeping its key, student,
    challenge and start time;
    every other row is kept, and no row fit to be completed is left in
    progress. *)
Theorem fix_stuck_sessions_effect :
  forall (db : DB) (clock : nat -> Z),
    NoDup (map s_id (sessions db)) ->
    let db1 := fix_stuck_sessions db clock in
    let total s :=
      Z.of_nat (List.length (filter (fun q => q_challenge_id q =? s_challenge_id s)
                                    (questions db))) in
    let answered s :=
      Z.of_nat (List.length (filter (fun a => a_session_id a =? s_id s)
                                    (answers db))) in
    let correct s :=
      Z.of_nat (List.length (filter (fun a => (a_session_id a =? s_id s)
                                              && is_correct a)
                                    (answers db))) in
    let fit s := status s = in_progress /\ 0 < total s <= answered s in
    challenges db1 = challenges db /\
    questions db1 = questions db /\
    answers db1 = answers db /\
    map row_key (sessions db1) = map row_key (sessions db) /\
    (forall s, In s (sessions db) -> ~ fit s -> In s (sessions db1)) /\
    (forall s', In s' (sessions db1) ->
                In s' (sessions db) \/
                exists s, In s (sessions db) /\ fit s /\
                          row_key s' = row_key s /\
                          status s' = completed /\
                          score s' = correct s /\
                          percentage s' = percent (correct s) (total s) /\
                          (correct s <= 100 -> total s <= 100 ->
                           2 * Z.abs (percentage s' * total s - 100 * correct s)
                           <= total s) /\
                          (exists now, end_time s' = Some now) /\
                          (get_challenge db (s_challenge_id s) = None ->
                           points s' = 50 + correct s * 10 /\
                           points_breakdown s' = points_breakdown s)) /\
    (forall s', In s' (sessions db1) -> ~ fit s').
Proof.
  intros db clock Hk db1 total answered correct fit.
  destruct (fix_stuck_sessions_facts db clock Hk) as [C Q A K _ _ R Kp].
  fold db1 in C, Q, A, K, R, Kp.
  assert (Hfit : forall s, fit s <-> status s = in_progress /\ stuck db s = true).
  { intros s. unfold fit, total, answered. rewrite stuck_on_tables. reflexivity. }
  split; [exact C|]. split; [exact Q|]. split; [exact A|]. split; [exact K|].
  split; [|split].
  - intros s Hs H. destruct (Kp s Hs) as [HS|Hin]; [|exact Hin].
    exfalso. apply H. apply Hfit. exact HS.
  - intros s' Hs'.
    destruct (R s' Hs') as [[H _]|(s & Hs & Hp & S & (Fk & Fst & Fs & Fp & Fe & Fn))];
      [left; exact H|right].
    exists s. split; [exact Hs|]. split; [apply Hfit; split; assumption|].
    split; [exact Fk|]. split; [exact Fst|].
    assert (Ec : count_correct (answers_of db (s_id s)) = correct s)
      by apply count_correct_on_table.
    rewrite Ec in Fs, Fp.
    split; [exact Fs|]. split; [exact Fp|].
    split.
    { intros H1 H2. rewrite Fp. apply stuck_on_tables in S.
      unfold correct, total in *. cbv beta in *.
      apply percent_nearest; lia. }
    split; [exact Fe|].
    intros G. destruct (Fn G) as [Hpt Hpb]. rewrite Fs in Hpt.
    split; assumption.
  - intros s' Hs' F. apply Hfit in F. destruct F as [Hp S].
    destruct (R s' Hs') as [[_ H]|(s & _ & _ & _ & (_ & Hc & _))]; [|congruence].
    destruct (H Hp) as [S'|[]]. congruence.
Qed.

(** Challenge 3 with two questions: session 1 has answered both,
    session 2 one of them, session 3 was completed before. *)
Definition stuck_db : DB :=
  mkDB [mkChallenge 3 None 3 70 true]
       [mcq 1 3 0 "1" "2" "3" "4" "B"; mcq 2 3 1 "x" "y" "z" "w" "A"]
       [mkSession 1 7 3 0 None in_progress 0 0 0 None;
        mkSession 2 8 3 5 None in_progress 0 0 0 None;
        mkSession 3 9 3 0 (Some 10) completed 1 50 160 None]
       [mkAnswer 1 1 1 "2" true 20; mkAnswer 2 1 2 "z" false 30;
        mkAnswer 3 2 1 "2" true 40; mkAnswer 4 3 1 "2" true 6;
        mkAnswer 5 3 2 "y" false 8].

Lemma stuck_db_keys : NoDup (map s_id (sessions stuck_db)).
Proof. cbn. repeat constructor; cbn; intuition discriminate. Qed.

Lemma answered_db_keys : NoDup (map s_id (sessions answered_db)).
Proof. cbn. repeat constructor; cbn; intuition discriminate. Qed.

(** In [answered_db] session 1 has three answers for three questions,
    two of them correct, and session 2 one answer. *)
Lemma fix_stuck_sessions_effect_witness :
  sessions (fix_stuck_sessions answered_db (fun k => 100 + Z.of_nat k))
  = [mkSession 1 7 3 0 (Some 100) completed 2 67 180
       (Some (mkPoints 50 20 0 10 100 180));
     mkSession 2 8 3 5 None in_progress 0 0 0 None]
  /\ answers (fix_stuck_sessions answered_db (fun k => 100 + Z.of_nat k))
     = answers answered_db
  /\ In (mkSession 2 8 3 5 None in_progress 0 0 0 None)
        (sessions (fix_stuck_sessions answered_db (fun k => 100 + Z.of_nat k))).
Proof.
  pose proof (fix_stuck_sessions_effect answered_db (fun k => 100 + Z.of_nat k)
                answered_db_keys) as (_ & _ & A & _ & Kp & _).
  split; [reflexivity|]. split; [exact A|].
  apply (Kp (mkSession 2 8 3 5 None in_progress 0 0 0 None)).
  - right. left. reflexivity.
  - intros [_ [_ H]]. vm_compute in H. apply H. reflexivity.
Defined.

(** X22.  The script keeps the tables settled: if session keys are
    distinct and every completed session stores the score and the
    percentage that the results page computes, the same holds after a
    run, also for the sessions that the run completed. *)
Theorem fix_stuck_sessions_keeps_settled :
  forall (db : DB) (clock : nat -> Z),
    settled db -> settled (fix_stuck_sessions db clock).
Proof.
  intros db clock [Hk Hset].
  destruct (fix_stuck_sessions_facts db clock Hk) as [C Q A K _ _ R _].
  assert (Rc : forall s, recomputed (fix_stuck_sessions db clock) s = recomputed db s).
  { intros s. unfold recomputed, questions_of, answers_of. rewrite Q, A. reflexivity. }
  split.
  - rewrite (row_keys_ids _ _ K). exact Hk.
  - intros s' Hs' Hc. rewrite Rc.
    destruct (R s' Hs') as [[H _]|(s & _ & _ & S & (Fk & _ & Fs & Fp & _))].
    + exact (Hset s' H Hc).
    + unfold recomputed. unfold row_key in Fk.
      assert (E1 : s_id s' = s_id s) by congruence.
      assert (E2 : s_challenge_id s' = s_challenge_id s) by congruence.
      rewrite E1, E2, Fs, Fp. unfold stuck in S.
      apply andb_true_iff in S. destruct S as [_ S].
      unfold total_questions_of in *. rewrite S. reflexivity.
Qed.

Lemma stuck_db_settled : settled stuck_db.
Proof.
  split; [exact stuck_db_keys|].
  intros s [<-|[<-|[<-|[]]]] H; try discriminate H. reflexivity.
Qed.

Lemma fix_stuck_sessions_keeps_settled_witness :
  settled (fix_stuck_sessions stuck_db (fun k => 100 + Z.of_nat k)).
Proof.
  exact (fix_stuck_sessions_keeps_settled stuck_db
           (fun k => 100 + Z.of_nat k) stuck_db_settled).
Defined.

(** X23.  A second run of the script changes nothing, whatever the
    clock: with distinct session keys, the tables after two runs are
    the tables after one. *)
Theorem fix_twice_changes_nothing :
  forall (db : DB) (clock clock' : nat -> Z),
    NoDup (map s_id (sessions db)) ->
    fix_stuck_sessions (fix_stuck_sessions db clock) clock'
    = fix_stuck_sessions db clock.
Proof.
  intros db clock clock' Hk.
  destruct (fix_stuck_sessions_facts db clock Hk) as [_ Q A _ _ _ R _].
  unfold fix_stuck_sessions at 1. apply fix_loop_nothing_stuck.
  intros s Hs. apply filter_In in Hs. destruct Hs as [Hs Hp].
  apply status_eqb_eq in Hp.
  rewrite (stuck_ext _ db s Q A).
  destruct (R s Hs) as [[_ H]|(x & _ & _ & _ & (_ & Hc & _))]; [|congruence].
  destruct (H Hp) as [S|[]]. exact S.
Qed.

Lemma fix_twice_changes_nothing_witness :
  fix_stuck_sessions (fix_stuck_sessions stuck_db (fun k => 100 + Z.of_nat k))
                     (fun k => 900 + Z.of_nat k)
  = fix_stuck_sessions stuck_db (fun k => 100 + Z.of_nat k).
Proof.
  exact (fix_twice_changes_nothing stuck_db (fun k => 100 + Z.of_nat k)
           (fun k => 900 + Z.of_nat k) stuck_db_keys).
Defined.

(* ================================================================== *)
(** * student_challenge_history

    The page of a student's completed sessions.  [.order_by(end_time
    .desc())] is modelled with the place of the rows without an end time
    left to the database: [nulls_first] is [true] where NULL sorts as the
    largest value (PostgreSQL) and [false] where it sorts as the smallest
    (SQLite).  Rows of equal end time keep the order of the table. *)

Record HistoryEntry := mkHistory {
  h_session : ChallengeSession;
  h_challenge : Challenge;
  h_total_questions : Z;
  h_percentage : Z;
  h_passed : bool;
  h_date_completed : option Z   (* the end time that is formatted; None is 'N/A' *)
}.

(** [a] is placed before [b], or they are equal, in descending order. *)
Definition precedes (nulls_first : bool) (a b : option Z) : bool :=
  match a, b with
  | Some x, Some y => y <=? x
  | None, None => true
  | None, Some _ => nulls_first
  | Some _, None => negb nulls_first
  end.

Fixpoint insert_by_end_time (nulls_first : bool) (s : ChallengeSession)
    (l : list ChallengeSession) : list ChallengeSession :=
  match l with
  | [] => [s]
  | x :: t =>
      if precedes nulls_first (end_time s) (end_time x) then s :: x :: t
      else x :: insert_by_end_time nulls_first s t
  end.

Definition order_by_end_time_desc (nulls_first : bool)
    (l : list ChallengeSession) : list ChallengeSession :=
  fold_right (insert_by_end_time nulls_first) [] l.

Definition history_entry (db : DB) (session_obj : ChallengeSession)
    (challenge : Challenge) : HistoryEntry :=
  mkHistory session_obj challenge
            (Z.of_nat (List.length (questions_of db (c_id challenge))))
            (percentage session_obj)
            ((if passing_score challenge =? 0 then 70 else passing_score challenge)
             <=? percentage session_obj)
            (end_time session_obj).

Definition student_challenge_history (nulls_first : bool) (db : DB) (user_id : Z)
    : list HistoryEntry :=
  let completed_sessions :=
    order_by_end_time_desc nulls_first
      (filter (fun s => (student_id s =? user_id) && status_eqb (status s) completed)
              (sessions db)) in
  flat_map (fun session_obj =>
              match get_challenge db (s_challenge_id session_obj) with
              | Some challenge => [history_entry db session_obj challenge]
              | None => []
              end)
           completed_sessions.

(** Each end time is placed before, or is equal to, every later one. *)
Fixpoint newest_first (nulls_first : bool) (l : list (option Z)) : Prop :=
  match l with
  | [] => True
  | t :: r => (forall t', In t' r -> precedes nulls_first t t' = true)
              /\ newest_first nulls_first r
  end.

Lemma precedes_total (nf : bool) (a b : option Z) :
  precedes nf a b = false -> precedes nf b a = true.
Proof.
  destruct a as [x|], b as [y|], nf; simpl; try discriminate; try reflexivity.
  all: intros H; apply Z.leb_gt in H; apply Z.leb_le; lia.
Qed.

Lemma precedes_trans (nf : bool) (a b c : option Z) :
  precedes nf a b = true -> precedes nf b c = true -> precedes nf a c = true.
Proof.
  destruct a as [x|], b as [y|], c as [z|], nf; simpl;
    try discriminate; try reflexivity.
  all: intros H1 H2; apply Z.leb_le in H1; apply Z.leb_le in H2;
       apply Z.leb_le; lia.
Qed.

Lemma insert_by_end_time_In (nf : bool) (s x : ChallengeSession)
    (l : list ChallengeSession) :
  In x (insert_by_end_time nf s l) <-> x = s \/ In x l.
Proof.
  induction l as [|y t IH]; simpl.
  - split; [intros [H|[]]; left; symmetry; exact H|intros [H|[]]; left; symmetry; exact H].
  - destruct (precedes nf (end_time s) (end_time y)); simpl.
    + split; [intros [H|H]; [left; symmetry; exact H|right; exact H]
             |intros [H|H]; [left; symmetry; exact H|right; exact H]].
    + rewrite IH. split; [intros [H|[H|H]]|intros [H|[H|H]]]; auto.
Qed.

Lemma order_by_end_time_desc_In (nf : bool) (x : ChallengeSession)
    (l : list ChallengeSession) :
  In x (order_by_end_time_desc nf l) <-> In x l.
Proof.
  induction l as [|y t IH]; simpl; [reflexivity|].
  rewrite insert_by_end_time_In, IH. split; intros [H|H]; auto.
Qed.

Lemma insert_by_end_time_sorted (nf : bool) (s : ChallengeSession)
    (l : list ChallengeSession) :
  newest_first nf (map end_time l) ->
  newest_first nf (map end_time (insert_by_end_time nf s l)).
Proof.
  induction l as [|y t IH]; cbn [map insert_by_end_time newest_first].
  - intros _. split; [intros t' []|exact I].
  - intros [Hy Ht].
    destruct (precedes nf (end_time s) (end_time y)) eqn:P;
      cbn [map newest_first].
    + split; [|split; assumption].
      intros t' [<-|H]; [exact P|].
      exact (precedes_trans nf _ _ _ P (Hy t' H)).
    + split; [|exact (IH Ht)].
      intros t' H. apply in_map_iff in H. destruct H as (x & <- & H).
      apply insert_by_end_time_In in H. destruct H as [->|H].
      * exact (precedes_total nf _ _ P).
      * apply Hy. apply in_map. exact H.
Qed.

Lemma order_by_end_time_desc_sorted (nf : bool) (l : list ChallengeSession) :
  newest_first nf (map end_time (order_by_end_time_desc nf l)).
Proof.
  induction l as [|y t IH]; [exact I|].
  cbn [order_by_end_time_desc fold_right]. apply insert_by_end_time_sorted.
  exact IH.
Qed.

Lemma history_In (nf : bool) (db : DB) (u : Z) (e : HistoryEntry) :
  In e (student_challenge_history nf db u) <->
  exists s c, In s (sessions db) /\ student_id s = u /\ status s = completed /\
              get_challenge db (s_challenge_id s) = Some c /\
              e = history_entry db s c.
Proof.
  unfold student_challenge_history. rewrite in_flat_map. split.
  - intros (s & Hs & He). apply order_by_end_time_desc_In in Hs.
    apply filter_In in Hs. destruct Hs as [Hs Hf].
    apply andb_true_iff in Hf. destruct Hf as [Hu Hc].
    apply Z.eqb_eq in Hu. apply status_eqb_eq in Hc.
    destruct (get_challenge db (s_challenge_id s)) as [c|] eqn:G; [|destruct He].
    destruct He as [He|[]]. exists s, c. repeat split; try assumption.
    symmetry. exact He.
  - intros (s & c & Hs & Hu & Hc & G & ->). exists s. split.
    + apply order_by_end_time_desc_In. apply filter_In. split; [exact Hs|].
      apply andb_true_iff. split; [apply Z.eqb_eq; exact Hu|].
      apply status_eqb_eq. exact Hc.
    + rewrite G. left. reflexivity.
Qed.

Lemma history_sorted (nf : bool) (db : DB) (u : Z) :
  newest_first nf (map h_date_completed (student_challenge_history nf db u)).
Proof.
  unfold student_challenge_history.
  generalize (order_by_end_time_desc_sorted nf
                (filter (fun s => (student_id s =? u)
                                  && status_eqb (status s) completed)
                        (sessions db))).
  generalize (order_by_end_time_desc nf
                (filter (fun s => (student_id s =? u)
                                  && status_eqb (status s) completed)
                        (sessions db))).
  induction l as [|s t IH]; [intros _; exact I|].
  cbn [map newest_first flat_map]. intros [Hs Ht]. specialize (IH Ht).
  assert (Hall : forall t',
             In t' (map h_date_completed
                      (flat_map (fun session_obj =>
                         match get_challenge db (s_challenge_id session_obj) with
                         | Some challenge => [history_entry db session_obj challenge]
                         | None => []
                         end) t)) ->
             precedes nf (end_time s) t' = true).
  { intros t' H. apply in_map_iff in H. destruct H as (e & <- & H).
    apply in_flat_map in H. destruct H as (x & Hx & H).
    destruct (get_challenge db (s_challenge_id x)); [|destruct H].
    destruct H as [<-|[]]. cbn [h_date_completed history_entry].
    apply Hs. apply in_map. exact Hx. }
  destruct (get_challenge db (s_challenge_id s)) as [c|];
    cbn [app map newest_first]; [|exact IH].
  split; [exact Hall|exact IH].
Qed.

(** X24.  The history page of a student lists the completed sessions of
    that student whose challenge exists and no other, with no more
    entries than such rows, from the latest end time to the earliest,
    whichever end of the list the database gives to rows without an end
    time. *)
Theorem history_lists_completed_sessions :
  forall (nulls_first : bool) (db : DB) (user_id : Z),
    (forall e, In e (student_challenge_history nulls_first db user_id) <->
       exists s c, In s (sessions db) /\ student_id s = user_id /\
                   status s = completed /\
                   get_challenge db (s_challenge_id s) = Some c /\
                   e = history_entry db s c) /\
    newest_first nulls_first
      (map h_date_completed (student_challenge_history nulls_first db user_id)) /\
    le (List.length (student_challenge_history nulls_first db user_id))
       (List.length (filter (fun s => (student_id s =? user_id)
                                      && status_eqb (status s) completed)
                            (sessions db))).
Proof.
  intros nf db u. split; [intros e; apply history_In|].
  split; [apply history_sorted|].
  unfold student_challenge_history.
  assert (L : forall l, List.length (order_by_end_time_desc nf l) = List.length l).
  { induction l as [|y t IH]; [reflexivity|].
    cbn [order_by_end_time_desc fold_right List.length].
    fold (order_by_end_time_desc nf t). rewrite <- IH.
    generalize (order_by_end_time_desc nf t). clear.
    induction l as [|x r IH]; [reflexivity|]. cbn [insert_by_end_time].
    destruct (precedes nf (end_time y) (end_time x)); cbn [List.length];
      [reflexivity|]. rewrite IH. reflexivity. }
  rewrite <- (L (filter _ (sessions db))).
  generalize (order_by_end_time_desc nf
                (filter (fun s => (student_id s =? u)
                                  && status_eqb (status s) completed)
                        (sessions db))).
  induction l as [|s t IH]; [apply le_n|].
  cbn [flat_map]. rewrite length_app. cbn [List.length].
  destruct (get_challenge db (s_challenge_id s)); cbn [List.length]; lia.
Qed.

(** X25.  The history page and the results page agree: with distinct
    session keys and every completed session storing what the results
    page computes, each entry of a student's history has the number of
    questions, the percentage and the verdict that the results page of
    its session shows to that student, and that page writes nothing. *)
Theorem history_agrees_with_results_page :
  forall (nulls_first : bool) (db : DB) (user_id : Z) (e : HistoryEntry),
    settled db ->
    In e (student_challenge_history nulls_first db user_id) ->
    exists res,
      challenge_results db user_id (s_id (h_session e))
      = (db, Render_challenge_results res) /\
      r_session res = h_session e /\
      r_challenge res = h_challenge e /\
      total_questions res = h_total_questions e /\
      r_percentage res = h_percentage e /\
      passed res = h_passed e.
Proof.
  intros nf db u e [Hk Hset] He.
  apply (proj1 (history_In nf db u e)) in He.
  destruct He as (s & c & Hs & Hu & Hc & G & ->).
  cbn [h_session h_challenge h_total_questions h_percentage h_passed history_entry].
  assert (Gs : get_session db (s_id s) = Some s).
  { unfold get_session. destruct (find _ (sessions db)) as [x|] eqn:F.
    - apply find_some in F. destruct F as [Hx Hid]. apply Z.eqb_eq in Hid.
      f_equal. apply (NoDup_key_eq (sessions db)); assumption.
    - exfalso. pose proof (find_none _ _ F s Hs) as H. cbv beta in H.
      rewrite Z.eqb_refl in H. discriminate H. }
  pose proof (get_challenge_id _ _ _ G) as Hcid.
  pose proof (Hset s Hs Hc) as Hrec. unfold recomputed in Hrec.
  rewrite <- Hcid in Hrec.
  assert (Hsc : score s = count_correct (answers_of db (s_id s))) by congruence.
  assert (Hpc : percentage s
                = (if 0 <? Z.of_nat (List.length (questions_of db (c_id c)))
                   then percent (count_correct (answers_of db (s_id s)))
                                (Z.of_nat (List.length (questions_of db (c_id c))))
                   else 0)) by congruence.
  rewrite (results_completed db u (s_id s) s c Gs Hu Hc G).
  unfold results_of. cbv zeta. rewrite <- Hpc, <- Hsc, !Z.eqb_refl.
  cbn [negb orb]. cbv iota.
  eexists. split; [reflexivity|].
  cbn [r_session r_challenge total_questions r_percentage passed].
  repeat split; reflexivity.
Qed.

(** Student 7 completed challenge 3 twice and challenge 9, which no
    longer exists, once. *)
Definition history_db : DB :=
  mkDB [mkChallenge 3 None 3 0 true]
       [mcq 1 3 0 "1" "2" "3" "4" "B"; mcq 2 3 1 "x" "y" "z" "w" "A"]
       [mkSession 1 7 3 0 (Some 10) completed 1 50 160 None;
        mkSession 2 7 9 0 (Some 20) completed 0 0 150 None;
        mkSession 3 7 3 30 (Some 40) completed 2 100 120 None;
        mkSession 4 8 3 30 (Some 50) completed 0 0 50 None]
       [mkAnswer 1 1 1 "2" true 5; mkAnswer 2 1 2 "z" false 8;
        mkAnswer 3 3 1 "2" true 35; mkAnswer 4 3 2 "x" true 38].

Lemma history_lists_completed_sessions_witness :
  map (fun e => (s_id (h_session e), h_passed e))
      (student_challenge_history false history_db 7)
  = [(3, true); (1, false)]
  /\ newest_first false
       (map h_date_completed (student_challenge_history false history_db 7)).
Proof.
  split; [reflexivity|].
  exact (proj1 (proj2 (history_lists_completed_sessions false history_db 7))).
Defined.

Lemma history_db_settled : settled history_db.
Proof.
  split; [cbn; repeat constructor; cbn; intuition discriminate|].
  intros s [<-|[<-|[<-|[<-|[]]]]] _; reflexivity.
Qed.

Lemma history_agrees_with_results_page_witness :
  exists res,
    challenge_results history_db 7 3 = (history_db, Render_challenge_results res) /\
    passed res = true.
Proof.
  assert (He : In (history_entry history_db
                     (mkSession 3 7 3 30 (Some 40) completed 2 100 120 None)
                     (mkChallenge 3 None 3 0 true))
                  (student_challenge_history false history_db 7))
    by (left; reflexivity).
  destruct (history_agrees_with_results_page false history_db 7 _
              history_db_settled He) as (res & H1 & _ & _ & _ & _ & H2).
  exists res. split; [exact H1|exact H2].
Defined.
